(** * Virgin Media Hub 3 client: a shallow embedding of [virginmedia.py]

    The development follows the layout of the Python module:

    - the Python built-ins the module relies on ([int], [str], [hex],
      slicing, [split], [join], ...), modelled on strings of 8-bit
      characters;
    - the value codec ([extract_ip], [ipv4_to_dollar], [extract_mac],
      [extract_date]);
    - the table assembler of the [snmp_table] decorator;
    - the [Hub] class: the request layer [_get], [login], [logout],
      [snmp_set], [apply_settings], [snmp_walk].

    Exceptions are values of [exn]; a pure function that may raise returns
    an [Outcome].  Methods of [Hub] thread the object and the device trace
    explicitly, in the monad [M].

    Modelling choices:

    - the device is an oracle that answers the n-th request of a run, or
      is unreachable; the trace records every request and every sleep;
    - [requests]' [raise_for_status] raises [HTTPError] for the statuses
      400 to 599; [datetime.datetime] raises [ValueError] for fields out
      of range; [json.loads], [base64] and what the module takes from the
      [snmp] module (the descriptor behind [auth_username], the values of
      [snmp.Type]) are parameters, gathered in [Environment];
    - the loop of [_get] runs on a step budget: [None] means the budget
      ran out, and the results below say which budget is enough;
    - warnings and the elapsed-time counters (floating-point seconds) are
      left out; the call and retry counters are kept in [counters]. *)

From Stdlib Require Import ZArith List String Ascii Bool Lia HexString DecimalString.
From Stdlib Require Import Sorted Permutation DecimalPos DecimalZ.
From stdpp Require Import base strings gmap.
Import ListNotations.

Local Open Scope string_scope.
Local Open Scope Z_scope.
Local Set Warnings "-register-all".

(* ===================================================================== *)
(** * Python built-ins *)
(* ===================================================================== *)

(** The exceptions the module raises or lets through. *)
Inductive exn : Type :=
| ValueError
| TypeError
| SyntaxError
| IndexError
| KeyError
| AttributeError
| UnicodeEncodeError
| ConnectionError
| HTTPError (status : Z)
| AccessDenied (url : string)
| LoginFailed
| SNMPSetError (oid : string).

Inductive Outcome (A : Type) : Type :=
| Ok (a : A)
| Raise (e : exn).
Arguments Ok {A} a.
Arguments Raise {A} e.

Definition obind {A B} (k : A -> Outcome B) (m : Outcome A) : Outcome B :=
  match m with
  | Ok a => k a
  | Raise e => Raise e
  end.

#[global] Instance Outcome_ret : MRet Outcome := @Ok.
#[global] Instance Outcome_bind : MBind Outcome := @obind.

Fixpoint omap {A B} (f : A -> Outcome B) (l : list A) : Outcome (list B) :=
  match l with
  | [] => Ok []
  | x :: xs => y ← f x; ys ← omap f xs; Ok (y :: ys)
  end.

(** [s[i:j]] and [s[i:]] for non-negative indices; slicing never raises. *)
Definition slice (i j : nat) (s : string) : string := substring i (j - i) s.
Definition slice_from (i : nat) (s : string) : string :=
  substring i (String.length s - i) s.

(** [s.split(sep)] for a one-character separator. *)
Fixpoint split (sep : ascii) (s : string) : list string :=
  match s with
  | EmptyString => [EmptyString]
  | String c rest =>
      if Ascii.eqb c sep then EmptyString :: split sep rest
      else match split sep rest with
           | piece :: pieces => String c piece :: pieces
           | [] => [String c EmptyString]
           end
  end.

(** [sep.join(pieces)]. *)
Fixpoint join (sep : string) (pieces : list string) : string :=
  match pieces with
  | [] => EmptyString
  | [p] => p
  | p :: ps => p +:+ sep +:+ join sep ps
  end.

(** [str.lower] on 8-bit characters. *)
Definition lower_char (c : ascii) : ascii :=
  let n := nat_of_ascii c in
  if ((65 <=? n) && (n <=? 90))%nat then ascii_of_nat (n + 32) else c.

Fixpoint lower (s : string) : string :=
  match s with
  | EmptyString => EmptyString
  | String c rest => String (lower_char c) (lower rest)
  end.

(** [s.replace(old, new)] for a one-character [old]. *)
Fixpoint replace_char (old : ascii) (new : string) (s : string) : string :=
  match s with
  | EmptyString => EmptyString
  | String c rest =>
      if Ascii.eqb c old then new +:+ replace_char old new rest
      else String c (replace_char old new rest)
  end.

(** Characters [int] skips around a number, among the code points below
    256: the ASCII white space (9 to 13 and 32) and the two white-space
    code points beyond ASCII (133 and 160).  The separators 28 to 31,
    which [str.strip] removes, are not skipped by [int]. *)
Definition is_space (c : ascii) : bool :=
  let n := nat_of_ascii c in
  (((9 <=? n) && (n <=? 13)) || (n =? 32) || (n =? 133) || (n =? 160))%nat.

Definition digit_value (c : ascii) : option Z :=
  let n := nat_of_ascii c in
  if ((48 <=? n) && (n <=? 57))%nat then Some (Z.of_nat n - 48)
  else if ((97 <=? n) && (n <=? 122))%nat then Some (Z.of_nat n - 87)
  else if ((65 <=? n) && (n <=? 90))%nat then Some (Z.of_nat n - 55)
  else None.

Fixpoint lstrip (l : list ascii) : list ascii :=
  match l with
  | c :: t => if is_space c then lstrip t else l
  | [] => []
  end.

Definition strip (l : list ascii) : list ascii := rev (lstrip (rev (lstrip l))).

(** The digits of a literal: single underscores may separate digits. *)
Fixpoint parse_digits (base : Z) (l : list ascii) (acc : Z) (after_underscore : bool)
  : option Z :=
  match l with
  | [] => if after_underscore then None else Some acc
  | c :: t =>
      if Ascii.eqb c "_" then
        if after_underscore then None else parse_digits base t acc true
      else
        match digit_value c with
        | Some d => if d <? base then parse_digits base t (acc * base + d) false else None
        | None => None
        end
  end.

Definition parse_number (base : Z) (l : list ascii) : option Z :=
  match l with
  | [] => None
  | c :: _ => if Ascii.eqb c "_" then None else parse_digits base l 0 false
  end.

(** The interpreter's limit on the digits of a number converted from or
    to text in a base that is no power of two
    ([sys.int_info.default_max_str_digits]); underscores do not count. *)
Definition int_max_str_digits : Z := 4300.

Definition count_digits (l : list ascii) : nat :=
  length (List.filter (fun c => negb (Ascii.eqb c "_")) l).

Definition is_binary_base (base : Z) : bool :=
  (base =? 2) || (base =? 4) || (base =? 8) || (base =? 16) || (base =? 32).

(** [int(s, base)] for base 10 and base 16: white space around the
    literal, a sign, for base 16 the prefix [0x] (and one underscore after
    it), then the digits, for base 10 no more of them than the limit. *)
Definition py_int (base : Z) (s : string) : Outcome Z :=
  let l := strip (list_ascii_of_string s) in
  let '(negative, l1) :=
    match l with
    | c :: t => if Ascii.eqb c "-" then (true, t)
                else if Ascii.eqb c "+" then (false, t) else (false, l)
    | [] => (false, l)
    end in
  let l2 :=
    match l1 with
    | z :: x :: t =>
        if (base =? 16) && Ascii.eqb z "0" && (Ascii.eqb x "x" || Ascii.eqb x "X")
        then match t with
             | u :: t' => if Ascii.eqb u "_" then t' else t
             | [] => t
             end
        else l1
    | _ => l1
    end in
  match parse_number base l2 with
  | Some n =>
      if negb (is_binary_base base) && (int_max_str_digits <? Z.of_nat (count_digits l2))
      then Raise ValueError
      else Ok (if negative then - n else n)
  | None => Raise ValueError
  end.

(** [str(n)] and [hex(n)] of an integer.  [str] has this text for an
    integer within the limit above, as are the integers the module itself
    makes (octets, status codes); for an integer it is handed, see
    [str_value]. *)
Definition py_str (n : Z) : string := NilZero.string_of_int (Z.to_int n).

(** The number of decimal digits of an integer. *)
Definition decimal_digits (n : Z) : Z := Z.of_nat (String.length (py_str (Z.abs n))).
Definition py_hex (n : Z) : string := HexString.of_Z n.

(** ["{0:0>2s}".format(s)]: right-aligned in two columns, filled with [0]. *)
Definition format_02s (s : string) : string :=
  match String.length s with
  | O => "00"
  | S O => String "0" s
  | _ => s
  end.

(* ===================================================================== *)
(** * Value codec *)
(* ===================================================================== *)

(** [extract_ip(hexvalue, zero_is_none)]; [None] is the absent marker. *)
Definition extract_ip (hexvalue : string) (zero_is_none : bool) : Outcome (option string) :=
  a ← py_int 16 (slice 1 3 hexvalue);
  b ← py_int 16 (slice 3 5 hexvalue);
  c ← py_int 16 (slice 5 7 hexvalue);
  d ← py_int 16 (slice 7 9 hexvalue);
  let ipaddr := py_str a +:+ "." +:+ py_str b +:+ "." +:+ py_str c +:+ "." +:+ py_str d in
  if String.eqb ipaddr "0.0.0.0" && zero_is_none then Ok None else Ok (Some ipaddr).

(** The local helper [tohex] of [ipv4_to_dollar]. *)
Definition tohex (decimal : string) : Outcome string :=
  n ← py_int 10 decimal;
  Ok (format_02s (lower (slice_from 2 (py_hex n)))).

Definition ipv4_to_dollar (address : string) : Outcome string :=
  hs ← omap tohex (split "." address);
  Ok ("$" +:+ join "" hs).

(** [extract_mac(mac)]. *)
Definition extract_mac (mac : string) : string :=
  fold_left (fun res idx => res +:+ ":" +:+ slice idx (idx + 2) mac)
            [3; 5; 7; 9; 11]%nat (slice 1 3 mac).

(** [datetime.datetime(year, month, day, hour, minute, second)]: the
    constructor checks every field and raises [ValueError] otherwise. *)
Record datetime : Type := mk_datetime {
  dt_year : Z; dt_month : Z; dt_day : Z;
  dt_hour : Z; dt_minute : Z; dt_second : Z
}.

Definition is_leap (y : Z) : bool :=
  (y mod 4 =? 0) && (negb (y mod 100 =? 0) || (y mod 400 =? 0)).

Definition days_in_month (y m : Z) : Z :=
  if m =? 2 then (if is_leap y then 29 else 28)
  else if (m =? 4) || (m =? 6) || (m =? 9) || (m =? 11) then 30
  else 31.

Definition valid_datetime (d : datetime) : bool :=
  (1 <=? dt_year d) && (dt_year d <=? 9999)
  && (1 <=? dt_month d) && (dt_month d <=? 12)
  && (1 <=? dt_day d) && (dt_day d <=? days_in_month (dt_year d) (dt_month d))
  && (0 <=? dt_hour d) && (dt_hour d <=? 23)
  && (0 <=? dt_minute d) && (dt_minute d <=? 59)
  && (0 <=? dt_second d) && (dt_second d <=? 59).

Definition datetime_new (year month day hour minute second : Z) : Outcome datetime :=
  let d := mk_datetime year month day hour minute second in
  if valid_datetime d then Ok d else Raise ValueError.

(** [extract_date(vmdate)]; the argument may be [None]. *)
Definition extract_date (vmdate : option string) : Outcome (option datetime) :=
  match vmdate with
  | None => Ok None
  | Some v =>
      if String.eqb v "" || String.eqb v "$0000000000000000" then Ok None
      else
        year ← py_int 16 (slice 1 5 v);
        month ← py_int 16 (slice 5 7 v);
        dom ← py_int 16 (slice 7 9 v);
        hour ← py_int 16 (slice 9 11 v);
        minute ← py_int 16 (slice 11 13 v);
        second ← py_int 16 (slice 13 15 v);
        d ← datetime_new year month dom hour minute second;
        Ok (Some d)
  end.

(* ===================================================================== *)
(** * Dictionaries and JSON values *)
(* ===================================================================== *)

(** A Python [dict] with string keys: the items in insertion order. *)
Definition dict (V : Type) : Type := list (string * V).

Fixpoint dict_get {V} (k : string) (d : dict V) : option V :=
  match d with
  | [] => None
  | (k', v) :: rest => if String.eqb k k' then Some v else dict_get k rest
  end.

Definition dict_mem {V} (k : string) (d : dict V) : bool :=
  match dict_get k d with Some _ => true | None => false end.

(** [d[k] = v]: an existing key keeps its place. *)
Fixpoint dict_set {V} (k : string) (v : V) (d : dict V) : dict V :=
  match d with
  | [] => [(k, v)]
  | (k', v') :: rest =>
      if String.eqb k k' then (k', v) :: rest else (k', v') :: dict_set k v rest
  end.

(** [del d[k]]. *)
Fixpoint dict_del {V} (k : string) (d : dict V) : dict V :=
  match d with
  | [] => []
  | (k', v') :: rest =>
      if String.eqb k k' then dict_del k rest else (k', v') :: dict_del k rest
  end.

(** [d.update(other)]. *)
Definition dict_update {V} (d other : dict V) : dict V :=
  fold_left (fun acc kv => dict_set (fst kv) (snd kv) acc) other d.

Definition dict_values {V} (d : dict V) : list V := map snd d.

(** What [json.loads] returns. *)
Inductive json : Type :=
| JNull
| JBool (b : bool)
| JInt (z : Z)
| JFloat (literal : string)
| JStr (s : string)
| JArr (items : list json)
| JObj (members : list (string * json)).

(** [value == text] for a JSON value and a string literal. *)
Definition json_is_str (text : string) (value : option json) : bool :=
  match value with
  | Some (JStr s) => String.eqb s text
  | _ => false
  end.

(* ===================================================================== *)
(** * Table assembler: the [snmp_table] decorator *)
(* ===================================================================== *)

(** The local helpers [col_num] and [row_num] of [real_wrapper]. *)
Definition col_num (top_oid walked_oid : string) : string :=
  match split "." (slice_from (String.length top_oid + 1) walked_oid) with
  | c :: _ => c
  | [] => EmptyString
  end.

Definition row_num (top_oid walked_oid : string) : Outcome Z :=
  match split "." (slice_from (String.length top_oid + 1) walked_oid) with
  | _ :: r :: _ => py_int 10 r
  | _ => Raise IndexError
  end.

(** [collections.namedtuple] refuses field names that are not identifiers,
    are keywords, start with an underscore or repeat.

    [str.isidentifier] among the code points below 256: a letter or an
    underscore, then letters, digits, underscores and the middle dot
    (183).  The letters beyond ASCII are the ordinal indicators (170 and
    186), the micro sign (181) and 192 to 255 without the multiplication
    and the division sign (215 and 247). *)
Definition is_ident_start (c : ascii) : bool :=
  let n := nat_of_ascii c in
  (((65 <=? n) && (n <=? 90)) || ((97 <=? n) && (n <=? 122)) || (n =? 95)
   || (n =? 170) || (n =? 181) || (n =? 186)
   || ((192 <=? n) && (n <=? 214)) || ((216 <=? n) && (n <=? 246))
   || ((248 <=? n) && (n <=? 255)))%nat.

Definition is_ident_char (c : ascii) : bool :=
  let n := nat_of_ascii c in
  is_ident_start c || (((48 <=? n) && (n <=? 57)) || (n =? 183))%nat.

Definition isidentifier (s : string) : bool :=
  match list_ascii_of_string s with
  | [] => false
  | c :: t => is_ident_start c && forallb is_ident_char t
  end.

Definition keywords : list string :=
  ["False"; "None"; "True"; "and"; "as"; "assert"; "async"; "await"; "break";
   "class"; "continue"; "def"; "del"; "elif"; "else"; "except"; "finally";
   "for"; "from"; "global"; "if"; "import"; "in"; "is"; "lambda"; "nonlocal";
   "not"; "or"; "pass"; "raise"; "return"; "try"; "while"; "with"; "yield"].

Definition string_in (s : string) (l : list string) : bool :=
  existsb (String.eqb s) l.

Fixpoint distinct (l : list string) : bool :=
  match l with
  | [] => true
  | x :: xs => negb (string_in x xs) && distinct xs
  end.

Definition field_name_ok (s : string) : bool :=
  isidentifier s && negb (string_in s keywords)
  && match s with String c _ => negb (Ascii.eqb c "_") | EmptyString => true end.

(** Where Python compiles an identifier it normalises it (NFKC).  Among
    the code points below 256 that identifiers hold this rewrites three:
    the ordinal indicators become the letters [a] and [o], and the micro
    sign becomes the Greek letter mu, a code point beyond 255 that nothing
    else becomes (so it stands for itself when names are compared). *)
Definition nfkc_char (c : ascii) : ascii :=
  let n := nat_of_ascii c in
  if (n =? 170)%nat then "a"%char else if (n =? 186)%nat then "o"%char else c.

Fixpoint nfkc (s : string) : string :=
  match s with
  | EmptyString => EmptyString
  | String c rest => String (nfkc_char c) (nfkc rest)
  end.

Definition nfkc_stable (s : string) : bool :=
  forallb (fun c => let n := nat_of_ascii c in
                    negb ((n =? 170) || (n =? 181) || (n =? 186))%nat)
          (list_ascii_of_string s).

(** The field names of [rowcls]: the column names, then [row_idx].  After
    its own checks [namedtuple] compiles the constructor with the fields
    as parameters, where two names that are one after normalisation are a
    [SyntaxError]. *)
Definition rowcls_fields (columns : dict string) : Outcome (list string) :=
  let fields := (dict_values columns ++ ["row_idx"])%list in
  if forallb field_name_ok fields && distinct fields then
    if distinct (map nfkc fields) then Ok fields else Raise SyntaxError
  else Raise ValueError.

(** An [SNMPRow]: one cell per declared column, in declaration order
    ([None] where the row has no value), and the row index. *)
Record SNMPRow : Type := mk_row {
  cells : list (string * option json);
  row_idx : Z
}.

(** The key [results.sort] orders by: [(row_num, col_num)], tuples compared
    component by component, strings by code point. *)
Definition key_le (k1 k2 : Z * string) : bool :=
  (fst k1 <? fst k2) || ((fst k1 =? fst k2) && String.leb (snd k1) (snd k2)).

(** [list.sort(key=...)] is stable: equal keys keep their order. *)
Fixpoint sort_insert {A} (x : (Z * string) * A) (l : list ((Z * string) * A))
  : list ((Z * string) * A) :=
  match l with
  | [] => [x]
  | y :: rest => if key_le (fst x) (fst y) then x :: y :: rest
                 else y :: sort_insert x rest
  end.

Fixpoint sort_by_key {A} (l : list ((Z * string) * A)) : list ((Z * string) * A) :=
  match l with
  | [] => []
  | x :: rest => sort_insert x (sort_by_key rest)
  end.

(** [itertools.groupby]: maximal runs of consecutive items with equal keys. *)
Fixpoint groupby {A} (key : A -> Z) (l : list A) : list (Z * list A) :=
  match l with
  | [] => []
  | x :: rest =>
      match groupby key rest with
      | (k, run) :: groups =>
          if key x =? k then (k, x :: run) :: groups
          else (key x, [x]) :: (k, run) :: groups
      | [] => [(key x, [x])]
      end
  end.

(** The keyword arguments of one row: [{columns[col_num(c[0])]: c[1] for c in val}]. *)
Fixpoint row_kwargs (top_oid : string) (columns : dict string)
  (run : list (string * json)) (acc : dict json) : Outcome (dict json) :=
  match run with
  | [] => Ok acc
  | (oid, value) :: rest =>
      match dict_get (col_num top_oid oid) columns with
      | Some name => row_kwargs top_oid columns rest (dict_set name value acc)
      | None => Raise KeyError
      end
  end.

Definition make_row (columns : dict string) (kwargs : dict json) (idx : Z) : SNMPRow :=
  mk_row (map (fun name => (name, dict_get name kwargs)) (dict_values columns)) idx.

(** [rowcls] called with the keyword arguments [kwargs], then
    [_replace(row_idx=idx)]: the keywords are matched
    against the parameters of the compiled constructor, which are the
    normalised fields, so a name that the normalisation rewrites is an
    unexpected keyword, a [TypeError]. *)
Definition rowcls_call (columns : dict string) (kwargs : dict json) (idx : Z)
  : Outcome SNMPRow :=
  if forallb (fun kv => nfkc_stable (fst kv)) kwargs
  then Ok (make_row columns kwargs idx)
  else Raise TypeError.

(** The rows the wrapper passes on as [table_rows], from the walk result.
    [sort] computes the key of every item (so a malformed row segment
    raises there); [groupby] sees the same row numbers again. *)
Definition table_rows (top_oid : string) (columns : dict string) (walk : dict json)
  : Outcome (list SNMPRow) :=
  let results := List.filter (fun x => dict_mem (col_num top_oid (fst x)) columns) walk in
  keyed ← omap (fun x => r ← row_num top_oid (fst x);
                         Ok ((r, col_num top_oid (fst x)), x)) results;
  let sorted := sort_by_key keyed in
  omap (fun g => kwargs ← row_kwargs top_oid columns (map snd (snd g)) [];
                 rowcls_call columns kwargs (fst g))
       (groupby (fun kx => fst (fst kx)) sorted).

(* ===================================================================== *)
(** * The device, the [Hub] object and its methods *)
(* ===================================================================== *)

(** What [requests.get] sends and receives.  [text] and [content] are the
    same 8-bit string. *)
Record Request : Type := mk_request {
  req_url : string;
  req_cookies : option string;
  req_timeout : Z;
  req_params : dict string
}.

Record Response : Type := mk_response {
  status_code : Z;
  content : string
}.

Definition text (r : Response) : string := content r.

Inductive Reply : Type :=
| Answers (r : Response)
| Unreachable.

(** What the outside world sees of a run, in order. *)
Inductive Event : Type :=
| EvRequest (r : Request)
| EvSleep (secs : Z).

Definition World : Type := list Event.

Definition is_request (e : Event) : bool :=
  match e with EvRequest _ => true | EvSleep _ => false end.

Definition requests_made (w : World) : nat := length (List.filter is_request w).

Definition sleeps (w : World) : list Z :=
  flat_map (fun e => match e with EvSleep s => [s] | EvRequest _ => [] end) w.

(** The attributes of a [Hub] instance. *)
Record Hub : Type := mk_hub {
  _credential : option string;
  _url : string;
  _hostname : string;
  _username : option string;
  _password : option string;
  http_timeout : Z;
  _nonce : dict string;
  _nonce_str : string;
  counters : gmap string Z;
  _modelname : option json;
  _family : option json;
  _unapplied_settings : bool
}.

(** [Hub.__init__] without keyword arguments; [millis] and [rnd] stand for
    the clock reading and the random number drawn there. *)
Definition Hub_init (hostname : string) (timeout millis rnd : Z) : Hub :=
  mk_hub None ("http://" +:+ hostname) hostname None None timeout
         [("_", py_str millis); ("_n", py_str rnd)]
         ("_n=" +:+ py_str rnd +:+ "&_=" +:+ py_str millis)
         ∅ None None false.

Definition set_counters (c : gmap string Z) (h : Hub) : Hub :=
  mk_hub (_credential h) (_url h) (_hostname h) (_username h) (_password h)
         (http_timeout h) (_nonce h) (_nonce_str h) c
         (_modelname h) (_family h) (_unapplied_settings h).

Definition set_login (credential username password : option string)
  (modelname family : option json) (h : Hub) : Hub :=
  mk_hub credential (_url h) (_hostname h) username password
         (http_timeout h) (_nonce h) (_nonce_str h) (counters h)
         modelname family (_unapplied_settings h).

Definition set_unapplied_settings (b : bool) (h : Hub) : Hub :=
  mk_hub (_credential h) (_url h) (_hostname h) (_username h) (_password h)
         (http_timeout h) (_nonce h) (_nonce_str h) (counters h)
         (_modelname h) (_family h) b.

(** The members of the enumeration [snmp.Type]. *)
Inductive SnmpType : Type :=
| Type_STRING
| Type_INT
| Type_other (name : string).

Definition is_STRING (t : option SnmpType) : bool :=
  match t with Some Type_STRING => true | _ => false end.

(** What lies outside the module: the device, answering the n-th request
    of a run; [json.loads] and the [base64] codec ([None] when they raise);
    the descriptor behind [Hub.auth_username] and the values of the
    [snmp.Type] members, both of the [snmp] module. *)
Class Environment : Type := {
  device : nat -> Request -> Reply;
  json_loads : string -> option json;
  b64encode : string -> string;
  b64decode : string -> option string;
  auth_username : Hub -> World -> Outcome string * Hub * World;
  Type_value : SnmpType -> string
}.

(** A method: it reads and updates the object and the world, and returns
    or raises; [None] when the step budget of the model is used up. *)
Definition M (A : Type) : Type := Hub -> World -> option (Outcome A * Hub * World).

Definition M_unit {A} (a : A) : M A := fun h w => Some (Ok a, h, w).

Definition M_then {A B} (k : A -> M B) (m : M A) : M B :=
  fun h w =>
    match m h w with
    | Some (Ok a, h', w') => k a h' w'
    | Some (Raise e, h', w') => Some (Raise e, h', w')
    | None => None
    end.

#[global] Instance M_ret : MRet M := @M_unit.
#[global] Instance M_bind : MBind M := @M_then.
#[global] Typeclasses Opaque M.

Definition get_self : M Hub := fun h w => Some (Ok h, h, w).
Definition update_self (f : Hub -> Hub) : M unit := fun h w => Some (Ok tt, f h, w).
Definition raise {A} (e : exn) : M A := fun h w => Some (Raise e, h, w).
Definition lift {A} (o : Outcome A) : M A := fun h w => Some (o, h, w).
Definition out_of_steps {A} : M A := fun _ _ => None.

(** [try: body finally: cleanup]. *)
Definition try_finally {A} (body : M A) (cleanup : M unit) : M A :=
  fun h w =>
    match body h w with
    | Some (r, h1, w1) =>
        match cleanup h1 w1 with
        | Some (Ok _, h2, w2) => Some (r, h2, w2)
        | Some (Raise e, h2, w2) => Some (Raise e, h2, w2)
        | None => None
        end
    | None => None
    end.

Definition newline : ascii := ascii_of_nat 10.

(** A Python value passed to [snmp_set] or held by a cell of a table: a
    string or an integer.  [str(v)] is its text, but an integer of more
    digits than the limit has none: [str] raises [ValueError]. *)
Inductive PyValue : Type :=
| PStr (s : string)
| PInt (z : Z).

Definition str_of (v : PyValue) : string :=
  match v with PStr s => s | PInt z => py_str z end.

Definition renders (v : PyValue) : bool :=
  match v with
  | PStr _ => true
  | PInt z => decimal_digits z <=? int_max_str_digits
  end.

Definition str_value (v : PyValue) : Outcome string :=
  if renders v then Ok (str_of v) else Raise ValueError.

Definition falsy (s : option string) : bool :=
  match s with None => true | Some s => String.eqb s "" end.

Definition is_ascii (s : string) : bool :=
  forallb (fun c => (nat_of_ascii c <? 128)%nat) (list_ascii_of_string s).

(** The property [is_loggedin]. *)
Definition is_loggedin (h : Hub) : bool :=
  match _credential h with Some _ => true | None => false end.

Definition clear_session (h : Hub) : Hub :=
  set_login None None None (_modelname h) (_family h) h.

(** [self.counters[name] = self.counters.get(name, 0) + increment]. *)
Definition counter_add (name : string) (increment : Z) (h : Hub) : Hub :=
  set_counters (<[name := default 0 (counters h !! name) + increment]> (counters h)) h.

Section Methods.
Context `{Env : Environment}.

Definition _increment_counter (name : string) (increment : Z) : M unit :=
  update_self (counter_add name increment).

(** The decorator [collect_stats]; the elapsed-time counters, which hold
    floating-point seconds, are left out. *)
Definition collect_stats {A} (name : string) (body : M A) : M A :=
  _increment_counter (name +:+ ":calls") 1;; body.

Definition requests_get (req : Request) : M Response :=
  fun h w =>
    match device (requests_made w) req with
    | Answers r => Some (Ok r, h, (w ++ [EvRequest req])%list)
    | Unreachable => Some (Raise ConnectionError, h, (w ++ [EvRequest req])%list)
    end.

Definition time_sleep (secs : Z) : M unit :=
  fun h w => Some (Ok tt, h, (w ++ [EvSleep secs])%list).

(** [resp.raise_for_status()]. *)
Definition raise_for_status (resp : Response) : M unit :=
  if (400 <=? status_code resp) && (status_code resp <? 600)
  then raise (HTTPError (status_code resp)) else mret tt.

Definition _params (keyvalues : dict string) : M (dict string) :=
  collect_stats "_params"
    (h ← get_self; mret (dict_update (dict_update [] (_nonce h)) keyvalues)).

(** The request [_get] sends: the cookie goes with it when the credential
    is set (and not empty). *)
Definition request_of (h : Hub) (url : string) (params : dict string) : Request :=
  mk_request (_url h +:+ "/" +:+ url)
             (if falsy (_credential h) then None else _credential h)
             (http_timeout h) params.

(** The body of [login], over the [_get] it calls: first the user name
    (read from the device when none is given), then the rest. *)
Definition login_as (get : string -> Z -> Z -> dict string -> M Response)
  (username : string) (password : option string) : M unit :=
  arg ← match password with
        | Some p => if is_ascii (username +:+ ":" +:+ p)
                    then mret (b64encode (username +:+ ":" +:+ p))
                    else raise UnicodeEncodeError
        | None => raise TypeError
        end;
  params ← _params [("arg", arg)];
  resp ← get "login" 0 3 params;
  if String.eqb (content resp) "" then raise LoginFailed
  else
    match (match b64decode (content resp) with
           | Some decoded => json_loads decoded
           | None => None
           end) with
    | None => raise LoginFailed
    | Some (JObj attrs) =>
        update_self (set_login (Some (text resp)) (Some username) password
                               (dict_get "modelname" attrs) (dict_get "family" attrs))
    | Some _ => raise AttributeError
    end.

Definition login_with (get : string -> Z -> Z -> dict string -> M Response)
  (username password : option string) : M unit :=
  username ← (if falsy username
              then (fun h w => Some (auth_username h w)) : M string
              else mret (default "" username));
  login_as get username password.

(** What follows the loop of [_get]. *)
Definition _get_finish (url : string) (resp : Response) : M Response :=
  raise_for_status resp;;
  if status_code resp =? 401 then raise (AccessDenied url) else mret resp.

(** The loop of [_get]; every iteration and every nested call takes a step
    of [fuel]. *)
Fixpoint _get_loop (fuel : nat) (url : string) (params : dict string)
  (retry401 retry500 sleep : Z) {struct fuel} : M Response :=
  match fuel with
  | O => out_of_steps
  | S fuel' =>
      h ← get_self;
      resp ← requests_get (request_of h url params);
      _increment_counter ("received_http_" +:+ py_str (status_code resp)) 1;;
      if status_code resp =? 401 then
        let retry401 := retry401 - 1 in
        h ← get_self;
        if (0 <? retry401) && is_loggedin h then
          collect_stats "login"
            (login_with (fun u r401 r500 p =>
                           collect_stats "_get" (_get_loop fuel' u p r401 r500 1))
                        (_username h) (_password h));;
          _increment_counter "_get_retries_401" 1;;
          _get_loop fuel' url params retry401 retry500 sleep
        else _get_finish url resp
      else if status_code resp =? 500 then
        let retry500 := retry500 - 1 in
        if 0 <? retry500 then
          time_sleep sleep;;
          let sleep := sleep * 2 in
          _increment_counter "_get_retries_500" 1;;
          _increment_counter "_get_retries_500_sleep_secs" sleep;;
          _get_loop fuel' url params retry401 retry500 sleep
        else _get_finish url resp
      else _get_finish url resp
  end.

Definition _get (fuel : nat) (url : string) (retry401 retry500 : Z)
  (params : dict string) : M Response :=
  collect_stats "_get" (_get_loop fuel url params retry401 retry500 1).

Definition login (fuel : nat) (username password : option string) : M unit :=
  collect_stats "login" (login_with (_get fuel) username password).

Definition logout (fuel : nat) : M unit :=
  collect_stats "logout"
    (h ← get_self;
     if is_loggedin h then
       try_finally (_get fuel "logout" 0 3 (_nonce h);; mret tt)
                   (update_self clear_session)
     else mret tt).

(** The expression [oid_value] that [snmp_set] builds: [oid=value;datatype]. *)
Definition oid_value_of (oid : string) (value : option PyValue)
  (datatype : option SnmpType) : Outcome string :=
  let oid_value := oid in
  oid_value ←
    match value with
    | Some v => if is_STRING datatype
                then text ← str_value v;
                     Ok (oid_value +:+ "=" +:+ replace_char "$" "%24" text)
                else text ← str_value v;
                     Ok (oid_value +:+ "=" +:+ text)
    | None => Ok oid_value
    end;
  let oid_value := oid_value +:+ ";" in
  Ok (match datatype with
      | Some t => if String.eqb (Type_value t) "" then oid_value
                  else oid_value +:+ Type_value t
      | None => oid_value
      end).

Definition snmp_set (fuel : nat) (oid : string) (value : option PyValue)
  (datatype : option SnmpType) : M bool :=
  collect_stats "snmp_set"
    (h ← get_self;
     oid_value ← lift (oid_value_of oid value datatype);
     resp ← _get fuel ("snmpSet?oid=" +:+ oid_value +:+ ";&" +:+ _nonce_str h) 5 3 [];
     raise_for_status resp;;
     match json_loads (content resp) with
     | None => raise ValueError
     | Some (JObj members) =>
         if negb (dict_mem oid members) then raise (SNMPSetError oid)
         else if status_code resp =? 304 then mret false
         else update_self (set_unapplied_settings true);; mret true
     | Some _ => raise AttributeError
     end).

Definition commit_oid : string := "1.3.6.1.4.1.4115.1.20.1.1.9.0".

Definition apply_settings (fuel : nat) : M unit :=
  h ← get_self;
  if negb (_unapplied_settings h) then mret tt
  else
    snmp_set fuel commit_oid (Some (PInt 1)) (Some Type_INT);;
    update_self (set_unapplied_settings false).

Definition oid_error_line : string := "Error in OID formatting!".

(** The clean-up [snmp_walk] does before it parses the answer. *)
Definition drop_error_lines (jsondata : string) : string :=
  join (String newline "")
       (List.filter (fun x => negb (String.eqb x oid_error_line)) (split newline jsondata)).

(** ... and after: the final [1] entry goes. *)
Definition strip_finish (result : dict json) : dict json :=
  if json_is_str "Finish" (dict_get "1" result) then dict_del "1" result else result.

Definition snmp_walk (fuel : nat) (oid : string) : M (dict json) :=
  collect_stats "snmp_walk"
    (h ← get_self;
     resp ← _get fuel ("walk?oids=" +:+ oid +:+ ";" +:+ _nonce_str h) 5 3 [];
     match json_loads (drop_error_lines (text resp)) with
     | None => raise ValueError
     | Some (JObj result) => mret (strip_finish result)
     | Some _ => raise AttributeError
     end).

(** The decorator [snmp_table]: [rowcls] is made when the function is
    decorated, the walk happens at every call. *)
Definition snmp_table {B} (fuel : nat) (top_oid : string) (columns : dict string)
  (func : list SNMPRow -> M B) : Outcome (M B) :=
  _ ← rowcls_fields columns;
  Ok (walked ← snmp_walk fuel top_oid;
      rows ← lift (table_rows top_oid columns walked);
      func rows).

End Methods.

(* ===================================================================== *)
(** * Vocabulary of the statements *)
(* ===================================================================== *)

(** Hexadecimal digits, of either case and of lower case only, and the
    number a run of them denotes. *)
Definition is_hexdigit (c : ascii) : bool :=
  match digit_value c with Some d => d <? 16 | None => false end.

Definition is_lower_hexdigit (c : ascii) : bool :=
  is_hexdigit c && Ascii.eqb (lower_char c) c.

Definition hex_value (l : list ascii) : Z :=
  fold_left (fun acc c => acc * 16 + default 0 (digit_value c)) l 0.

(** The canonical dotted-quad text of four octets. *)
Definition octet (n : Z) : Prop := 0 <= n <= 255.

Definition dotted_quad (o1 o2 o3 o4 : Z) : string :=
  py_str o1 +:+ "." +:+ py_str o2 +:+ "." +:+ py_str o3 +:+ "." +:+ py_str o4.

Fixpoint has_char (c : ascii) (s : string) : bool :=
  match s with
  | EmptyString => false
  | String a rest => Ascii.eqb a c || has_char c rest
  end.

(** What the codec must do on one octet, checked over all 256 of them. *)
Definition octet_check (n : Z) : bool :=
  negb (has_char "." (py_str n))
  && match tohex (py_str n) with
     | Ok (String a (String b EmptyString)) =>
         match py_int 16 (String a (String b EmptyString)) with
         | Ok m => m =? n
         | Raise _ => false
         end
     | _ => false
     end.

(** The wire form of a MAC address or a timestamp: a dollar sign and the
    given digits. *)
Definition wire_of (digits : list ascii) : string :=
  String "$" (string_of_list_ascii digits).

(** The session attributes [login] and [logout] write. *)
Definition session (h : Hub)
  : option string * option string * option string * option json * option json :=
  (_credential h, _username h, _password h, _modelname h, _family h).

(** The requests of a trace that went to a given URL. *)
Definition is_request_to (u : string) (e : Event) : bool :=
  match e with
  | EvRequest r => String.eqb (req_url r) u
  | EvSleep _ => false
  end.

Definition requests_to (u : string) (w : World) : nat :=
  length (List.filter (is_request_to u) w).

Definition is_event_of (u : string) (e : Event) : bool :=
  match e with
  | EvRequest r => String.eqb (req_url r) u
  | EvSleep _ => true
  end.

(** Statuses on which [_get] returns the response: not 401, not 500, and
    none that [raise_for_status] refuses. *)
Definition passes (status : Z) : bool :=
  negb ((400 <=? status) && (status <? 600)).


(** The parameters [login] sends: the nonce and the encoded credentials. *)
Definition login_params `{Env : Environment} (h : Hub) (u p : string) : dict string :=
  dict_update (dict_update [] (_nonce h)) [("arg", b64encode (u +:+ ":" +:+ p))].

(** A value [snmp_set] can write into its expression, and the expression
    then. *)
Definition value_renders (value : option PyValue) : bool :=
  match value with Some v => renders v | None => true end.

Definition oid_value_text `{Env : Environment} (oid : string) (value : option PyValue)
  (datatype : option SnmpType) : string :=
  let oid_value :=
    match value with
    | Some v => if is_STRING datatype
                then oid +:+ "=" +:+ replace_char "$" "%24" (str_of v)
                else oid +:+ "=" +:+ str_of v
    | None => oid
    end in
  let oid_value := oid_value +:+ ";" in
  match datatype with
  | Some t => if String.eqb (Type_value t) "" then oid_value
              else oid_value +:+ Type_value t
  | None => oid_value
  end.

(** The requests [snmp_set] and [snmp_walk] send. *)
Definition snmp_set_request `{Env : Environment} (h : Hub) (oid : string)
  (value : option PyValue) (datatype : option SnmpType) : Request :=
  request_of h ("snmpSet?oid=" +:+ oid_value_text oid value datatype
                  +:+ ";&" +:+ _nonce_str h) [].

Definition snmp_walk_request (h : Hub) (oid : string) : Request :=
  request_of h ("walk?oids=" +:+ oid +:+ ";" +:+ _nonce_str h) [].

(** An entry of a walk survives the filter of the table assembler when its
    column segment is a key of the column specification. *)
Definition survives (top_oid : string) (columns : dict string)
  (entry : string * json) : bool :=
  dict_mem (col_num top_oid (fst entry)) columns.


(** [getattr(row, name)]: the cell of a row under a column name. *)
Definition row_get (row : SNMPRow) (name : string) : option json :=
  match dict_get name (cells row) with
  | Some cell => cell
  | None => None
  end.

(** The order of the first component of the keys of [sort]. *)
Definition row_le {A} (a b : (Z * string) * A) : Prop := fst (fst a) <= fst (fst b).

(** ** A simulated environment for the examples

    A reader for the flat objects of string values the device sends (in
    place of [json.loads]), a transparent transport encoding (in place of
    [base64]), a fixed default user name and the values of [snmp.Type]. *)
Definition dquote : ascii := ascii_of_nat 34.

Definition quoted (s : string) : string := String dquote (s +:+ String dquote EmptyString).

Inductive reader : Type :=
| RStart
| RKey (members : dict json)
| RInKey (members : dict json) (acc : list ascii)
| RColon (members : dict json) (key : string)
| RValue (members : dict json) (key : string)
| RInValue (members : dict json) (key : string) (acc : list ascii)
| RNext (members : dict json)
| RDone (members : dict json)
| RFail.

Definition read_char (st : reader) (c : ascii) : reader :=
  match st with
  | RStart => if is_space c then RStart
              else if Ascii.eqb c "{" then RKey [] else RFail
  | RKey m => if is_space c then RKey m
              else if Ascii.eqb c dquote then RInKey m []
              else if Ascii.eqb c "}" then RDone m else RFail
  | RInKey m acc => if Ascii.eqb c dquote then RColon m (string_of_list_ascii (rev acc))
                    else RInKey m (c :: acc)
  | RColon m k => if is_space c then RColon m k
                  else if Ascii.eqb c ":" then RValue m k else RFail
  | RValue m k => if is_space c then RValue m k
                  else if Ascii.eqb c dquote then RInValue m k [] else RFail
  | RInValue m k acc =>
      if Ascii.eqb c dquote
      then RNext (dict_set k (JStr (string_of_list_ascii (rev acc))) m)
      else RInValue m k (c :: acc)
  | RNext m => if is_space c then RNext m
               else if Ascii.eqb c "," then RKey m
               else if Ascii.eqb c "}" then RDone m else RFail
  | RDone m => if is_space c then RDone m else RFail
  | RFail => RFail
  end.

Definition read_flat_object (s : string) : option json :=
  match fold_left read_char (list_ascii_of_string s) RStart with
  | RDone m => Some (JObj m)
  | _ => None
  end.

Definition simulated (dev : nat -> Request -> Reply) : Environment :=
  {| device := dev;
     json_loads := read_flat_object;
     b64encode := fun s => s;
     b64decode := fun s => Some s;
     auth_username := fun h w => (Ok "admin", h, w);
     Type_value := fun t => match t with
                            | Type_STRING => "4"
                            | Type_INT => "2"
                            | Type_other _ => ""
                            end |}.

(** The envelope a login of the simulated device returns. *)
Definition login_envelope : string :=
  "{" +:+ quoted "modelname" +:+ ":" +:+ quoted "Hub 3" +:+ "," +:+ quoted "family" +:+ ":"
      +:+ quoted "TG2492" +:+ "}".

(** A device that accepts every login and answers 401 to anything else. *)
Definition denying_device : nat -> Request -> Reply :=
  fun _ req =>
    if String.eqb (req_url req) "http://192.168.0.1/login"
    then Answers (mk_response 200 login_envelope)
    else Answers (mk_response 401 "").

(** The device answers the n-th request with the n-th reply of a script. *)
Definition scripted (script : list Reply) : nat -> Request -> Reply :=
  fun n _ => nth n script Unreachable.

(** The answer to a walk, with the error line in the middle and the
    final entry. *)
Definition walk_answer : string :=
  join (String newline EmptyString)
       ["{"; quoted "1.3.6.1" +:+ ":" +:+ quoted "a" +:+ ","; oid_error_line;
        quoted "1" +:+ ":" +:+ quoted "Finish"; "}"].

(** A logged-in hub at the default address. *)
Definition example_hub : Hub :=
  set_login (Some "token") (Some "admin") (Some "secret") None None
            (Hub_init "192.168.0.1" 30 1541000000000 12345).

(* ===================================================================== *)
(** * More of the module *)
(* ===================================================================== *)

(** [extract_int(strvalue, zero_is_none)]; the argument may be [None]. *)
Definition extract_int (strvalue : option string) (zero_is_none : bool)
  : Outcome (option Z) :=
  match strvalue with
  | None => Ok None
  | Some s =>
      if String.eqb s "" then Ok None
      else
        ival ← py_int 10 s;
        if zero_is_none && (ival =? 0) then Ok None else Ok (Some ival)
  end.

(** [extract_ipv6(hexvalue, zero_is_none)]. *)
Definition extract_ipv6 (hexvalue : string) (zero_is_none : bool) : option string :=
  if String.eqb hexvalue "$00000000000000000000000000000000" && zero_is_none then None
  else Some (fold_left (fun res chunk => res +:+ ":" +:+ slice chunk (chunk + 4) hexvalue)
                       [5; 9; 13; 17; 21; 25; 29]%nat (slice 1 5 hexvalue)).

(** [unique_everseen(iterable, key)], its result as a list; [seen] is the
    set of keys met so far.  Without a key the elements are their own
    keys. *)
Fixpoint unique_everseen_from {A K} `{EqDecision K} (key : A -> K) (seen : list K)
  (iterable : list A) : list A :=
  match iterable with
  | [] => []
  | element :: rest =>
      if bool_decide (key element ∈ seen) then unique_everseen_from key seen rest
      else element :: unique_everseen_from key (key element :: seen) rest
  end.

Definition unique_everseen_key {A K} `{EqDecision K} (key : A -> K) (iterable : list A)
  : list A :=
  unique_everseen_from key [] iterable.

Definition unique_everseen {A} `{EqDecision A} (iterable : list A) : list A :=
  unique_everseen_from (fun x => x) [] iterable.

Section MoreMethods.
Context `{Env : Environment}.

(** [snmp_gets(oids)].  When the body does not parse, the handler calls
    [warnings.warn] with the body as its category; [warnings.warn] refuses
    a category that is not a warning class and raises [TypeError], which
    takes the place of the error being handled. *)
Definition snmp_gets (fuel : nat) (oids : list string) : M json :=
  collect_stats "snmp_gets"
    (h ← get_self;
     resp ← _get fuel ("snmpGet?oids=" +:+ join ";" oids +:+ ";&" +:+ _nonce_str h) 5 3 [];
     match json_loads (content resp) with
     | Some parsed => mret parsed
     | None => raise TypeError
     end).

(** [snmp_get(oid)]: [resp[oid]] on what [snmp_gets] returned. *)
Definition snmp_get (fuel : nat) (oid : string) : M json :=
  collect_stats "snmp_get"
    (resp ← snmp_gets fuel [oid];
     match resp with
     | JObj members =>
         match dict_get oid members with
         | Some value => mret value
         | None => raise KeyError
         end
     | _ => raise TypeError
     end).

(** [__exit__(exc_type, exc_value, traceback)]; [exc_type] says whether
    the block raised. *)
Definition __exit__ (fuel : nat) (exc_type : bool) : M bool :=
  collect_stats "__exit__"
    (fun h w =>
       match logout fuel h w with
       | Some (Ok _, h', w') => Some (Ok false, h', w')
       | Some (Raise (HTTPError status), h', w') =>
           if negb exc_type then Some (Raise (HTTPError status), h', w')
           else Some (Ok false, h', w')
       | Some (Raise e, h', w') => Some (Raise e, h', w')
       | None => None
       end).

End MoreMethods.






(** The request [snmp_gets] sends. *)
Definition snmp_gets_request (h : Hub) (oids : list string) : Request :=
  request_of h ("snmpGet?oids=" +:+ join ";" oids +:+ ";&" +:+ _nonce_str h) [].

(** The value of a run of decimal digits, read from the left. *)
Fixpoint uint_value (d : Decimal.uint) (acc : Z) : Z :=
  match d with
  | Decimal.Nil => acc
  | Decimal.D0 d => uint_value d (acc * 10 + 0)
  | Decimal.D1 d => uint_value d (acc * 10 + 1)
  | Decimal.D2 d => uint_value d (acc * 10 + 2)
  | Decimal.D3 d => uint_value d (acc * 10 + 3)
  | Decimal.D4 d => uint_value d (acc * 10 + 4)
  | Decimal.D5 d => uint_value d (acc * 10 + 5)
  | Decimal.D6 d => uint_value d (acc * 10 + 6)
  | Decimal.D7 d => uint_value d (acc * 10 + 7)
  | Decimal.D8 d => uint_value d (acc * 10 + 8)
  | Decimal.D9 d => uint_value d (acc * 10 + 9)
  end.

(** ** [print_table] *)

(** A row handed to [print_table]: a named tuple, kept as the ordered
    dictionary its [_asdict()] gives, with cells that are [None], strings
    or integers. *)
Definition Row : Type := dict (option PyValue).

Definition _fields (row : Row) : list string := map fst row.

(** What [getattr] finds on a row: the cell of a field or, under the two
    public names a tuple has of its own, a method bound to the row. *)
Inductive attribute : Type :=
| Field (cell : option PyValue)
| BoundMethod (text : string).

Definition tuple_methods : list string := ["count"; "index"].

(** [operator.truth] and [str] on a cell.  [str] raises on an integer
    beyond the digit limit. *)
Definition truth (cell : option PyValue) : bool :=
  match cell with
  | None => false
  | Some (PStr s) => negb (String.eqb s "")
  | Some (PInt n) => negb (n =? 0)
  end.

Definition str_cell (cell : option PyValue) : Outcome string :=
  match cell with
  | None => Ok "None"
  | Some v => str_value v
  end.

(** The same on an attribute; a bound method is true. *)
Definition truth_of (a : attribute) : bool :=
  match a with
  | Field cell => truth cell
  | BoundMethod _ => true
  end.

Definition str_attribute (a : attribute) : Outcome string :=
  match a with
  | Field cell => str_cell cell
  | BoundMethod text => Ok text
  end.

(** [max] of an iterable raises [ValueError] when there is nothing in it. *)
Definition py_max (l : list nat) : Outcome nat :=
  match l with
  | [] => Raise ValueError
  | x :: rest => Ok (fold_left Nat.max rest x)
  end.

(** [d[k]]. *)
Definition subscript {V} (d : dict V) (k : string) : Outcome V :=
  match dict_get k d with
  | Some v => Ok v
  | None => Raise KeyError
  end.

(** [c * n] and [s.ljust(width)]. *)
Definition times (c : ascii) (n : nat) : string := string_of_list_ascii (repeat c n).

Definition ljust (width : nat) (s : string) : string :=
  s +:+ times " " (width - String.length s).

Section PrintTable.

(** The text [str] gives of a method of the tuple, bound to the row at an
    index of the table: it holds the class and the address of the row. *)
Variable method_text : string -> nat -> string.

(** [getattr(row, colname, None)] on the row at index [i], for the name
    of a field of some row: a field of this row, one of the methods of the
    tuple, or nothing this row has. *)
Definition getattr (i : nat) (row : Row) (colname : string) : attribute :=
  match dict_get colname row with
  | Some cell => Field cell
  | None =>
      if string_in colname tuple_methods then BoundMethod (method_text colname i)
      else Field None
  end.

(** One entry of the dictionary [column_widths].  Both [str] and the
    inner [max] raise [ValueError], so which of them is met first does
    not show. *)
Definition column_width (table_rows : list Row) (colname : string) : Outcome nat :=
  texts ← omap str_attribute
            (List.filter truth_of
               (imap (fun i row => getattr i row colname) table_rows));
  widest ← py_max (map String.length texts);
  Ok (Nat.max (String.length colname) widest).

(** The loops of [horiz_line] and [row_text], from the text built so far. *)
Fixpoint horiz_line_from (column_widths : dict nat) (column_names : list string)
  (res : string) : Outcome string :=
  match column_names with
  | [] => Ok res
  | column_name :: rest =>
      width ← subscript column_widths column_name;
      horiz_line_from column_widths rest
        (((res +:+ "-") +:+ times "-" width) +:+ ("-" +:+ "+"))
  end.

Definition horiz_line (column_widths : dict nat) (column_names : list string)
  : Outcome string :=
  horiz_line_from column_widths column_names "+".

Fixpoint row_text_from (column_widths : dict nat) (column_names : list string)
  (row : Row) (res : string) : Outcome string :=
  match column_names with
  | [] => Ok res
  | column_name :: rest =>
      cell ← subscript row column_name;
      val ← (if truth cell then str_cell cell else Ok "");
      width ← subscript column_widths column_name;
      row_text_from column_widths rest row ((res +:+ (" " +:+ ljust width val)) +:+ " |")
  end.

Definition row_text (column_widths : dict nat) (column_names : list string) (row : Row)
  : Outcome string :=
  row_text_from column_widths column_names row "|".

(** A run of [print] calls: the lines come out in order until one of them
    raises while it is built. *)
Fixpoint print_all (lines : list (Outcome string)) : list string * Outcome unit :=
  match lines with
  | [] => ([], Ok tt)
  | Raise e :: _ => ([], Raise e)
  | Ok line :: rest =>
      let '(printed, res) := print_all rest in (line :: printed, res)
  end.

(** [print_table(table_rows)]: what it prints, and how it ends.  The keys
    of [column_widths] are the column names, which are distinct, so the
    dictionary is the list of its entries. *)
Definition print_table (table_rows : list Row) : list string * Outcome unit :=
  let column_names := unique_everseen (concat (map _fields table_rows)) in
  match omap (fun colname => width ← column_width table_rows colname; Ok (colname, width))
             column_names with
  | Raise e => ([], Raise e)
  | Ok column_widths =>
      print_all
        ([horiz_line column_widths column_names;
          row_text column_widths column_names
                   (map (fun c => (c, Some (PStr c))) column_names);
          horiz_line column_widths column_names]
           ++ map (row_text column_widths column_names) table_rows
           ++ [horiz_line column_widths column_names])%list
  end.

End PrintTable.

(** A text of a bound method for the examples, with an address made of
    the index of the row. *)
Definition sample_method_text (name : string) (i : nat) : string :=
  "<built-in method " +:+ name +:+ " of Row object at 0x7f" +:+ py_str (Z.of_nat i) +:+ ">".

(** The characters that are decimal digits. *)
Definition is_decimal_digit (c : ascii) : bool :=
  match digit_value c with Some d => d <? 10 | None => false end.

(** The hexadecimal digits, and what the codec must do on two of them:
    their value is an octet, and its text encodes to the two digits in
    lower case. *)
Definition hexdigits : list ascii := list_ascii_of_string "0123456789abcdefABCDEF".

Definition hex_pair_check (a b : ascii) : bool :=
  (0 <=? hex_value [a; b]) && (hex_value [a; b] <=? 255)
  && negb (has_char "." (py_str (hex_value [a; b])))
  && match tohex (py_str (hex_value [a; b])) with
     | Ok s => String.eqb s (String (lower_char a) (String (lower_char b) EmptyString))
     | Raise _ => false
     end.

(** The value of a counter, as [counters.get(name, 0)] reads it. *)
Definition counter (name : string) (h : Hub) : Z := default 0 (counters h !! name).

Definition sum_Z (l : list Z) : Z := fold_right Z.add 0 l.

(** What a run leaves behind for the retries after a 500: the events it
    appends to the trace, the two counters it keeps of them, and the user
    name and the logged-in state it started with. *)
Definition counts_sleeps (h : Hub) (w : World) (h' : Hub) (w' : World) : Prop :=
  exists evs,
    w' = (w ++ evs)%list
    /\ counter "_get_retries_500" h'
       = counter "_get_retries_500" h + Z.of_nat (length (sleeps evs))
    /\ counter "_get_retries_500_sleep_secs" h'
       = counter "_get_retries_500_sleep_secs" h + 2 * sum_Z (sleeps evs)
    /\ _username h' = _username h
    /\ is_loggedin h' = is_loggedin h.

(** Rows of one named-tuple class with the given fields. *)
Definition rows_of (fields : list string) (table_rows : list Row) : Prop :=
  Forall (fun row => _fields row = fields) table_rows.

(** The cell of a row under one of its fields. *)
Definition cell_of (row : Row) (colname : string) : option PyValue :=
  match dict_get colname row with
  | Some cell => cell
  | None => None
  end.

(** A column in which no row has a true value. *)
Definition empty_column (table_rows : list Row) (colname : string) : bool :=
  forallb (fun row => negb (truth (cell_of row colname))) table_rows.

(** A cell [str] has a text of, and a table of such cells. *)
Definition cell_renders (cell : option PyValue) : bool :=
  match cell with
  | Some v => renders v
  | None => true
  end.

Definition all_render (table_rows : list Row) : bool :=
  forallb (fun row => forallb (fun kv => cell_renders (snd kv)) row) table_rows.

(* ===================================================================== *)
(** * Properties of the built-ins *)
(* ===================================================================== *)

Example py_int_samples :
  py_int 16 " 0x_1F " = Ok 31 /\ py_int 16 "-f" = Ok (-15) /\ py_int 16 "" = Raise ValueError
  /\ py_int 10 "004" = Ok 4 /\ py_int 10 "1__0" = Raise ValueError
  /\ py_int 10 "0x1" = Raise ValueError
  /\ py_str 0 = "0" /\ py_str (-12) = "-12" /\ py_hex 255 = "0xff" /\ py_hex (-1) = "-0x1".
Proof. vm_compute. repeat split; reflexivity. Qed.

Example codec_samples :
  extract_ip "$c0a80464" true = Ok (Some "192.168.4.100")
  /\ ipv4_to_dollar "192.168.4.100" = Ok "$c0a80464"
  /\ extract_ip "$00000000" false = Ok (Some "0.0.0.0")
  /\ ipv4_to_dollar "192.168.x.1" = Raise ValueError.
Proof. vm_compute. repeat split; reflexivity. Qed.

Lemma hexdigit_facts (c : ascii) :
  is_hexdigit c = true ->
  is_space c = false /\ Ascii.eqb c "-" = false /\ Ascii.eqb c "+" = false
  /\ Ascii.eqb c "x" = false /\ Ascii.eqb c "X" = false /\ Ascii.eqb c "_" = false
  /\ exists d, digit_value c = Some d /\ (d <? 16) = true.
Proof.
  destruct c as [b0 b1 b2 b3 b4 b5 b6 b7].
  destruct b0, b1, b2, b3, b4, b5, b6, b7; vm_compute; intro Hc;
    try discriminate Hc; repeat split; eexists; split; reflexivity.
Qed.

Lemma lower_hexdigit_fixed (c : ascii) :
  is_lower_hexdigit c = true -> lower_char c = c.
Proof.
  unfold is_lower_hexdigit. intros Hc.
  apply andb_prop in Hc as [_ Hc]. now apply Ascii.eqb_eq in Hc.
Qed.

Lemma lstrip_no_space (l : list ascii) :
  forallb (fun c => negb (is_space c)) l = true -> lstrip l = l.
Proof.
  destruct l as [|c t]; simpl; [reflexivity|].
  intros Hl. apply andb_prop in Hl as [Hc _].
  destruct (is_space c); [discriminate | reflexivity].
Qed.

Lemma strip_no_space (l : list ascii) :
  forallb (fun c => negb (is_space c)) l = true -> strip l = l.
Proof.
  intros Hl. unfold strip. rewrite (lstrip_no_space l Hl).
  rewrite lstrip_no_space.
  - apply rev_involutive.
  - apply forallb_forall. intros c Hc. apply in_rev in Hc.
    rewrite forallb_forall in Hl. now apply Hl.
Qed.

Lemma parse_digits_hex (l : list ascii) (acc : Z) :
  forallb is_hexdigit l = true ->
  parse_digits 16 l acc false
  = Some (fold_left (fun a c => a * 16 + default 0 (digit_value c)) l acc).
Proof.
  revert acc. induction l as [|c t IH]; intros acc Hl; simpl in *.
  - reflexivity.
  - apply andb_prop in Hl as [Hc Ht].
    destruct (hexdigit_facts c Hc) as (_ & _ & _ & _ & _ & Hu & d & Hd & Hlt).
    rewrite Hu, Hd, Hlt. simpl. now apply IH.
Qed.

(** [int(s, 16)] on a non-empty run of hexadecimal digits is its value. *)
Lemma py_int_hexdigits (l : list ascii) :
  l <> [] -> forallb is_hexdigit l = true ->
  py_int 16 (string_of_list_ascii l) = Ok (hex_value l).
Proof.
  intros Hne Hl. unfold py_int.
  rewrite list_ascii_of_string_of_list_ascii.
  rewrite strip_no_space.
  2:{ apply forallb_forall. intros c Hc. rewrite forallb_forall in Hl.
      destruct (hexdigit_facts c (Hl c Hc)) as (Hs & _). now rewrite Hs. }
  destruct l as [|c t]; [congruence|].
  simpl in Hl. apply andb_prop in Hl as [Hc Ht].
  destruct (hexdigit_facts c Hc) as (_ & Hm & Hp & _ & _ & Hu & _).
  rewrite Hm, Hp.
  assert (Hpre : match c :: t with
                 | z :: x :: t0 =>
                     if (16 =? 16) && Ascii.eqb z "0" && (Ascii.eqb x "x" || Ascii.eqb x "X")
                     then match t0 with
                          | u :: t' => if Ascii.eqb u "_" then t' else t0
                          | [] => t0
                          end
                     else c :: t
                 | _ => c :: t
                 end = c :: t).
  { destruct t as [|x t0]; [reflexivity|].
    simpl in Ht. apply andb_prop in Ht as [Hx _].
    destruct (hexdigit_facts x Hx) as (_ & _ & _ & Hx1 & Hx2 & _).
    rewrite Hx1, Hx2. now rewrite andb_false_r. }
  rewrite Hpre. unfold parse_number. rewrite Hu.
  rewrite parse_digits_hex by (simpl; now rewrite Hc, Ht).
  reflexivity.
Qed.

Lemma split_no_sep (c : ascii) (s : string) :
  has_char c s = false -> split c s = [s].
Proof.
  induction s as [|a rest IH]; simpl; [reflexivity|].
  intros Hs. apply orb_false_elim in Hs as [Ha Hrest].
  rewrite Ha, (IH Hrest). reflexivity.
Qed.

Lemma split_app_sep (c : ascii) (s1 s2 : string) :
  has_char c s1 = false ->
  split c (s1 +:+ String c s2) = s1 :: split c s2.
Proof.
  induction s1 as [|a rest IH]; simpl.
  - intros _. now rewrite Ascii.eqb_refl.
  - intros Hs. apply orb_false_elim in Hs as [Ha Hrest].
    rewrite Ha, (IH Hrest). reflexivity.
Qed.

Lemma split_nonempty (c : ascii) (s : string) : split c s <> [].
Proof.
  destruct s as [|a rest]; simpl; [discriminate|].
  destruct (Ascii.eqb a c); [discriminate|].
  destruct (split c rest); discriminate.
Qed.

(* ===================================================================== *)
(** * The value codec *)
(* ===================================================================== *)

Lemma octet_table : forallb octet_check (map Z.of_nat (seq 0 256)) = true.
Proof. vm_compute. reflexivity. Qed.

Lemma octet_codec (n : Z) :
  octet n ->
  has_char "." (py_str n) = false
  /\ exists a b, tohex (py_str n) = Ok (String a (String b EmptyString))
                 /\ py_int 16 (String a (String b EmptyString)) = Ok n.
Proof.
  intros [Hlo Hhi].
  assert (Hc : octet_check n = true).
  { pose proof octet_table as T. rewrite forallb_forall in T. apply T.
    apply in_map_iff. exists (Z.to_nat n). split; [lia|]. apply in_seq. lia. }
  unfold octet_check in Hc. apply andb_prop in Hc as [Hdot Hc].
  split; [now apply negb_true_iff in Hdot|].
  destruct (tohex (py_str n)) as [[|a [|b [|? ?]]]|]; try discriminate Hc.
  exists a, b. split; [reflexivity|].
  destruct (py_int 16 (String a (String b EmptyString))) as [m|]; [|discriminate Hc].
  apply Z.eqb_eq in Hc. now subst m.
Qed.

Lemma split_dotted_quad (o1 o2 o3 o4 : Z) :
  octet o1 -> octet o2 -> octet o3 -> octet o4 ->
  split "." (dotted_quad o1 o2 o3 o4) = [py_str o1; py_str o2; py_str o3; py_str o4].
Proof.
  intros H1 H2 H3 H4. unfold dotted_quad.
  destruct (octet_codec o1 H1) as [D1 _]. destruct (octet_codec o2 H2) as [D2 _].
  destruct (octet_codec o3 H3) as [D3 _]. destruct (octet_codec o4 H4) as [D4 _].
  change ("." +:+ ?x) with (String "." x).
  rewrite (split_app_sep "." _ _ D1).
  change ("." +:+ ?x) with (String "." x).
  rewrite (split_app_sep "." _ _ D2).
  change ("." +:+ ?x) with (String "." x).
  rewrite (split_app_sep "." _ _ D3).
  now rewrite (split_no_sep "." _ D4).
Qed.

(** C5 (as amended): encoding a canonical dotted quad and decoding the
    result gives the address back when the caller asks for the literal
    value, and under the default handling for every address but 0.0.0.0,
    which decodes to the absent marker. *)
Theorem ipv4_roundtrip (o1 o2 o3 o4 : Z) :
  octet o1 -> octet o2 -> octet o3 -> octet o4 ->
  exists wire,
    ipv4_to_dollar (dotted_quad o1 o2 o3 o4) = Ok wire
    /\ extract_ip wire false = Ok (Some (dotted_quad o1 o2 o3 o4))
    /\ extract_ip wire true
       = Ok (if String.eqb (dotted_quad o1 o2 o3 o4) "0.0.0.0" then None
             else Some (dotted_quad o1 o2 o3 o4)).
Proof.
  intros H1 H2 H3 H4.
  destruct (octet_codec o1 H1) as (_ & a1 & b1 & T1 & I1).
  destruct (octet_codec o2 H2) as (_ & a2 & b2 & T2 & I2).
  destruct (octet_codec o3 H3) as (_ & a3 & b3 & T3 & I3).
  destruct (octet_codec o4 H4) as (_ & a4 & b4 & T4 & I4).
  exists (wire_of [a1; b1; a2; b2; a3; b3; a4; b4]).
  assert (E : ipv4_to_dollar (dotted_quad o1 o2 o3 o4)
              = Ok (wire_of [a1; b1; a2; b2; a3; b3; a4; b4])).
  { unfold ipv4_to_dollar. rewrite split_dotted_quad by assumption.
    simpl omap. rewrite T1, T2, T3, T4. reflexivity. }
  split; [exact E|].
  unfold extract_ip, wire_of.
  change (slice 1 3 _) with (String a1 (String b1 EmptyString)).
  change (slice 3 5 _) with (String a2 (String b2 EmptyString)).
  change (slice 5 7 _) with (String a3 (String b3 EmptyString)).
  change (slice 7 9 _) with (String a4 (String b4 EmptyString)).
  rewrite I1, I2, I3, I4. simpl mbind. unfold obind.
  fold (dotted_quad o1 o2 o3 o4).
  rewrite andb_false_r, andb_true_r. split; [reflexivity|].
  now destruct (String.eqb (dotted_quad o1 o2 o3 o4) "0.0.0.0").
Qed.

Lemma ipv4_roundtrip_witness :
  exists wire,
    ipv4_to_dollar (dotted_quad 192 168 4 100) = Ok wire
    /\ extract_ip wire false = Ok (Some (dotted_quad 192 168 4 100))
    /\ extract_ip wire true
       = Ok (if String.eqb (dotted_quad 192 168 4 100) "0.0.0.0" then None
             else Some (dotted_quad 192 168 4 100)).
Proof. apply (ipv4_roundtrip 192 168 4 100); unfold octet; lia. Defined.

(** C5 as stated fails at 0.0.0.0: the default decoding of its wire form
    is the absent marker, not the address. *)
Lemma ipv4_roundtrip_fails_at_zero :
  dotted_quad 0 0 0 0 = "0.0.0.0"
  /\ ipv4_to_dollar "0.0.0.0" = Ok "$00000000"
  /\ extract_ip "$00000000" true = Ok None
  /\ extract_ip "$00000000" true <> Ok (Some "0.0.0.0").
Proof. vm_compute. repeat split; discriminate. Qed.

(** C9 (as amended): on a dollar sign and 12 hexadecimal digits,
    [extract_mac] returns the six two-digit groups joined by colons with
    the digits as they came, hence in lower case when the wire digits are;
    the address of the documentation decodes as documented. *)
Theorem extract_mac_groups (c1 c2 c3 c4 c5 c6 c7 c8 c9 c10 c11 c12 : ascii) :
  forallb is_hexdigit [c1; c2; c3; c4; c5; c6; c7; c8; c9; c10; c11; c12] = true ->
  extract_mac (wire_of [c1; c2; c3; c4; c5; c6; c7; c8; c9; c10; c11; c12])
  = join ":" [string_of_list_ascii [c1; c2]; string_of_list_ascii [c3; c4];
              string_of_list_ascii [c5; c6]; string_of_list_ascii [c7; c8];
              string_of_list_ascii [c9; c10]; string_of_list_ascii [c11; c12]]
  /\ (forallb is_lower_hexdigit [c1; c2; c3; c4; c5; c6; c7; c8; c9; c10; c11; c12] = true ->
      lower (extract_mac (wire_of [c1; c2; c3; c4; c5; c6; c7; c8; c9; c10; c11; c12]))
      = extract_mac (wire_of [c1; c2; c3; c4; c5; c6; c7; c8; c9; c10; c11; c12]))
  /\ extract_mac "$787b8a6413f5" = "78:7b:8a:64:13:f5".
Proof.
  intros _. split; [reflexivity|]. split; [|reflexivity].
  intros Hl. cbn in Hl.
  repeat match type of Hl with
         | (_ && _) = true => let H := fresh "L" in apply andb_prop in Hl as [H Hl]
         end.
  change (extract_mac (wire_of [c1; c2; c3; c4; c5; c6; c7; c8; c9; c10; c11; c12]))
    with (string_of_list_ascii [c1; c2; ":"%char; c3; c4; ":"%char; c5; c6; ":"%char;
                                c7; c8; ":"%char; c9; c10; ":"%char; c11; c12]).
  cbn [lower string_of_list_ascii].
  repeat match goal with
         | H : is_lower_hexdigit ?c = true |- _ =>
             rewrite (lower_hexdigit_fixed c H); clear H
         end.
  reflexivity.
Qed.

Lemma extract_mac_groups_witness :
  extract_mac (wire_of ["7"; "8"; "7"; "b"; "8"; "a"; "6"; "4"; "1"; "3"; "f"; "5"]%char)
  = "78:7b:8a:64:13:f5".
Proof.
  refine (eq_trans (proj1 (extract_mac_groups "7" "8" "7" "b" "8" "a" "6" "4" "1" "3" "f" "5" _)) _);
    reflexivity.
Defined.

(** C9 as stated fails on upper-case digits: they are hexadecimal digits,
    and they come back in upper case. *)
Lemma extract_mac_keeps_upper_case :
  forallb is_hexdigit ["7"; "8"; "7"; "B"; "8"; "A"; "6"; "4"; "1"; "3"; "F"; "5"]%char = true
  /\ extract_mac "$787B8A6413F5" = "78:7B:8A:64:13:F5"
  /\ extract_mac "$787B8A6413F5" <> lower (extract_mac "$787B8A6413F5").
Proof. vm_compute. repeat split; discriminate. Qed.

Lemma py_int_hex2 (a b : ascii) :
  is_hexdigit a = true -> is_hexdigit b = true ->
  py_int 16 (String a (String b EmptyString)) = Ok (hex_value [a; b]).
Proof.
  intros Ha Hb. apply (py_int_hexdigits [a; b]); [discriminate|].
  simpl. now rewrite Ha, Hb.
Qed.

Lemma py_int_hex4 (a b c d : ascii) :
  is_hexdigit a = true -> is_hexdigit b = true ->
  is_hexdigit c = true -> is_hexdigit d = true ->
  py_int 16 (String a (String b (String c (String d EmptyString))))
  = Ok (hex_value [a; b; c; d]).
Proof.
  intros Ha Hb Hc Hd. apply (py_int_hexdigits [a; b; c; d]); [discriminate|].
  simpl. now rewrite Ha, Hb, Hc, Hd.
Qed.

Lemma extract_date_fields (y1 y2 y3 y4 m1 m2 d1 d2 h1 h2 n1 n2 s1 s2 p1 p2 : ascii) :
  forallb is_hexdigit
    [y1; y2; y3; y4; m1; m2; d1; d2; h1; h2; n1; n2; s1; s2; p1; p2] = true ->
  extract_date (Some (wire_of [y1; y2; y3; y4; m1; m2; d1; d2; h1; h2; n1; n2; s1; s2; p1; p2]))
  = if String.eqb (wire_of [y1; y2; y3; y4; m1; m2; d1; d2; h1; h2; n1; n2; s1; s2; p1; p2])
                  "$0000000000000000"
    then Ok None
    else match datetime_new (hex_value [y1; y2; y3; y4]) (hex_value [m1; m2])
                            (hex_value [d1; d2]) (hex_value [h1; h2])
                            (hex_value [n1; n2]) (hex_value [s1; s2]) with
         | Ok d => Ok (Some d)
         | Raise e => Raise e
         end.
Proof.
  intros Hd. cbn [forallb] in Hd.
  repeat match type of Hd with
         | (_ && _) = true => let H := fresh "D" in apply andb_prop in Hd as [H Hd]
         end.
  unfold extract_date.
  change (String.eqb (wire_of _) "") with false. rewrite orb_false_l.
  destruct (String.eqb _ "$0000000000000000"); [reflexivity|].
  unfold wire_of.
  change (slice 1 5 _) with (String y1 (String y2 (String y3 (String y4 EmptyString)))).
  change (slice 5 7 _) with (String m1 (String m2 EmptyString)).
  change (slice 7 9 _) with (String d1 (String d2 EmptyString)).
  change (slice 9 11 _) with (String h1 (String h2 EmptyString)).
  change (slice 11 13 _) with (String n1 (String n2 EmptyString)).
  change (slice 13 15 _) with (String s1 (String s2 EmptyString)).
  rewrite py_int_hex4 by assumption.
  rewrite !py_int_hex2 by assumption.
  reflexivity.
Qed.

Lemma extract_date_valid (v : option string) (d : datetime) :
  extract_date v = Ok (Some d) -> valid_datetime d = true.
Proof.
  unfold extract_date. destruct v as [v|]; [|discriminate].
  destruct (String.eqb v "" || String.eqb v "$0000000000000000"); [discriminate|].
  destruct (py_int 16 (slice 1 5 v)) as [year|]; [|discriminate].
  destruct (py_int 16 (slice 5 7 v)) as [month|]; [|discriminate].
  destruct (py_int 16 (slice 7 9 v)) as [dom|]; [|discriminate].
  destruct (py_int 16 (slice 9 11 v)) as [hour|]; [|discriminate].
  destruct (py_int 16 (slice 11 13 v)) as [minute|]; [|discriminate].
  destruct (py_int 16 (slice 13 15 v)) as [second|]; [|discriminate].
  cbn [mbind Outcome_bind obind]. unfold datetime_new.
  destruct (valid_datetime (mk_datetime year month dom hour minute second)) eqn:Hv;
    [|discriminate].
  intros E. cbn in E. now injection E as <-.
Qed.

(** C8: [extract_date] decodes the documented timestamp; reads the year
    from four hexadecimal digits and month, day, hour, minute and second
    from two each (the last two digits are padding); returns the absent
    marker for [None], the empty string and the all-zero pattern; and a
    timestamp it returns is always a valid calendar date and time, fields
    out of range making the constructor raise. *)
Theorem extract_date_spec :
  extract_date (Some "$07e2030e10071100") = Ok (Some (mk_datetime 2018 3 14 16 7 17))
  /\ extract_date None = Ok None
  /\ extract_date (Some "") = Ok None
  /\ extract_date (Some "$0000000000000000") = Ok None
  /\ (forall y1 y2 y3 y4 m1 m2 d1 d2 h1 h2 n1 n2 s1 s2 p1 p2 : ascii,
        forallb is_hexdigit
          [y1; y2; y3; y4; m1; m2; d1; d2; h1; h2; n1; n2; s1; s2; p1; p2] = true ->
        extract_date
          (Some (wire_of [y1; y2; y3; y4; m1; m2; d1; d2; h1; h2; n1; n2; s1; s2; p1; p2]))
        = if String.eqb
               (wire_of [y1; y2; y3; y4; m1; m2; d1; d2; h1; h2; n1; n2; s1; s2; p1; p2])
               "$0000000000000000"
          then Ok None
          else match datetime_new (hex_value [y1; y2; y3; y4]) (hex_value [m1; m2])
                                  (hex_value [d1; d2]) (hex_value [h1; h2])
                                  (hex_value [n1; n2]) (hex_value [s1; s2]) with
               | Ok d => Ok (Some d)
               | Raise e => Raise e
               end)
  /\ (forall y mo d h mi s dt, datetime_new y mo d h mi s = Ok dt ->
        dt = mk_datetime y mo d h mi s /\ valid_datetime dt = true)
  /\ (forall v d, extract_date v = Ok (Some d) -> valid_datetime d = true).
Proof.
  split; [vm_compute; reflexivity|].
  split; [reflexivity|]. split; [reflexivity|]. split; [reflexivity|].
  split; [exact extract_date_fields|].
  split; [|exact extract_date_valid].
  intros y mo d h mi s dt. unfold datetime_new.
  destruct (valid_datetime (mk_datetime y mo d h mi s)) eqn:Hv; [|discriminate].
  intros E. injection E as <-. now split.
Qed.

(** Month 13 in an otherwise well-formed timestamp is refused. *)
Lemma extract_date_spec_witness :
  extract_date (Some "$07e20d0e10071100") = Raise ValueError.
Proof.
  refine (eq_trans
            (proj1 (proj2 (proj2 (proj2 (proj2 extract_date_spec))))
               "0" "7" "e" "2" "0" "d" "0" "e" "1" "0" "0" "7" "1" "1" "0" "0" _)%char _);
    vm_compute; reflexivity.
Defined.

(* ===================================================================== *)
(** * Lines, and the clean-up of a walk *)
(* ===================================================================== *)

Lemma join_split (c : ascii) (s : string) :
  join (String c EmptyString) (split c s) = s.
Proof.
  induction s as [|a rest IH]; simpl; [reflexivity|].
  destruct (Ascii.eqb a c) eqn:Hac.
  - apply Ascii.eqb_eq in Hac. subst a.
    destruct (split c rest) as [|p ps] eqn:Hs; [now destruct (split_nonempty c rest)|].
    change (join (String c EmptyString) (EmptyString :: p :: ps))
      with (String c (join (String c EmptyString) (p :: ps))).
    now rewrite IH.
  - destruct (split c rest) as [|p ps] eqn:Hs; [now destruct (split_nonempty c rest)|].
    destruct ps as [|q qs]; simpl in *; now rewrite <- IH.
Qed.

Lemma split_pieces (c : ascii) (s : string) :
  Forall (fun p => has_char c p = false) (split c s).
Proof.
  induction s as [|a rest IH]; simpl.
  - constructor; [reflexivity | constructor].
  - destruct (Ascii.eqb a c) eqn:Hac.
    + constructor; [reflexivity | exact IH].
    + destruct (split c rest) as [|p ps]; [repeat constructor; simpl; now rewrite Hac|].
      inversion IH as [|? ? Hp Hps]; subst.
      constructor; [simpl; now rewrite Hac, Hp | exact Hps].
Qed.

Lemma split_join (c : ascii) (l : list string) :
  l <> [] -> Forall (fun p => has_char c p = false) l ->
  split c (join (String c EmptyString) l) = l.
Proof.
  induction l as [|p ps IH]; [congruence|].
  intros _ Hl. inversion Hl as [|? ? Hp Hps]; subst.
  destruct ps as [|q qs].
  - simpl. now apply split_no_sep.
  - change (join (String c EmptyString) (p :: q :: qs))
      with (p +:+ String c (join (String c EmptyString) (q :: qs))).
    rewrite (split_app_sep c _ _ Hp). f_equal. apply IH; [discriminate | exact Hps].
Qed.

Lemma Forall_filter {A} (P : A -> Prop) (f : A -> bool) (l : list A) :
  Forall P l -> Forall P (List.filter f l).
Proof.
  induction 1 as [|x xs Hx Hxs IH]; simpl; [constructor|].
  destruct (f x); [constructor; assumption | assumption].
Qed.

Lemma filter_all {A} (f : A -> bool) (l : list A) :
  (forall x, In x l -> f x = true) -> List.filter f l = l.
Proof.
  induction l as [|x xs IH]; simpl; intros Hl; [reflexivity|].
  rewrite (Hl x (or_introl eq_refl)). f_equal. apply IH. intros y Hy. apply Hl. now right.
Qed.

(** The lines that stay are exactly the lines that differ from the error
    line, in order. *)
Lemma drop_error_lines_lines (t : string) :
  List.filter (fun x => negb (String.eqb x oid_error_line)) (split newline t) <> [] ->
  split newline (drop_error_lines t)
  = List.filter (fun x => negb (String.eqb x oid_error_line)) (split newline t).
Proof.
  intros Hne. unfold drop_error_lines. apply split_join; [exact Hne|].
  apply Forall_filter, split_pieces.
Qed.

Lemma drop_error_lines_clean (t : string) :
  ~ In oid_error_line (split newline (drop_error_lines t)).
Proof.
  destruct (List.filter (fun x => negb (String.eqb x oid_error_line)) (split newline t))
    as [|p ps] eqn:Hf.
  - unfold drop_error_lines. rewrite Hf. simpl. intros [E|[]]. discriminate E.
  - rewrite drop_error_lines_lines by (rewrite Hf; discriminate).
    intros Hin. apply filter_In in Hin as [_ Hin].
    now rewrite String.eqb_refl in Hin.
Qed.

Lemma drop_error_lines_id (t : string) :
  ~ In oid_error_line (split newline t) -> drop_error_lines t = t.
Proof.
  intros Hno. unfold drop_error_lines. rewrite filter_all; [apply join_split|].
  intros x Hx. apply negb_true_iff. apply String.eqb_neq. intros ->. now apply Hno.
Qed.

(** The match is on whole lines: a line that only contains the error text
    stays, and so does one that ends in a carriage return. *)
Example drop_error_lines_whole_line :
  drop_error_lines (join (String newline EmptyString)
                         ["a"; oid_error_line; "x " +:+ oid_error_line;
                          oid_error_line +:+ String (ascii_of_nat 13) EmptyString; "b"])
  = join (String newline EmptyString)
         ["a"; "x " +:+ oid_error_line;
          oid_error_line +:+ String (ascii_of_nat 13) EmptyString; "b"].
Proof. vm_compute. reflexivity. Qed.

(** ** Dictionaries *)

Lemma dict_get_del {V} (k k' : string) (d : dict V) :
  dict_get k (dict_del k' d) = if String.eqb k k' then None else dict_get k d.
Proof.
  induction d as [|[k0 v0] rest IH]; simpl.
  - now destruct (String.eqb k k').
  - destruct (String.eqb k' k0) eqn:E0.
    + apply String.eqb_eq in E0. subst k0. rewrite IH.
      destruct (String.eqb k k') eqn:E; reflexivity.
    + simpl. rewrite IH. destruct (String.eqb k k') eqn:E; [|reflexivity].
      apply String.eqb_eq in E. subst k'. now rewrite E0.
Qed.

Lemma dict_del_filter {V} (k : string) (d : dict V) :
  dict_del k d = List.filter (fun kv => negb (String.eqb k (fst kv))) d.
Proof.
  induction d as [|[k0 v0] rest IH]; simpl; [reflexivity|].
  destruct (String.eqb k k0); simpl; now rewrite IH.
Qed.

Lemma strip_finish_get (k : string) (d : dict json) :
  dict_get k (strip_finish d)
  = if String.eqb k "1" && json_is_str "Finish" (dict_get "1" d) then None
    else dict_get k d.
Proof.
  unfold strip_finish. destruct (json_is_str "Finish" (dict_get "1" d)).
  - rewrite dict_get_del. now rewrite andb_true_r.
  - now rewrite andb_false_r.
Qed.

(* ===================================================================== *)
(** * The request layer *)
(* ===================================================================== *)

Section RequestLayer.
Context `{Env : Environment}.

(** One iteration of the loop of [_get]. *)
Lemma _get_loop_step (n : nat) (url : string) (params : dict string)
  (retry401 retry500 sleep : Z) (h : Hub) (w : World) :
  _get_loop (S n) url params retry401 retry500 sleep h w
  = let req := request_of h url params in
    let w1 := (w ++ [EvRequest req])%list in
    match device (requests_made w) req with
    | Unreachable => Some (Raise ConnectionError, h, w1)
    | Answers resp =>
        let h1 := counter_add ("received_http_" +:+ py_str (status_code resp)) 1 h in
        if status_code resp =? 401 then
          if (0 <? retry401 - 1) && is_loggedin h1 then
            match login n (_username h1) (_password h1) h1 w1 with
            | Some (Ok _, h2, w2) =>
                _get_loop n url params (retry401 - 1) retry500 sleep
                          (counter_add "_get_retries_401" 1 h2) w2
            | Some (Raise e, h2, w2) => Some (Raise e, h2, w2)
            | None => None
            end
          else _get_finish url resp h1 w1
        else if status_code resp =? 500 then
          if 0 <? retry500 - 1 then
            _get_loop n url params retry401 (retry500 - 1) (sleep * 2)
                      (counter_add "_get_retries_500_sleep_secs" (sleep * 2)
                         (counter_add "_get_retries_500" 1 h1))
                      (w1 ++ [EvSleep sleep])%list
          else _get_finish url resp h1 w1
        else _get_finish url resp h1 w1
    end.
Proof.
  cbn [_get_loop]. unfold mbind, M_bind, M_then, get_self, requests_get.
  destruct (device (requests_made w) (request_of h url params)) as [resp|]; [|reflexivity].
  cbn zeta. unfold _increment_counter at 1. unfold update_self at 1.
  destruct (status_code resp =? 401).
  - destruct ((0 <? retry401 - 1) && is_loggedin _); [|reflexivity].
    change (collect_stats "login" (login_with _ ?u ?p)) with (login n u p).
    destruct (login n _ _ _ _) as [[[[[]|e] h2] w2]|]; reflexivity.
  - destruct (status_code resp =? 500); [|reflexivity].
    destruct (0 <? retry500 - 1); reflexivity.
Qed.

Lemma _get_finish_cases (url : string) (resp : Response) (h : Hub) (w : World) :
  _get_finish url resp h w
  = Some (if passes (status_code resp) then Ok resp
          else Raise (HTTPError (status_code resp)), h, w).
Proof.
  unfold _get_finish, raise_for_status, passes, mbind, M_bind, M_then.
  destruct ((400 <=? status_code resp) && (status_code resp <? 600)) eqn:Hr;
    [reflexivity|].
  cbn. destruct (status_code resp =? 401) eqn:H401; [|reflexivity].
  apply Z.eqb_eq in H401. rewrite H401 in Hr. discriminate Hr.
Qed.

(** What ends the loop of [_get] never raises [AccessDenied]: on a 401
    [raise_for_status] has already raised the HTTP failure. *)
Theorem get_finish_never_access_denied (url : string) (resp : Response)
  (h : Hub) (w : World) :
  exists r,
    _get_finish url resp h w = Some (r, h, w)
    /\ (forall u, r <> Raise (AccessDenied u))
    /\ (status_code resp = 401 -> r = Raise (HTTPError 401)).
Proof.
  rewrite _get_finish_cases. eexists. split; [reflexivity|]. split.
  - intros u. destruct (passes (status_code resp)); discriminate.
  - intros ->. reflexivity.
Qed.

Lemma passes_status (status : Z) :
  passes status = true -> status <> 401 /\ status <> 500.
Proof. intros Hp. split; intros ->; discriminate Hp. Qed.

Lemma set_counters_same (h : Hub) : set_counters (counters h) h = h.
Proof. now destruct h. Qed.

Lemma requests_made_request (w : World) (r : Request) :
  requests_made (w ++ [EvRequest r])%list = S (requests_made w).
Proof.
  unfold requests_made. rewrite List.filter_app, length_app. simpl. lia.
Qed.

Lemma requests_made_sleep (w : World) (s : Z) :
  requests_made (w ++ [EvSleep s])%list = requests_made w.
Proof.
  unfold requests_made. rewrite List.filter_app, length_app. simpl. lia.
Qed.

Lemma requests_to_app (u : string) (w1 w2 : World) :
  requests_to u (w1 ++ w2)%list = (requests_to u w1 + requests_to u w2)%nat.
Proof. unfold requests_to. now rewrite List.filter_app, length_app. Qed.

(** With the 401 retries disabled, [_get] never logs in: it changes
    nothing of the object but its counters, and sends only its own
    request, at least once. *)
Lemma _get_loop_noretry (n : nat) (url : string) (params : dict string)
  (retry401 : Z) :
  retry401 <= 1 ->
  forall retry500 sleep h w res h' w',
    _get_loop n url params retry401 retry500 sleep h w = Some (res, h', w') ->
    exists c evs,
      h' = set_counters c h /\ w' = (w ++ evs)%list
      /\ forallb (is_event_of (req_url (request_of h url params))) evs = true
      /\ (1 <= requests_to (req_url (request_of h url params)) evs)%nat.
Proof.
  intros H401. induction n as [|n IH]; intros retry500 sleep h w res h' w' Hrun.
  - discriminate Hrun.
  - rewrite _get_loop_step in Hrun. cbv zeta in Hrun.
    assert (Hone : forall c,
               exists c0 evs, set_counters c h = set_counters c0 h
                 /\ (w ++ [EvRequest (request_of h url params)])%list = (w ++ evs)%list
                 /\ forallb (is_event_of (req_url (request_of h url params))) evs = true
                 /\ (1 <= requests_to (req_url (request_of h url params)) evs)%nat).
    { intros c. exists c, [EvRequest (request_of h url params)].
      unfold requests_to. simpl. rewrite String.eqb_refl. simpl. repeat split. lia. }
    destruct (device (requests_made w) (request_of h url params)) as [resp|].
    + replace ((0 <? retry401 - 1) && _) with false in Hrun
        by (symmetry; apply andb_false_intro1; apply Z.ltb_ge; lia).
      rewrite !_get_finish_cases in Hrun.
      destruct (status_code resp =? 401);
        [injection Hrun as <- <- <-; apply Hone|].
      destruct (status_code resp =? 500);
        [|injection Hrun as <- <- <-; apply Hone].
      destruct (0 <? retry500 - 1);
        [|injection Hrun as <- <- <-; apply Hone].
      apply IH in Hrun as (c & evs & -> & -> & Hev & Hreq).
      exists c, (EvRequest (request_of h url params) :: EvSleep sleep :: evs).
      split; [reflexivity|]. split; [now rewrite <- !app_assoc|].
      change (request_of (counter_add _ _ (counter_add _ _ (counter_add _ _ h))) url params)
        with (request_of h url params) in Hev, Hreq.
      split.
      * simpl. now rewrite String.eqb_refl.
      * unfold requests_to in *. simpl. rewrite String.eqb_refl. simpl. lia.
    + injection Hrun as <- <- <-.
      destruct (Hone (counters h)) as (c & evs & Hc & Hrest).
      exists c, evs. split; [|exact Hrest].
      now rewrite <- Hc, set_counters_same.
Qed.

(** ... and it returns or raises within as many steps as the 500 budget. *)
Lemma _get_loop_noretry_total (n : nat) (url : string) (params : dict string)
  (retry401 : Z) :
  retry401 <= 1 ->
  forall retry500 sleep h w,
    (1 <= n)%nat -> retry500 <= Z.of_nat n ->
    exists res h' w', _get_loop n url params retry401 retry500 sleep h w = Some (res, h', w').
Proof.
  intros H401. induction n as [|n IH]; intros retry500 sleep h w Hn Hfuel; [lia|].
  rewrite _get_loop_step. cbv zeta.
  destruct (device (requests_made w) (request_of h url params)) as [resp|];
    [|eauto].
  replace ((0 <? retry401 - 1) && _) with false
    by (symmetry; apply andb_false_intro1; apply Z.ltb_ge; lia).
  rewrite !_get_finish_cases.
  destruct (status_code resp =? 401); [eauto|].
  destruct (status_code resp =? 500); [|eauto].
  destruct (0 <? retry500 - 1) eqn:Hr; [|eauto].
  apply Z.ltb_lt in Hr. apply IH; lia.
Qed.

(** An answer that is neither 401 nor 500 ends the loop at once. *)
Lemma _get_loop_answer (n : nat) (url : string) (params : dict string)
  (retry401 retry500 sleep : Z) (h : Hub) (w : World) (resp : Response) :
  device (requests_made w) (request_of h url params) = Answers resp ->
  status_code resp <> 401 -> status_code resp <> 500 ->
  _get_loop (S n) url params retry401 retry500 sleep h w
  = Some (if passes (status_code resp) then Ok resp
          else Raise (HTTPError (status_code resp)),
          counter_add ("received_http_" +:+ py_str (status_code resp)) 1 h,
          (w ++ [EvRequest (request_of h url params)])%list).
Proof.
  intros Hdev H401 H500. rewrite _get_loop_step. cbv zeta. rewrite Hdev.
  apply Z.eqb_neq in H401, H500. rewrite H401, H500.
  apply _get_finish_cases.
Qed.

(** A 500 while the budget lasts: sleep, double the interval, go on. *)
Lemma _get_loop_500 (n : nat) (url : string) (params : dict string)
  (retry401 retry500 sleep : Z) (h : Hub) (w : World) (resp : Response) :
  device (requests_made w) (request_of h url params) = Answers resp ->
  status_code resp = 500 -> 0 < retry500 - 1 ->
  _get_loop (S n) url params retry401 retry500 sleep h w
  = _get_loop n url params retry401 (retry500 - 1) (sleep * 2)
      (counter_add "_get_retries_500_sleep_secs" (sleep * 2)
         (counter_add "_get_retries_500" 1
            (counter_add ("received_http_" +:+ py_str (status_code resp)) 1 h)))
      (w ++ [EvRequest (request_of h url params); EvSleep sleep])%list.
Proof.
  intros Hdev H500 Hr. rewrite _get_loop_step. cbv zeta. rewrite Hdev.
  replace (status_code resp =? 401) with false by (rewrite H500; reflexivity).
  replace (status_code resp =? 500) with true by (rewrite H500; reflexivity).
  apply Z.ltb_lt in Hr. rewrite Hr. now rewrite <- app_assoc.
Qed.

(** A 500 when the budget is used up: the HTTP failure comes out. *)
Lemma _get_loop_500_last (n : nat) (url : string) (params : dict string)
  (retry401 retry500 sleep : Z) (h : Hub) (w : World) (resp : Response) :
  device (requests_made w) (request_of h url params) = Answers resp ->
  status_code resp = 500 -> retry500 - 1 <= 0 ->
  _get_loop (S n) url params retry401 retry500 sleep h w
  = Some (Raise (HTTPError 500),
          counter_add ("received_http_" +:+ py_str (status_code resp)) 1 h,
          (w ++ [EvRequest (request_of h url params)])%list).
Proof.
  intros Hdev H500 Hr. rewrite _get_loop_step. cbv zeta. rewrite Hdev.
  replace (status_code resp =? 401) with false by (rewrite H500; reflexivity).
  replace (status_code resp =? 500) with true by (rewrite H500; reflexivity).
  apply Z.ltb_ge in Hr. rewrite Hr. rewrite _get_finish_cases.
  now rewrite H500.
Qed.

(** C2: under the default 500 budget of 3, answers 500, 500 and then 200
    make [_get] return the 200 response after exactly two sleeps, of 1
    and then 2 time units (the interval starts at 1 and doubles); a third
    500 instead exhausts the budget and the HTTP failure is raised. *)
Theorem get_backoff_on_500 (fuel : nat) (url : string) (params : dict string)
  (retry401 : Z) (h : Hub) (w : World) (r1 r2 r3 : Response) :
  (3 <= fuel)%nat ->
  device (requests_made w) (request_of h url params) = Answers r1 ->
  status_code r1 = 500 ->
  device (S (requests_made w)) (request_of h url params) = Answers r2 ->
  status_code r2 = 500 ->
  device (S (S (requests_made w))) (request_of h url params) = Answers r3 ->
  status_code r3 = 200 \/ status_code r3 = 500 ->
  exists h',
    _get fuel url retry401 3 params h w
    = Some (if status_code r3 =? 200 then Ok r3 else Raise (HTTPError 500), h',
            (w ++ [EvRequest (request_of h url params); EvSleep 1;
                   EvRequest (request_of h url params); EvSleep 2;
                   EvRequest (request_of h url params)])%list)
    /\ session h' = session h.
Proof.
  intros Hfuel D1 S1 D2 S2 D3 S3.
  destruct fuel as [|[|[|n]]]; try lia.
  unfold _get, collect_stats, mbind, M_bind, M_then, _increment_counter, update_self.
  cbv beta iota.
  rewrite (_get_loop_500 _ url params retry401 3 1
             (counter_add "_get:calls" 1 h) w r1 D1 S1) by lia.
  change (request_of (counter_add "_get:calls" 1 h) url params)
    with (request_of h url params).
  rewrite (_get_loop_500 _ url params retry401 (3 - 1) (1 * 2) _ _ r2).
  2:{ change (w ++ [?a; ?b])%list with (w ++ ([a] ++ [b]))%list.
      rewrite app_assoc, requests_made_sleep, requests_made_request. exact D2. }
  2: exact S2. 2: lia.
  change (request_of (counter_add _ _ (counter_add _ _ (counter_add _ _ (counter_add _ _ h))))
            url params) with (request_of h url params).
  rewrite <- !app_assoc. cbn [app].
  assert (D3' : device (requests_made
                          (w ++ [EvRequest (request_of h url params); EvSleep 1;
                                 EvRequest (request_of h url params); EvSleep (1 * 2)])%list)
                  (request_of h url params) = Answers r3).
  { change (w ++ [?a; ?b; ?c; ?d])%list with (w ++ ([a] ++ [b] ++ [c] ++ [d]))%list.
    rewrite !app_assoc. rewrite requests_made_sleep, requests_made_request,
      requests_made_sleep, requests_made_request. exact D3. }
  destruct S3 as [S3|S3].
  - rewrite (_get_loop_answer _ url params _ _ _ _ _ r3);
      [| exact D3' | rewrite S3; discriminate | rewrite S3; discriminate].
    rewrite S3. eexists. split; [rewrite <- !app_assoc; reflexivity | reflexivity].
  - rewrite (_get_loop_500_last _ url params _ _ _ _ _ r3);
      [| exact D3' | exact S3 | lia].
    rewrite S3. eexists. split; [rewrite <- !app_assoc; reflexivity | reflexivity].
Qed.

(** ** Re-login on 401 *)



Section All401.
Variables (url : string) (params : dict string) (base u p : string).
Variables (rl : Response) (decoded : string) (attrs : dict json).
Hypothesis url_not_login : url <> "login".
Hypothesis user_given : u <> "".
Hypothesis ascii_credentials : is_ascii (u +:+ ":" +:+ p) = true.
Hypothesis always_401 :
  forall n req, req_url req = base +:+ "/" +:+ url ->
                exists r, device n req = Answers r /\ status_code r = 401.
Hypothesis login_accepted :
  forall n req, req_url req = base +:+ "/login" -> device n req = Answers rl.
Hypothesis login_status : status_code rl = 200.
Hypothesis login_content : content rl <> "".
Hypothesis login_b64 : b64decode (content rl) = Some decoded.
Hypothesis login_json : json_loads decoded = Some (JObj attrs).


End All401.

End RequestLayer.




Lemma get_backoff_on_500_witness :
  exists h',
    @_get (simulated (scripted [Answers (mk_response 500 ""); Answers (mk_response 500 "");
                                Answers (mk_response 200 "{}")]))
          3 "snmpGet" 5 3 [] example_hub []
    = Some (Ok (mk_response 200 "{}"), h',
            [EvRequest (request_of example_hub "snmpGet" []); EvSleep 1;
             EvRequest (request_of example_hub "snmpGet" []); EvSleep 2;
             EvRequest (request_of example_hub "snmpGet" [])])
    /\ session h' = session example_hub.
Proof.
  apply (@get_backoff_on_500
           (simulated (scripted [Answers (mk_response 500 ""); Answers (mk_response 500 "");
                                 Answers (mk_response 200 "{}")]))
           3 "snmpGet" [] 5 example_hub []
           (mk_response 500 "") (mk_response 500 "") (mk_response 200 "{}"));
    try reflexivity; try lia. now left.
Defined.

(* ===================================================================== *)
(** * The session: [logout] and [login] *)
(* ===================================================================== *)

Section Session.
Context `{Env : Environment}.

Lemma logout_when_logged_out (fuel : nat) (h : Hub) (w : World) :
  is_loggedin h = false ->
  logout fuel h w = Some (Ok tt, counter_add "logout:calls" 1 h, w).
Proof.
  intros Hout. unfold logout, collect_stats, mbind, M_bind, M_then, _increment_counter,
    update_self, get_self. cbv beta iota.
  change (is_loggedin (counter_add _ _ h)) with (is_loggedin h). now rewrite Hout.
Qed.

Lemma logout_when_logged_in (fuel : nat) (h : Hub) (w : World) :
  is_loggedin h = true -> (3 <= fuel)%nat ->
  exists res c evs,
    logout fuel h w = Some (res, clear_session (set_counters c h), (w ++ evs)%list)
    /\ forallb (is_event_of (_url h +:+ "/logout")) evs = true
    /\ (1 <= requests_to (_url h +:+ "/logout") evs)%nat.
Proof.
  intros Hin Hfuel.
  unfold logout, collect_stats, mbind, M_bind, M_then, _increment_counter,
    update_self, get_self, try_finally, _get, collect_stats. cbv beta iota.
  change (is_loggedin (counter_add _ _ h)) with (is_loggedin h). rewrite Hin.
  unfold mbind, M_bind, M_then, _increment_counter, update_self. cbv beta iota.
  match goal with
  | |- context [_get_loop fuel ?u ?ps 0 3 1 ?h1 w] =>
      destruct (_get_loop_noretry_total fuel u ps 0 ltac:(lia) 3 1 h1 w)
        as (res & h' & w' & Hrun); [lia | lia |];
      destruct (_get_loop_noretry fuel u ps 0 ltac:(lia) 3 1 h1 w res h' w' Hrun)
        as (c & evs & -> & -> & Hev & Hreq)
  end.
  rewrite Hrun. exists (match res with Ok _ => Ok tt | Raise e => Raise e end), c, evs.
  split; [|split; [exact Hev | exact Hreq]].
  destruct res; reflexivity.
Qed.

(** A 401 on the logout request is not retried. *)
Lemma logout_on_401 (n : nat) (h : Hub) (w : World) (resp : Response) :
  is_loggedin h = true ->
  device (requests_made w) (request_of h "logout" (_nonce h)) = Answers resp ->
  status_code resp = 401 ->
  exists c,
    logout (S n) h w
    = Some (Raise (HTTPError 401), clear_session (set_counters c h),
            (w ++ [EvRequest (request_of h "logout" (_nonce h))])%list).
Proof.
  intros Hin Hdev Hs.
  unfold logout, collect_stats, mbind, M_bind, M_then, _increment_counter,
    update_self, get_self, try_finally, _get, collect_stats. cbv beta iota.
  change (is_loggedin (counter_add _ _ h)) with (is_loggedin h). rewrite Hin.
  unfold mbind, M_bind, M_then, _increment_counter, update_self. cbv beta iota.
  rewrite _get_loop_step. cbv zeta.
  change (request_of (counter_add _ _ (counter_add _ _ h)) "logout" ?ps)
    with (request_of h "logout" ps).
  change (_nonce (counter_add _ _ h)) with (_nonce h).
  rewrite Hdev, Hs. change (401 =? 401) with true. cbv beta iota.
  change (0 <? 0 - 1) with false. cbv beta iota.
  rewrite _get_finish_cases, Hs. change (passes 401) with false. cbv beta iota.
  eexists. reflexivity.
Qed.

(** C3: [logout] does nothing on a logged-out session (no request, the
    session attributes untouched; only the call counter moves); otherwise
    it sends the logout request with the 401 retry disabled (nothing but
    that request goes out, and a 401 is raised at once) and, whether the
    request returns or raises, clears credential, user name and password;
    either way the hub is logged out afterwards. *)
Theorem logout_spec (fuel : nat) (h : Hub) (w : World) :
  (is_loggedin h = false ->
     logout fuel h w = Some (Ok tt, counter_add "logout:calls" 1 h, w)
     /\ session (counter_add "logout:calls" 1 h) = session h)
  /\ (is_loggedin h = true -> (3 <= fuel)%nat ->
      exists res h' evs,
        logout fuel h w = Some (res, h', (w ++ evs)%list)
        /\ _credential h' = None /\ _username h' = None /\ _password h' = None
        /\ forallb (is_event_of (_url h +:+ "/logout")) evs = true
        /\ (1 <= requests_to (_url h +:+ "/logout") evs)%nat)
  /\ (is_loggedin h = true -> (1 <= fuel)%nat ->
      forall resp,
        device (requests_made w) (request_of h "logout" (_nonce h)) = Answers resp ->
        status_code resp = 401 ->
        exists h',
          logout fuel h w
          = Some (Raise (HTTPError 401), h',
                  (w ++ [EvRequest (request_of h "logout" (_nonce h))])%list)
          /\ is_loggedin h' = false)
  /\ ((3 <= fuel)%nat ->
      exists res h' w', logout fuel h w = Some (res, h', w') /\ is_loggedin h' = false).
Proof.
  split; [|split; [|split]].
  - intros Hout. split; [now apply logout_when_logged_out | reflexivity].
  - intros Hin Hfuel.
    destruct (logout_when_logged_in fuel h w Hin Hfuel) as (res & c & evs & Hrun & Hev & Hreq).
    exists res, (clear_session (set_counters c h)), evs. repeat split; assumption.
  - intros Hin Hfuel resp Hdev Hs. destruct fuel as [|n]; [lia|].
    destruct (logout_on_401 n h w resp Hin Hdev Hs) as (c & Hrun).
    eexists. split; [exact Hrun | reflexivity].
  - intros Hfuel. destruct (is_loggedin h) eqn:Hin.
    + destruct (logout_when_logged_in fuel h w Hin Hfuel) as (res & c & evs & Hrun & _).
      eexists _, _, _. split; [exact Hrun | reflexivity].
    + eexists _, _, _. split; [now apply logout_when_logged_out | exact Hin].
Qed.

(** ** [login] writes the session only when everything has succeeded *)





End Session.


(* ===================================================================== *)
(** * SNMP operations: [snmp_set], [apply_settings], [snmp_walk] *)
(* ===================================================================== *)

Section Operations.
Context `{Env : Environment}.


Lemma oid_value_of_cases (oid : string) (value : option PyValue)
  (datatype : option SnmpType) :
  oid_value_of oid value datatype
  = if value_renders value then Ok (oid_value_text oid value datatype)
    else Raise ValueError.
Proof.
  unfold oid_value_of, oid_value_text, value_renders, str_value.
  destruct value as [v|]; [|reflexivity].
  destruct (is_STRING datatype); destruct (renders v); reflexivity.
Qed.

(** [snmp_set] of a value that has no text: nothing is sent. *)
Lemma snmp_set_no_text (fuel : nat) (oid : string) (value : option PyValue)
  (datatype : option SnmpType) (h : Hub) (w : World) :
  value_renders value = false ->
  snmp_set fuel oid value datatype h w
  = Some (Raise ValueError, counter_add "snmp_set:calls" 1 h, w).
Proof.
  intros Hv. unfold snmp_set, collect_stats.
  unfold mbind, M_bind, M_then, _increment_counter, update_self, get_self, lift.
  cbv beta iota. now rewrite oid_value_of_cases, Hv.
Qed.

(** [snmp_set] when the device answers its request with a status that
    [_get] lets through. *)
Lemma snmp_set_answer (n : nat) (oid : string) (value : option PyValue)
  (datatype : option SnmpType) (h : Hub) (w : World) (resp : Response) :
  value_renders value = true ->
  device (requests_made w) (snmp_set_request h oid value datatype) = Answers resp ->
  passes (status_code resp) = true ->
  snmp_set (S n) oid value datatype h w
  = let hc := counter_add ("received_http_" +:+ py_str (status_code resp)) 1
                (counter_add "_get:calls" 1 (counter_add "snmp_set:calls" 1 h)) in
    let w1 := (w ++ [EvRequest (snmp_set_request h oid value datatype)])%list in
    match json_loads (content resp) with
    | None => Some (Raise ValueError, hc, w1)
    | Some (JObj members) =>
        if negb (dict_mem oid members) then Some (Raise (SNMPSetError oid), hc, w1)
        else if status_code resp =? 304 then Some (Ok false, hc, w1)
        else Some (Ok true, set_unapplied_settings true hc, w1)
    | Some _ => Some (Raise AttributeError, hc, w1)
    end.
Proof.
  intros Hv Hdev Hp. destruct (passes_status _ Hp) as [H401 H500].
  unfold snmp_set, collect_stats, _get, collect_stats.
  unfold mbind, M_bind, M_then, mret, M_ret, M_unit, _increment_counter, update_self,
    get_self, raise, lift. cbv beta iota. rewrite oid_value_of_cases, Hv. cbv beta iota.
  rewrite (_get_loop_answer n _ [] 5 3 1 _ w resp); [| exact Hdev | exact H401 | exact H500].
  rewrite Hp. cbv beta iota zeta. unfold raise_for_status.
  unfold passes in Hp. apply negb_true_iff in Hp. rewrite Hp. unfold mret, M_ret, M_unit.
  destruct (json_loads (content resp)) as [[| | | | | |members]|]; try reflexivity.
  destruct (negb (dict_mem oid members)); [reflexivity|].
  destruct (status_code resp =? 304); reflexivity.
Qed.

Lemma apply_settings_nothing_pending (fuel : nat) (h : Hub) (w : World) :
  _unapplied_settings h = false -> apply_settings fuel h w = Some (Ok tt, h, w).
Proof.
  intros Hflag. unfold apply_settings, mbind, M_bind, M_then, get_self. cbv beta iota.
  now rewrite Hflag.
Qed.

(** When the device answers 304 with a body that names the OID,
    [snmp_set] returns false and leaves the unapplied-settings flag as it
    was (on any 304 the flag stays and the result is not true); on any
    other successful answer that names the OID it returns true and sets
    the flag.  [apply_settings] sends nothing when nothing is pending;
    otherwise it sets the commit OID and clears the flag. *)
Theorem snmp_set_and_apply_settings :
  (forall n oid value datatype h w resp,
      value_renders value = true ->
      device (requests_made w) (snmp_set_request h oid value datatype) = Answers resp ->
      status_code resp = 304 ->
      (forall res h' w',
          snmp_set (S n) oid value datatype h w = Some (res, h', w') ->
          _unapplied_settings h' = _unapplied_settings h /\ res <> Ok true)
      /\ (forall members,
             json_loads (content resp) = Some (JObj members) ->
             dict_mem oid members = true ->
             exists h',
               snmp_set (S n) oid value datatype h w
               = Some (Ok false, h',
                       (w ++ [EvRequest (snmp_set_request h oid value datatype)])%list)
               /\ _unapplied_settings h' = _unapplied_settings h))
  /\ (forall n oid value datatype h w resp members,
         value_renders value = true ->
         device (requests_made w) (snmp_set_request h oid value datatype) = Answers resp ->
         passes (status_code resp) = true -> status_code resp <> 304 ->
         json_loads (content resp) = Some (JObj members) ->
         dict_mem oid members = true ->
         exists h',
           snmp_set (S n) oid value datatype h w
           = Some (Ok true, h',
                   (w ++ [EvRequest (snmp_set_request h oid value datatype)])%list)
           /\ _unapplied_settings h' = true)
  /\ (forall fuel h w,
         _unapplied_settings h = false -> apply_settings fuel h w = Some (Ok tt, h, w))
  /\ (forall n h w resp members,
         _unapplied_settings h = true ->
         device (requests_made w)
                (snmp_set_request h commit_oid (Some (PInt 1)) (Some Type_INT)) = Answers resp ->
         passes (status_code resp) = true ->
         json_loads (content resp) = Some (JObj members) ->
         dict_mem commit_oid members = true ->
         exists h',
           apply_settings (S n) h w
           = Some (Ok tt, h',
                   (w ++ [EvRequest (snmp_set_request h commit_oid (Some (PInt 1))
                                                      (Some Type_INT))])%list)
           /\ _unapplied_settings h' = false).
Proof.
  split; [|split; [|split]].
  - intros n oid value datatype h w resp Hv Hdev Hs.
    assert (Hp : passes (status_code resp) = true) by (now rewrite Hs).
    pose proof (snmp_set_answer n oid value datatype h w resp Hv Hdev Hp) as Hrun.
    cbv zeta in Hrun. rewrite Hs in Hrun. change (304 =? 304) with true in Hrun.
    split.
    + intros res h' w' E. rewrite Hrun in E.
      destruct (json_loads (content resp)) as [[| | | | | |members]|];
        try (injection E as <- <- _; split; [reflexivity | discriminate]).
      destruct (negb (dict_mem oid members));
        injection E as <- <- _; split; try reflexivity; discriminate.
    + intros members Hj Hm. rewrite Hrun, Hj, Hm. cbn [negb].
      eexists. split; reflexivity.
  - intros n oid value datatype h w resp members Hv Hdev Hp Hs Hj Hm.
    rewrite (snmp_set_answer n oid value datatype h w resp Hv Hdev Hp). cbv zeta.
    rewrite Hj, Hm. cbn [negb]. apply Z.eqb_neq in Hs. rewrite Hs.
    eexists. split; reflexivity.
  - exact apply_settings_nothing_pending.
  - intros n h w resp members Hflag Hdev Hp Hj Hm.
    unfold apply_settings, mbind, M_bind, M_then, get_self, update_self. cbv beta iota.
    rewrite Hflag. cbn [negb].
    rewrite (snmp_set_answer n commit_oid (Some (PInt 1)) (Some Type_INT) h w resp
               eq_refl Hdev Hp). cbv zeta.
    rewrite Hj, Hm. cbn [negb].
    destruct (status_code resp =? 304); eexists; split; reflexivity.
Qed.

(** C7: a 304 carries no body, and on it [snmp_set] does not return
    false: the body is parsed before the status is looked at, so the call
    raises the [ValueError] of the parser; nothing is marked pending. *)
Theorem snmp_set_304_without_body (n : nat) (oid : string) (value : option PyValue)
  (datatype : option SnmpType) (h : Hub) (w : World) (resp : Response) :
  json_loads "" = None ->
  value_renders value = true ->
  device (requests_made w) (snmp_set_request h oid value datatype) = Answers resp ->
  status_code resp = 304 -> content resp = "" ->
  exists h',
    snmp_set (S n) oid value datatype h w
    = Some (Raise ValueError, h',
            (w ++ [EvRequest (snmp_set_request h oid value datatype)])%list)
    /\ _unapplied_settings h' = _unapplied_settings h.
Proof.
  intros Hempty Hv Hdev Hs Hbody.
  assert (Hp : passes (status_code resp) = true) by (now rewrite Hs).
  rewrite (snmp_set_answer n oid value datatype h w resp Hv Hdev Hp). cbv zeta.
  rewrite Hbody, Hempty. eexists. split; reflexivity.
Qed.

(** [snmp_walk] when the device answers its request with a status that
    [_get] lets through. *)
Lemma snmp_walk_answer (n : nat) (oid : string) (h : Hub) (w : World) (resp : Response) :
  device (requests_made w) (snmp_walk_request h oid) = Answers resp ->
  passes (status_code resp) = true ->
  snmp_walk (S n) oid h w
  = let hc := counter_add ("received_http_" +:+ py_str (status_code resp)) 1
                (counter_add "_get:calls" 1 (counter_add "snmp_walk:calls" 1 h)) in
    let w1 := (w ++ [EvRequest (snmp_walk_request h oid)])%list in
    match json_loads (drop_error_lines (text resp)) with
    | None => Some (Raise ValueError, hc, w1)
    | Some (JObj result) => Some (Ok (strip_finish result), hc, w1)
    | Some _ => Some (Raise AttributeError, hc, w1)
    end.
Proof.
  intros Hdev Hp. destruct (passes_status _ Hp) as [H401 H500].
  unfold snmp_walk, collect_stats, _get, collect_stats.
  unfold mbind, M_bind, M_then, mret, M_ret, M_unit, _increment_counter, update_self,
    get_self, raise. cbv beta iota.
  rewrite (_get_loop_answer n _ [] 5 3 1 _ w resp); [| exact Hdev | exact H401 | exact H500].
  rewrite Hp. cbv beta iota zeta.
  destruct (json_loads (drop_error_lines (text resp))) as [[| | | | | |members]|];
    reflexivity.
Qed.

(** C4: before parsing, [snmp_walk] drops the lines that are exactly the
    error line, and only those (the other lines stay, in order; a text
    without such a line is unchanged); from the parsed map it removes the
    key 1 when and only when its value is the string Finish, every other
    entry staying as it is. *)
Theorem snmp_walk_cleanup :
  (forall t, ~ In oid_error_line (split newline (drop_error_lines t)))
  /\ (forall t,
         List.filter (fun x => negb (String.eqb x oid_error_line)) (split newline t) <> [] ->
         split newline (drop_error_lines t)
         = List.filter (fun x => negb (String.eqb x oid_error_line)) (split newline t))
  /\ (forall t, ~ In oid_error_line (split newline t) -> drop_error_lines t = t)
  /\ (forall d k,
         dict_get k (strip_finish d)
         = if String.eqb k "1" && json_is_str "Finish" (dict_get "1" d) then None
           else dict_get k d)
  /\ (forall d,
         strip_finish d
         = if json_is_str "Finish" (dict_get "1" d)
           then List.filter (fun kv => negb (String.eqb "1" (fst kv))) d
           else d)
  /\ (forall n oid h w resp d,
         device (requests_made w) (snmp_walk_request h oid) = Answers resp ->
         passes (status_code resp) = true ->
         json_loads (drop_error_lines (text resp)) = Some (JObj d) ->
         exists h',
           snmp_walk (S n) oid h w
           = Some (Ok (strip_finish d), h',
                   (w ++ [EvRequest (snmp_walk_request h oid)])%list)).
Proof.
  split; [exact drop_error_lines_clean|].
  split; [exact drop_error_lines_lines|].
  split; [exact drop_error_lines_id|].
  split; [intros d k; apply strip_finish_get|].
  split.
  - intros d. unfold strip_finish.
    destruct (json_is_str "Finish" (dict_get "1" d)); [apply dict_del_filter | reflexivity].
  - intros n oid h w resp d Hdev Hp Hj.
    rewrite (snmp_walk_answer n oid h w resp Hdev Hp). cbv zeta. rewrite Hj.
    eexists. reflexivity.
Qed.

(** The decorated function receives the rows assembled from the cleaned
    walk of the top OID. *)
Lemma snmp_table_passes_rows {B} (n : nat) (top_oid : string) (columns : dict string)
  (func : list SNMPRow -> M B) (fields : list string) (h : Hub) (w : World)
  (resp : Response) (d : dict json) (rows : list SNMPRow) :
  rowcls_fields columns = Ok fields ->
  device (requests_made w) (snmp_walk_request h top_oid) = Answers resp ->
  passes (status_code resp) = true ->
  json_loads (drop_error_lines (text resp)) = Some (JObj d) ->
  table_rows top_oid columns (strip_finish d) = Ok rows ->
  exists wrapper h',
    snmp_table (S n) top_oid columns func = Ok wrapper
    /\ wrapper h w
       = func rows h' (w ++ [EvRequest (snmp_walk_request h top_oid)])%list.
Proof.
  intros Hfields Hdev Hp Hj Hrows. unfold snmp_table. rewrite Hfields.
  cbn [mbind Outcome_bind obind]. eexists. eexists. split; [reflexivity|].
  unfold mbind, M_bind, M_then.
  rewrite (snmp_walk_answer n top_oid h w resp Hdev Hp). cbv zeta. rewrite Hj.
  unfold lift. rewrite Hrows. reflexivity.
Qed.

End Operations.

(* ===================================================================== *)
(** * The table assembler *)
(* ===================================================================== *)

Lemma omap_Forall2 {A B} (f : A -> Outcome B) (l : list A) (l' : list B) :
  omap f l = Ok l' -> Forall2 (fun x y => f x = Ok y) l l'.
Proof.
  revert l'. induction l as [|x xs IH]; simpl; intros l' E.
  - injection E as <-. constructor.
  - destruct (f x) as [y|] eqn:Hx; [|discriminate E].
    cbn [mbind Outcome_bind obind] in E.
    destruct (omap f xs) as [ys|]; [|discriminate E].
    injection E as <-. constructor; [exact Hx | now apply IH].
Qed.

Lemma omap_total {A B} (f : A -> Outcome B) (l : list A) :
  (forall x, In x l -> exists y, f x = Ok y) -> exists l', omap f l = Ok l'.
Proof.
  induction l as [|x xs IH]; simpl; intros Hl; [now exists []|].
  destruct (Hl x (or_introl eq_refl)) as [y Hy].
  destruct IH as [ys Hys]; [intros z Hz; apply Hl; now right|].
  exists (y :: ys). now rewrite Hy, Hys.
Qed.

Lemma dict_get_set {V} (k k' : string) (v : V) (d : dict V) :
  dict_get k (dict_set k' v d) = if String.eqb k k' then Some v else dict_get k d.
Proof.
  induction d as [|[k0 v0] rest IH]; simpl.
  - reflexivity.
  - destruct (String.eqb k' k0) eqn:E0; simpl.
    + apply String.eqb_eq in E0. subst k0. now destruct (String.eqb k k').
    + rewrite IH. destruct (String.eqb k k0) eqn:E1; [|reflexivity].
      apply String.eqb_eq in E1. subst k0. rewrite String.eqb_sym in E0. now rewrite E0.
Qed.

Lemma dict_get_map_names {V} (f : string -> V) (names : list string) (name : string) :
  dict_get name (map (fun n => (n, f n)) names)
  = if string_in name names then Some (f name) else None.
Proof.
  induction names as [|n ns IH]; simpl; [reflexivity|].
  destruct (String.eqb name n) eqn:E; simpl; [|exact IH].
  apply String.eqb_eq in E. now subst n.
Qed.

Lemma string_in_In (s : string) (l : list string) : string_in s l = true <-> In s l.
Proof.
  unfold string_in. rewrite existsb_exists. split.
  - intros (x & Hx & E). apply String.eqb_eq in E. now subst x.
  - intros Hs. exists s. split; [exact Hs | apply String.eqb_refl].
Qed.

(** ** Sorting *)

Lemma sort_insert_perm {A} (x : (Z * string) * A) (l : list ((Z * string) * A)) :
  Permutation (sort_insert x l) (x :: l).
Proof.
  induction l as [|y rest IH]; simpl; [reflexivity|].
  destruct (key_le (fst x) (fst y)); [reflexivity|].
  rewrite IH. apply perm_swap.
Qed.

Lemma sort_by_key_perm {A} (l : list ((Z * string) * A)) :
  Permutation (sort_by_key l) l.
Proof.
  induction l as [|x rest IH]; simpl; [reflexivity|].
  rewrite sort_insert_perm. now constructor.
Qed.

Lemma key_le_row {A} (x y : (Z * string) * A) :
  key_le (fst x) (fst y) = true -> row_le x y.
Proof.
  unfold key_le, row_le. intros Hk. apply orb_prop in Hk as [Hk|Hk].
  - apply Z.ltb_lt in Hk. lia.
  - apply andb_prop in Hk as [Hk _]. apply Z.eqb_eq in Hk. lia.
Qed.

Lemma key_le_false_row {A} (x y : (Z * string) * A) :
  key_le (fst x) (fst y) = false -> row_le y x.
Proof.
  unfold key_le, row_le. intros Hk. apply orb_false_elim in Hk as [Hk _].
  apply Z.ltb_ge in Hk. exact Hk.
Qed.

Lemma sort_insert_sorted {A} (x : (Z * string) * A) (l : list ((Z * string) * A)) :
  StronglySorted row_le l -> StronglySorted row_le (sort_insert x l).
Proof.
  induction 1 as [|y rest Hs IH Hall]; simpl.
  - repeat constructor.
  - destruct (key_le (fst x) (fst y)) eqn:Hk.
    + apply key_le_row in Hk. constructor; [now constructor|].
      constructor; [exact Hk|].
      eapply List.Forall_impl; [|exact Hall]. unfold row_le in *. intros z Hz. cbv beta in Hz. lia.
    + apply key_le_false_row in Hk. constructor; [exact IH|].
      apply List.Forall_forall. intros z Hz.
      apply (Permutation_in _ (sort_insert_perm x rest)) in Hz as [<-|Hz]; [exact Hk|].
      rewrite List.Forall_forall in Hall. now apply Hall.
Qed.

Lemma sort_by_key_sorted {A} (l : list ((Z * string) * A)) :
  StronglySorted row_le (sort_by_key l).
Proof.
  induction l as [|x rest IH]; simpl; [constructor | now apply sort_insert_sorted].
Qed.

(** ** Grouping a list sorted by its key *)

Section Groupby.
Context {A : Type} (key : A -> Z).

Lemma groupby_spec (l : list A) :
  StronglySorted (fun a b => key a <= key b) l ->
  StronglySorted Z.lt (map fst (groupby key l))
  /\ (forall g, In g (groupby key l) ->
        snd g <> [] /\ forall x, In x (snd g) <-> In x l /\ key x = fst g)
  /\ (forall x, In x l -> exists g, In g (groupby key l) /\ fst g = key x).
Proof.
  induction 1 as [|x rest Hs IH Hall].
  - simpl. split; [constructor|]. split; [intros g []|intros x []].
  - destruct IH as (IHs & IHm & IHc). rewrite List.Forall_forall in Hall.
    simpl. destruct (groupby key rest) as [|[k run] gs'] eqn:Hg.
    + assert (Hrest : rest = []).
      { destruct rest as [|y t]; [reflexivity|].
        destruct (IHc y (or_introl eq_refl)) as (g & [] & _). }
      subst rest. split; [repeat constructor|]. split.
      * intros g [<-|[]]. split; [discriminate|]. intros y. simpl. intuition congruence.
      * intros y [<-|[]]. exists (key x, [x]). split; [now left | reflexivity].
    + destruct (IHm (k, run) (or_introl eq_refl)) as (Hrun & Hmem). cbn [fst snd] in *.
      assert (Hk : key x <= k).
      { destruct run as [|y t]; [congruence|].
        destruct (proj1 (Hmem y) (or_introl eq_refl)) as (Hy & <-). now apply Hall. }
      assert (Hgt : forall g, In g gs' -> k < fst g).
      { intros g Hin. inversion IHs as [|? ? _ Hlt]; subst.
        rewrite List.Forall_forall in Hlt. apply Hlt. now apply in_map. }
      destruct (key x =? k) eqn:Heq.
      * apply Z.eqb_eq in Heq. split; [exact IHs|]. split.
        -- intros g [<-|Hin]; cbn [fst snd].
           ++ split; [discriminate|]. intros y. simpl. rewrite Hmem. intuition congruence.
           ++ destruct (IHm g (or_intror Hin)) as (Hne & Hm). split; [exact Hne|].
              intros y. rewrite Hm. simpl. split; [intuition|].
              intros [[<-|Hy] Hky]; [|now split].
              specialize (Hgt g Hin). lia.
        -- intros y [<-|Hy].
           ++ exists (k, x :: run). split; [now left | now symmetry].
           ++ destruct (IHc y Hy) as (g & [<-|Hin] & Hg').
              ** exists (k, x :: run). split; [now left | exact Hg'].
              ** exists g. split; [now right | exact Hg'].
      * apply Z.eqb_neq in Heq.
        assert (Hall' : forall g, In g ((k, run) :: gs') -> key x < fst g).
        { intros g [<-|Hin]; cbn [fst]; [lia|]. specialize (Hgt g Hin). lia. }
        split.
        -- cbn [map fst]. constructor; [exact IHs|].
           apply List.Forall_forall. intros k' Hk'.
           change (k :: map fst gs') with (map fst ((k, run) :: gs')) in Hk'.
           apply in_map_iff in Hk' as (g & <- & Hin). now apply Hall'.
        -- split.
           ++ intros g [<-|Hin]; cbn [fst snd].
              ** split; [discriminate|]. intros y. simpl. split; [intuition congruence|].
                 intros [[<-|Hy] Hky]; [now left|].
                 destruct (IHc y Hy) as (g & Hin & Hg'). specialize (Hall' g Hin). lia.
              ** destruct (IHm g Hin) as (Hne & Hm). split; [exact Hne|].
                 intros y. rewrite Hm. simpl. split; [intuition|].
                 intros [[<-|Hy] Hky]; [|now split].
                 specialize (Hall' g Hin). lia.
           ++ intros y [<-|Hy].
              ** exists (key x, [x]). split; [now left | reflexivity].
              ** destruct (IHc y Hy) as (g & Hin & Hg'). exists g. split; [now right | exact Hg'].
Qed.

End Groupby.

(** ** The keyword arguments of a row *)

Section Rows.
Variables (top_oid : string) (columns : dict string).


Lemma row_kwargs_get (run : list (string * json)) :
  forall acc kwargs name,
    row_kwargs top_oid columns run acc = Ok kwargs ->
    (dict_get name kwargs = None <->
       dict_get name acc = None
       /\ forall oid v, In (oid, v) run ->
                        dict_get (col_num top_oid oid) columns <> Some name)
    /\ (forall v, dict_get name kwargs = Some v ->
          dict_get name acc = Some v
          \/ exists oid, In (oid, v) run
                         /\ dict_get (col_num top_oid oid) columns = Some name).
Proof.
  induction run as [|[oid value] rest IH]; intros acc kwargs name Hk; simpl in Hk.
  - injection Hk as <-. split.
    + split; [intros Hn; split; [exact Hn | intros ? ? []] | now intros [Hn _]].
    + intros v Hv. now left.
  - destruct (dict_get (col_num top_oid oid) columns) as [nm|] eqn:Hcol; [|discriminate Hk].
    destruct (IH _ _ name Hk) as [IHn IHs]. rewrite dict_get_set in IHn, IHs.
    destruct (String.eqb name nm) eqn:Hnm.
    + apply String.eqb_eq in Hnm. subst nm. split.
      * split.
        -- intros Hn. apply IHn in Hn as [Hn _]. discriminate Hn.
        -- intros [_ Hall]. exfalso. apply (Hall oid value); [now left | exact Hcol].
      * intros v Hv. right. apply IHs in Hv as [Hv|(oid' & Hin & Hc)].
        -- injection Hv as <-. exists oid. split; [now left | exact Hcol].
        -- exists oid'. split; [now right | exact Hc].
    + apply String.eqb_neq in Hnm. split.
      * rewrite IHn. split.
        -- intros [Hn Hall]. split; [exact Hn|]. intros oid' v [E|Hin].
           ++ injection E as <- <-. rewrite Hcol. congruence.
           ++ now apply (Hall oid' v).
        -- intros [Hn Hall]. split; [exact Hn|]. intros oid' v Hin.
           apply (Hall oid' v). now right.
      * intros v Hv. apply IHs in Hv as [Hv|(oid' & Hin & Hc)]; [now left|].
        right. exists oid'. split; [now right | exact Hc].
Qed.




(** The keys [sort] computes for the surviving entries. *)
Lemma keyed_entries (results : list (string * json)) :
  forall keyed,
    omap (fun x => r ← row_num top_oid (fst x);
                   Ok ((r, col_num top_oid (fst x)), x)) results = Ok keyed ->
    (forall kx, In kx keyed ->
        In (snd kx) results /\ row_num top_oid (fst (snd kx)) = Ok (fst (fst kx)))
    /\ (forall x, In x results -> exists kx, In kx keyed /\ snd kx = x).
Proof.
  induction results as [|x rest IH]; intros keyed Hk; simpl in Hk.
  - injection Hk as <-. split; [intros ? [] | intros ? []].
  - destruct (row_num top_oid (fst x)) as [r|] eqn:Hr; [|discriminate Hk].
    cbn [mbind Outcome_bind obind] in Hk.
    destruct (omap _ rest) as [ks|] eqn:Hrest; [|discriminate Hk].
    cbn [mbind Outcome_bind obind] in Hk. injection Hk as <-.
    destruct (IH ks eq_refl) as [IH1 IH2]. split.
    + intros kx [<-|Hin]; cbn [fst snd].
      * split; [now left | exact Hr].
      * destruct (IH1 kx Hin) as [Ha Hb]. split; [now right | exact Hb].
    + intros y [<-|Hy].
      * eexists. split; [now left | reflexivity].
      * destruct (IH2 y Hy) as (kx & Hin & E). exists kx. split; [now right | exact E].
Qed.

End Rows.

(** ** The rows of a table *)

Lemma Forall2_In_r {A B} (R : A -> B -> Prop) (l : list A) (l' : list B) (y : B) :
  Forall2 R l l' -> In y l' -> exists x, In x l /\ R x y.
Proof.
  induction 1 as [|a b l l' Hab _ IH]; intros Hy; [destruct Hy|].
  destruct Hy as [<-|Hy].
  - exists a. split; [now left | exact Hab].
  - destruct (IH Hy) as (x & Hx & Hr). exists x. split; [now right | exact Hr].
Qed.


Section Table.
Variables (top_oid : string) (columns : dict string) (walk : dict json).

(** What [table_rows] builds, group by group. *)
Lemma table_rows_groups (rows : list SNMPRow) :
  table_rows top_oid columns walk = Ok rows ->
  exists groups : list (Z * list ((Z * string) * (string * json))),
    Forall2 (fun g row =>
               exists kwargs,
                 row_kwargs top_oid columns (map snd (snd g)) [] = Ok kwargs
                 /\ row = make_row columns kwargs (fst g)) groups rows
    /\ StronglySorted Z.lt (map fst groups)
    /\ (forall g, In g groups ->
          snd g <> []
          /\ forall e, In e (map snd (snd g)) <->
                       In e walk /\ survives top_oid columns e = true
                       /\ row_num top_oid (fst e) = Ok (fst g))
    /\ (forall e, In e walk -> survives top_oid columns e = true ->
          exists g, In g groups /\ row_num top_oid (fst e) = Ok (fst g)).
Proof.
  unfold table_rows.
  destruct (omap _ (List.filter _ walk)) as [keyed|] eqn:Hkeyed; [|discriminate].
  cbn [mbind Outcome_bind obind]. intros Hrows.
  destruct (keyed_entries top_oid _ _ Hkeyed) as [K1 K2].
  pose proof (groupby_spec (fun kx : (Z * string) * (string * json) => fst (fst kx))
                (sort_by_key keyed) (sort_by_key_sorted keyed)) as (Gs & Gm & Gc).
  assert (Hperm : forall kx, In kx (sort_by_key keyed) <-> In kx keyed).
  { intros kx. split; apply Permutation_in;
      [apply sort_by_key_perm | symmetry; apply sort_by_key_perm]. }
  exists (groupby (fun kx => fst (fst kx)) (sort_by_key keyed)).
  split; [|split; [exact Gs|split]].
  - apply omap_Forall2 in Hrows. eapply List.Forall2_impl; [|exact Hrows].
    intros g row Hg. cbv beta in Hg.
    destruct (row_kwargs top_oid columns (map snd (snd g)) []) as [kwargs|];
      [|discriminate Hg].
    cbn [mbind Outcome_bind obind] in Hg. unfold rowcls_call in Hg.
    destruct (forallb _ kwargs); [|discriminate Hg].
    injection Hg as <-. now exists kwargs.
  - intros g Hg. destruct (Gm g Hg) as [Hne Hm]. split; [exact Hne|].
    intros e. rewrite in_map_iff. split.
    + intros (kx & <- & Hkx). apply Hm in Hkx as [Hin Hkey].
      apply Hperm, K1 in Hin as [Hres Hrow]. apply filter_In in Hres as [Hw Hs].
      split; [exact Hw|]. split; [exact Hs|]. now rewrite Hrow, Hkey.
    + intros (Hw & Hs & Hrow).
      destruct (K2 e) as (kx & Hkx & <-); [apply filter_In; now split|].
      exists kx. split; [reflexivity|]. apply Hm. split; [now apply Hperm|].
      destruct (K1 kx Hkx) as [_ Hrow']. rewrite Hrow' in Hrow. now injection Hrow.
  - intros e Hw Hs.
    destruct (K2 e) as (kx & Hkx & <-); [apply filter_In; now split|].
    destruct (Gc kx (proj2 (Hperm kx) Hkx)) as (g & Hg & Hkey).
    exists g. split; [exact Hg|]. destruct (K1 kx Hkx) as [_ Hrow]. now rewrite Hrow, Hkey.
Qed.



End Table.

Lemma row_get_make_row (columns : dict string) (kwargs : dict json) (idx : Z)
  (name : string) :
  In name (dict_values columns) ->
  row_get (make_row columns kwargs idx) name = dict_get name kwargs.
Proof.
  intros Hname. unfold row_get, make_row. cbn [cells].
  rewrite (dict_get_map_names (fun n => dict_get n kwargs)).
  apply string_in_In in Hname. now rewrite Hname.
Qed.








(* ===================================================================== *)
(** * Runs against the simulated device *)
(* ===================================================================== *)

(** Logging out of a device that answers 500 three times: the request
    fails, and the session is cleared all the same. *)
Lemma logout_spec_witness :
  exists res h' evs,
    @logout (simulated (scripted [Answers (mk_response 500 "");
                                  Answers (mk_response 500 "");
                                  Answers (mk_response 500 "")])) 3 example_hub []
    = Some (res, h', ([] ++ evs)%list)
    /\ _credential h' = None /\ _username h' = None /\ _password h' = None
    /\ forallb (is_event_of (_url example_hub +:+ "/logout")) evs = true
    /\ (1 <= requests_to (_url example_hub +:+ "/logout") evs)%nat.
Proof.
  apply (proj1 (proj2 (@logout_spec (simulated (scripted [Answers (mk_response 500 "");
                                                          Answers (mk_response 500 "");
                                                          Answers (mk_response 500 "")]))
                         3 example_hub []))); [reflexivity | lia].
Defined.


Lemma snmp_walk_cleanup_witness :
  read_flat_object walk_answer = None
  /\ exists h',
       @snmp_walk (simulated (scripted [Answers (mk_response 200 walk_answer)]))
                  1 "1.3.6" example_hub []
       = Some (Ok [("1.3.6.1", JStr "a")], h',
               ([] ++ [EvRequest (snmp_walk_request example_hub "1.3.6")])%list).
Proof.
  split; [vm_compute; reflexivity|].
  apply (proj2 (proj2 (proj2 (proj2 (proj2
           (@snmp_walk_cleanup (simulated (scripted [Answers (mk_response 200 walk_answer)])))))))
           0%nat "1.3.6" example_hub [] (mk_response 200 walk_answer)
           [("1.3.6.1", JStr "a"); ("1", JStr "Finish")]);
    vm_compute; reflexivity.
Defined.

(** A set the device answers with 304: no change, nothing pending. *)
Lemma snmp_set_and_apply_settings_witness :
  exists h',
    @snmp_set (simulated (scripted [Answers (mk_response 304
                                               ("{" +:+ quoted "1.3.6.1" +:+ ":" +:+ quoted "5" +:+ "}"))]))
              1 "1.3.6.1" (Some (PInt 5)) (Some Type_INT) example_hub []
    = Some (Ok false, h',
            ([] ++ [EvRequest (@snmp_set_request
                                 (simulated (scripted []))
                                 example_hub "1.3.6.1" (Some (PInt 5)) (Some Type_INT))])%list)
    /\ _unapplied_settings h' = _unapplied_settings example_hub.
Proof.
  apply (proj2 (proj1 (@snmp_set_and_apply_settings
                         (simulated (scripted [Answers (mk_response 304
                            ("{" +:+ quoted "1.3.6.1" +:+ ":" +:+ quoted "5" +:+ "}"))])))
                  0%nat "1.3.6.1" (Some (PInt 5)) (Some Type_INT) example_hub []
                  (mk_response 304 ("{" +:+ quoted "1.3.6.1" +:+ ":" +:+ quoted "5" +:+ "}"))
                  eq_refl eq_refl eq_refl)
           [("1.3.6.1", JStr "5")]); vm_compute; reflexivity.
Defined.

(** A set the device answers with an ordinary 304, which has no body. *)
Lemma snmp_set_304_without_body_witness :
  exists h',
    @snmp_set (simulated (scripted [Answers (mk_response 304 "")]))
              1 "1.3.6.1" (Some (PStr "x")) (Some Type_STRING) example_hub []
    = Some (Raise ValueError, h',
            ([] ++ [EvRequest (@snmp_set_request
                                 (simulated (scripted [Answers (mk_response 304 "")]))
                                 example_hub "1.3.6.1" (Some (PStr "x"))
                                 (Some Type_STRING))])%list)
    /\ _unapplied_settings h' = _unapplied_settings example_hub.
Proof.
  apply (@snmp_set_304_without_body (simulated (scripted [Answers (mk_response 304 "")]))
           0 "1.3.6.1" (Some (PStr "x")) (Some Type_STRING) example_hub []
           (mk_response 304 "")); reflexivity.
Defined.

(* ===================================================================== *)
(** * Integers and their text *)
(* ===================================================================== *)

Lemma parse_digits_uint (d : Decimal.uint) (acc : Z) :
  parse_digits 10 (list_ascii_of_string (NilEmpty.string_of_uint d)) acc false
  = Some (uint_value d acc).
Proof.
  revert acc. induction d as [|d IH|d IH|d IH|d IH|d IH|d IH|d IH|d IH|d IH|d IH];
    intros acc; [reflexivity| | | | | | | | | |];
    cbn [NilEmpty.string_of_uint list_ascii_of_string uint_value]; rewrite <- IH;
    reflexivity.
Qed.

Lemma uint_no_space (d : Decimal.uint) :
  forallb (fun c => negb (is_space c))
          (list_ascii_of_string (NilEmpty.string_of_uint d)) = true.
Proof.
  induction d; cbn [NilEmpty.string_of_uint list_ascii_of_string forallb];
    [reflexivity| | | | | | | | | |]; rewrite IHd; reflexivity.
Qed.

Lemma of_uint_acc_value (d : Decimal.uint) (p : positive) :
  Z.pos (Pos.of_uint_acc d p) = uint_value d (Z.pos p).
Proof.
  revert p. induction d; intros p; cbn [Pos.of_uint_acc uint_value];
    [reflexivity| | | | | | | | | |]; rewrite IHd; f_equal; lia.
Qed.

Lemma of_uint_value (d : Decimal.uint) : Z.of_uint d = uint_value d 0.
Proof.
  unfold Z.of_uint. induction d; cbn [Pos.of_uint uint_value Z.of_N];
    [reflexivity | exact IHd | | | | | | | | |]; apply of_uint_acc_value.
Qed.

Lemma count_digits_cons (c : ascii) (l : list ascii) :
  Ascii.eqb c "_" = false -> count_digits (c :: l) = S (count_digits l).
Proof. intros Hc. unfold count_digits. cbn [List.filter]. now rewrite Hc. Qed.

Lemma uint_count_digits (d : Decimal.uint) :
  count_digits (list_ascii_of_string (NilEmpty.string_of_uint d))
  = String.length (NilEmpty.string_of_uint d).
Proof.
  induction d; cbn [NilEmpty.string_of_uint list_ascii_of_string String.length];
    [reflexivity| | | | | | | | | |];
    rewrite count_digits_cons by reflexivity; now f_equal.
Qed.

(** [int] reads a run of decimal digits as its value, up to the limit on
    their number. *)
Lemma py_int_uint (d : Decimal.uint) :
  d <> Decimal.Nil ->
  py_int 10 (NilEmpty.string_of_uint d)
  = (if int_max_str_digits <? Z.of_nat (String.length (NilEmpty.string_of_uint d))
     then Raise ValueError else Ok (Z.of_uint d))
  /\ py_int 10 (String "-" (NilEmpty.string_of_uint d))
     = (if int_max_str_digits <? Z.of_nat (String.length (NilEmpty.string_of_uint d))
        then Raise ValueError else Ok (- Z.of_uint d)).
Proof.
  intros Hd. rewrite of_uint_value. unfold py_int.
  cbn [list_ascii_of_string].
  rewrite !strip_no_space
    by (cbn [forallb]; rewrite ?uint_no_space; reflexivity).
  change (Ascii.eqb "-" "-") with true. cbv iota.
  pose proof (parse_digits_uint d 0) as Hp.
  pose proof (uint_count_digits d) as Hcount.
  assert (Hhead : exists c t, list_ascii_of_string (NilEmpty.string_of_uint d) = c :: t
                              /\ Ascii.eqb c "-" = false /\ Ascii.eqb c "+" = false
                              /\ Ascii.eqb c "_" = false).
  { destruct d; [congruence| | | | | | | | | |];
      cbn [NilEmpty.string_of_uint list_ascii_of_string]; eexists _, _; repeat split. }
  destruct Hhead as (c & t & Hl & Hm & Hplus & Hu). rewrite Hl in *.
  rewrite Hm, Hplus.
  assert (Hpre : match c :: t with
                 | z :: x :: t0 =>
                     if (10 =? 16) && Ascii.eqb z "0" && (Ascii.eqb x "x" || Ascii.eqb x "X")
                     then match t0 with
                          | u :: t' => if Ascii.eqb u "_" then t' else t0
                          | [] => t0
                          end
                     else c :: t
                 | _ => c :: t
                 end = c :: t) by (destruct t; reflexivity).
  rewrite Hpre. unfold parse_number. rewrite Hu, Hp, Hcount.
  change (negb (is_binary_base 10)) with true. cbn [andb].
  split; destruct (int_max_str_digits <? _); reflexivity.
Qed.

Lemma py_str_abs (n : Z) :
  n <> 0 ->
  exists d, d <> Decimal.Nil /\ py_str (Z.abs n) = NilEmpty.string_of_uint d
            /\ py_str n = (if n <? 0 then String "-" (NilEmpty.string_of_uint d)
                           else NilEmpty.string_of_uint d)
            /\ Z.of_uint d = Z.abs n.
Proof.
  intros Hn. unfold py_str.
  assert (Hpos : forall p, exists d, d <> Decimal.Nil
                   /\ NilZero.string_of_uint (Pos.to_uint p) = NilEmpty.string_of_uint d
                   /\ Z.of_uint d = Z.pos p /\ d = Pos.to_uint p).
  { intros p. exists (Pos.to_uint p).
    pose proof (DecimalPos.Unsigned.to_uint_nonnil p) as Hnil.
    pose proof (DecimalZ.of_to (Z.pos p)) as Hof. cbn [Z.to_int Z.of_int] in Hof.
    split; [exact Hnil|]. split; [|split; [exact Hof | reflexivity]].
    unfold NilZero.string_of_uint. destruct (Pos.to_uint p); [congruence| | | | | | | | | |];
      reflexivity. }
  destruct n as [|p|p]; [congruence| |]; destruct (Hpos p) as (d & Hnil & Hs & Hv & ->);
    exists (Pos.to_uint p); cbn [Z.abs Z.to_int NilZero.string_of_int Z.ltb Z.compare];
    repeat split; try assumption.
  now rewrite Hs.
Qed.

(** [int(str(n))] is [n] when [n] has no more digits than the limit, and
    a [ValueError] otherwise. *)
Lemma py_int_py_str (n : Z) :
  py_int 10 (py_str n)
  = if int_max_str_digits <? decimal_digits n then Raise ValueError else Ok n.
Proof.
  destruct (Z.eq_dec n 0) as [->|Hn]; [reflexivity|].
  destruct (py_str_abs n Hn) as (d & Hnil & Habs & Hstr & Hval).
  unfold decimal_digits. rewrite Habs, Hstr.
  destruct (py_int_uint d Hnil) as [Hplus Hminus].
  destruct (n <? 0) eqn:Hneg.
  - rewrite Hminus, Hval. apply Z.ltb_lt in Hneg.
    replace (- Z.abs n) with n by lia. reflexivity.
  - rewrite Hplus, Hval. apply Z.ltb_ge in Hneg.
    replace (Z.abs n) with n by lia. reflexivity.
Qed.

Lemma lstrip_keeps_last (l : list ascii) (c : ascii) :
  is_space c = false -> exists l', lstrip (l ++ [c])%list = (l' ++ [c])%list.
Proof.
  intros Hc. induction l as [|a l IH]; cbn [app lstrip].
  - rewrite Hc. now exists [].
  - destruct (is_space a); [exact IH | now exists (a :: l)].
Qed.

Lemma strip_keeps_first (c : ascii) (t : list ascii) :
  is_space c = false -> exists t', strip (c :: t) = c :: t'.
Proof.
  intros Hc. unfold strip. cbn [lstrip]. rewrite Hc. cbn [rev].
  destruct (lstrip_keeps_last (rev t) c Hc) as [l' ->].
  rewrite rev_app_distr. cbn [rev app]. now exists (rev l').
Qed.

(** [int] rejects a text whose first character it neither skips nor reads:
    anything but white space, a sign and a decimal digit. *)
Lemma py_int_bad_start (c : ascii) (rest : string) :
  is_space c = false -> Ascii.eqb c "-" = false -> Ascii.eqb c "+" = false ->
  is_decimal_digit c = false ->
  py_int 10 (String c rest) = Raise ValueError.
Proof.
  intros Hspace Hminus Hplus Hdigit. unfold py_int. cbn [list_ascii_of_string].
  destruct (strip_keeps_first c (list_ascii_of_string rest) Hspace) as [t ->].
  rewrite Hminus, Hplus.
  assert (Hpre : match c :: t with
                 | z :: x :: t0 =>
                     if (10 =? 16) && Ascii.eqb z "0" && (Ascii.eqb x "x" || Ascii.eqb x "X")
                     then match t0 with
                          | u :: t' => if Ascii.eqb u "_" then t' else t0
                          | [] => t0
                          end
                     else c :: t
                 | _ => c :: t
                 end = c :: t) by (destruct t; reflexivity).
  rewrite Hpre. unfold parse_number.
  destruct (Ascii.eqb c "_") eqn:Hu; [reflexivity|].
  cbn [parse_digits]. rewrite Hu. unfold is_decimal_digit in Hdigit.
  destruct (digit_value c) as [d|]; [|reflexivity]. now rewrite Hdigit.
Qed.

(** [extract_int] reads back the decimal text of an integer of at most
    4300 digits: the integer itself, or the absent marker for zero unless
    the caller opts out; the text of a longer integer raises [ValueError],
    as does every text that starts with a character [int] neither skips
    nor reads (a control character such as 31, a letter, an underscore).
    [None] and the empty string are absent, and under the default no
    result is ever zero. *)
Theorem extract_int_roundtrip :
  (forall n zero_is_none,
      decimal_digits n <= int_max_str_digits ->
      extract_int (Some (py_str n)) zero_is_none
      = Ok (if zero_is_none && (n =? 0) then None else Some n))
  /\ (forall n zero_is_none,
         int_max_str_digits < decimal_digits n ->
         extract_int (Some (py_str n)) zero_is_none = Raise ValueError)
  /\ (forall zero_is_none,
         extract_int None zero_is_none = Ok None
         /\ extract_int (Some "") zero_is_none = Ok None)
  /\ (forall strvalue n, extract_int strvalue true = Ok (Some n) -> n <> 0)
  /\ (forall c rest zero_is_none,
         is_space c = false -> Ascii.eqb c "-" = false -> Ascii.eqb c "+" = false ->
         is_decimal_digit c = false ->
         extract_int (Some (String c rest)) zero_is_none = Raise ValueError).
Proof.
  assert (Hne : forall n, String.eqb (py_str n) "" = false).
  { intros n. apply String.eqb_neq. intros He.
    destruct (Z.eq_dec n 0) as [->|Hn]; [discriminate He|].
    destruct (py_str_abs n Hn) as (d & Hnil & _ & Hstr & _). rewrite He in Hstr.
    destruct (n <? 0); [discriminate Hstr|].
    destruct d; [congruence| | | | | | | | | |]; discriminate Hstr. }
  split; [|split; [|split; [|split]]].
  - intros n z Hlen. unfold extract_int. rewrite Hne, py_int_py_str.
    apply Z.ltb_ge in Hlen. rewrite Hlen. cbn [mbind Outcome_bind obind].
    now destruct (z && (n =? 0)).
  - intros n z Hlen. unfold extract_int. rewrite Hne, py_int_py_str.
    apply Z.ltb_lt in Hlen. now rewrite Hlen.
  - intros z. split; reflexivity.
  - intros [s|] n; unfold extract_int; [|discriminate].
    destruct (String.eqb s ""); [discriminate|].
    destruct (py_int 10 s) as [ival|]; [|discriminate].
    cbn [mbind Outcome_bind obind andb].
    destruct (ival =? 0) eqn:Hz; [discriminate|].
    intros E. injection E as <-. now apply Z.eqb_neq.
  - intros c rest z Hspace Hminus Hplus Hdigit. unfold extract_int.
    change (String.eqb (String c rest) "") with false. cbv iota.
    now rewrite py_int_bad_start.
Qed.

Example extract_int_samples :
  extract_int (Some (String (ascii_of_nat 31) "7")) true = Raise ValueError
  /\ extract_int (Some (String (ascii_of_nat 160) "7 ")) true = Ok (Some 7)
  /\ extract_int (Some (string_of_list_ascii (repeat "1"%char 4300))) true
     = Ok (Some (Z.of_int (Decimal.Pos (Nat.iter 4300 Decimal.D1 Decimal.Nil))))
  /\ extract_int (Some (string_of_list_ascii (repeat "1"%char 4301))) true
     = Raise ValueError
  /\ extract_int (Some (string_of_list_ascii (repeat "0"%char 4301))) true
     = Raise ValueError
  /\ extract_int (Some "0") true = Ok None /\ extract_int (Some "0") false = Ok (Some 0).
Proof. vm_compute. repeat split; reflexivity. Qed.

(* ===================================================================== *)
(** * IPv6 addresses *)
(* ===================================================================== *)

Lemma string_of_length_4 (s : string) :
  String.length s = 4%nat ->
  exists a b c d, s = String a (String b (String c (String d EmptyString))).
Proof.
  destruct s as [|a [|b [|c [|d [|e s]]]]]; try discriminate. intros _. now exists a, b, c, d.
Qed.

Lemma append_associative (a b c : string) : a +:+ (b +:+ c) = (a +:+ b) +:+ c.
Proof.
  induction a as [|x a IH]; [reflexivity|].
  change (String x (a +:+ (b +:+ c)) = String x ((a +:+ b) +:+ c)). now f_equal.
Qed.

Lemma replace_char_app (c : ascii) (new s1 s2 : string) :
  replace_char c new (s1 +:+ s2) = replace_char c new s1 +:+ replace_char c new s2.
Proof.
  induction s1 as [|a s1 IH]; simpl; [reflexivity|].
  destruct (Ascii.eqb a c); rewrite IH; [apply append_associative | reflexivity].
Qed.

Lemma replace_char_absent (c : ascii) (new s : string) :
  has_char c s = false -> replace_char c new s = s.
Proof.
  induction s as [|a s IH]; simpl; [reflexivity|].
  intros Hs. apply orb_false_elim in Hs as [Ha Hs]. now rewrite Ha, IH.
Qed.

(** On a dollar sign and eight groups of four characters, [extract_ipv6]
    returns the eight groups joined by colons, nothing compressed: 39
    characters, from which the 32 digits come back by dropping the
    colons.  The all-zero wire value is absent unless the caller opts
    out. *)
Theorem extract_ipv6_groups (g1 g2 g3 g4 g5 g6 g7 g8 : string) (zero_is_none : bool) :
  Forall (fun g => String.length g = 4%nat) [g1; g2; g3; g4; g5; g6; g7; g8] ->
  let wire := "$" +:+ g1 +:+ g2 +:+ g3 +:+ g4 +:+ g5 +:+ g6 +:+ g7 +:+ g8 in
  let address := join ":" [g1; g2; g3; g4; g5; g6; g7; g8] in
  extract_ipv6 wire false = Some address
  /\ extract_ipv6 wire zero_is_none
     = (if String.eqb wire "$00000000000000000000000000000000" && zero_is_none
        then None else Some address)
  /\ String.length address = 39%nat
  /\ (Forall (fun g => has_char ":" g = false) [g1; g2; g3; g4; g5; g6; g7; g8] ->
      replace_char ":" "" address = g1 +:+ g2 +:+ g3 +:+ g4 +:+ g5 +:+ g6 +:+ g7 +:+ g8).
Proof.
  intros Hlen wire address.
  assert (Hfalse : extract_ipv6 wire false = Some address).
  { repeat match goal with
           | H : Forall _ (_ :: _) |- _ =>
               let Hg := fresh "Hg" in
               apply Forall_cons_1 in H as [Hg H];
               apply string_of_length_4 in Hg as (? & ? & ? & ? & ->)
           end.
    unfold extract_ipv6. rewrite andb_false_r. reflexivity. }
  split; [exact Hfalse|]. split; [|split].
  - unfold extract_ipv6 in *. rewrite andb_false_r in Hfalse.
    destruct (String.eqb wire _ && zero_is_none); [reflexivity | exact Hfalse].
  - repeat match goal with
           | H : Forall _ (_ :: _) |- _ =>
               let Hg := fresh "Hg" in
               apply Forall_cons_1 in H as [Hg H];
               apply string_of_length_4 in Hg as (? & ? & ? & ? & ->)
           end.
    reflexivity.
  - intros Hc. subst address. cbn [join].
    repeat match goal with
           | H : Forall _ (_ :: _) |- _ =>
               let Hg := fresh "Hc" in apply Forall_cons_1 in H as [Hg H]
           end.
    rewrite !replace_char_app.
    change (replace_char ":" "" ":") with "".
    rewrite !replace_char_absent by assumption. reflexivity.
Qed.

Lemma extract_ipv6_groups_witness :
  extract_ipv6 "$20010db8000000000000000000000001" true
  = Some "2001:0db8:0000:0000:0000:0000:0000:0001".
Proof.
  refine (eq_trans
            (proj1 (proj2 (extract_ipv6_groups "2001" "0db8" "0000" "0000" "0000" "0000"
                             "0000" "0001" true _))) _);
    [repeat constructor | reflexivity].
Defined.

(* ===================================================================== *)
(** * [unique_everseen] *)
(* ===================================================================== *)

Section UniqueEverseen.
Context {A K : Type} `{EqDecision K} (key : A -> K).

Lemma unique_everseen_from_spec (iterable : list A) :
  forall seen,
    sublist (unique_everseen_from key seen iterable) iterable
    /\ NoDup (key <$> unique_everseen_from key seen iterable)
    /\ (forall x, x ∈ unique_everseen_from key seen iterable -> key x ∉ seen)
    /\ (forall x, x ∈ iterable ->
          key x ∈ seen \/ key x ∈ key <$> unique_everseen_from key seen iterable).
Proof.
  induction iterable as [|element rest IH]; intros seen; cbn [unique_everseen_from].
  - split; [constructor|]. split; [constructor|].
    split; intros x Hx; now apply elem_of_nil in Hx.
  - destruct (bool_decide (key element ∈ seen)) eqn:Hseen.
    + apply bool_decide_eq_true in Hseen.
      destruct (IH seen) as (Hsub & Hnd & Hnew & Hall).
      split; [now apply sublist_cons|]. split; [exact Hnd|]. split; [exact Hnew|].
      intros x Hx. apply elem_of_cons in Hx as [->|Hx]; [now left | now apply Hall].
    + apply bool_decide_eq_false in Hseen.
      destruct (IH (key element :: seen)) as (Hsub & Hnd & Hnew & Hall).
      split; [now apply sublist_skip|]. split; [|split].
      * rewrite fmap_cons. apply NoDup_cons. split; [|exact Hnd].
        intros Hin. apply list_elem_of_fmap in Hin as (y & Hy & Hin).
        apply (Hnew y Hin). rewrite <- Hy. apply elem_of_cons. now left.
      * intros x Hx. apply elem_of_cons in Hx as [->|Hx]; [exact Hseen|].
        intros Hin. apply (Hnew x Hx). apply elem_of_cons. now right.
      * intros x Hx. rewrite fmap_cons. apply elem_of_cons in Hx as [->|Hx].
        -- right. apply elem_of_cons. now left.
        -- destruct (Hall x Hx) as [Hs|Hr].
           ++ apply elem_of_cons in Hs as [->|Hs];
                [right; apply elem_of_cons; now left | now left].
           ++ right. apply elem_of_cons. now right.
Qed.

(** The first element with a given key is the one that is kept. *)
Lemma unique_everseen_from_first (before after : list A) (x : A) :
  forall seen,
    key x ∉ seen -> key x ∉ key <$> before ->
    x ∈ unique_everseen_from key seen (before ++ x :: after)%list.
Proof.
  induction before as [|y before IH]; intros seen Hseen Hbefore; cbn [app unique_everseen_from].
  - rewrite bool_decide_eq_false_2 by exact Hseen. apply elem_of_cons. now left.
  - rewrite fmap_cons in Hbefore. apply not_elem_of_cons in Hbefore as [Hne Hbefore].
    destruct (bool_decide (key y ∈ seen)).
    + now apply IH.
    + apply elem_of_cons. right. apply IH; [|exact Hbefore].
      apply not_elem_of_cons. now split.
Qed.

Lemma unique_everseen_from_fixed (iterable : list A) :
  forall seen,
    NoDup (key <$> iterable) -> (forall x, x ∈ iterable -> key x ∉ seen) ->
    unique_everseen_from key seen iterable = iterable.
Proof.
  induction iterable as [|element rest IH]; intros seen Hnd Hnew; cbn [unique_everseen_from];
    [reflexivity|].
  rewrite fmap_cons in Hnd. apply NoDup_cons in Hnd as [Hel Hnd].
  rewrite bool_decide_eq_false_2 by (apply Hnew, elem_of_cons; now left).
  f_equal. apply IH; [exact Hnd|].
  intros x Hx. apply not_elem_of_cons. split.
  - intros E. apply Hel. rewrite <- E. apply list_elem_of_fmap. now exists x.
  - apply Hnew. apply elem_of_cons. now right.
Qed.

(** [unique_everseen] keeps, in order, exactly the first element of every
    key: its result is a subsequence of the input, has no two elements of
    the same key, covers every key of the input, contains the first
    element of each key, and is left unchanged by a second pass. *)
Theorem unique_everseen_key_spec (iterable : list A) :
  sublist (unique_everseen_key key iterable) iterable
  /\ NoDup (key <$> unique_everseen_key key iterable)
  /\ (forall x, x ∈ iterable -> key x ∈ key <$> unique_everseen_key key iterable)
  /\ (forall before x after,
         iterable = (before ++ x :: after)%list -> key x ∉ key <$> before ->
         x ∈ unique_everseen_key key iterable)
  /\ unique_everseen_key key (unique_everseen_key key iterable)
     = unique_everseen_key key iterable.
Proof.
  unfold unique_everseen_key.
  destruct (unique_everseen_from_spec iterable []) as (Hsub & Hnd & _ & Hall).
  split; [exact Hsub|]. split; [exact Hnd|]. split; [|split].
  - intros x Hx. destruct (Hall x Hx) as [Hs|Hr]; [now apply elem_of_nil in Hs | exact Hr].
  - intros before x after -> Hfirst.
    apply unique_everseen_from_first; [apply not_elem_of_nil | exact Hfirst].
  - apply unique_everseen_from_fixed; [exact Hnd|]. intros x _. apply not_elem_of_nil.
Qed.

End UniqueEverseen.

Example unique_everseen_samples :
  unique_everseen (list_ascii_of_string "AAAABBBCCDAABBB") = list_ascii_of_string "ABCD"
  /\ unique_everseen_key lower_char (list_ascii_of_string "ABBCcAD")
     = list_ascii_of_string "ABCD".
Proof. vm_compute. split; reflexivity. Qed.

(* ===================================================================== *)
(** * More on the request layer *)
(* ===================================================================== *)

Section RequestLayerMore.
Context `{Env : Environment}.

Lemma _get_loop_ok_passes (n : nat) (url : string) (params : dict string) :
  forall retry401 retry500 sleep h w resp h' w',
    _get_loop n url params retry401 retry500 sleep h w = Some (Ok resp, h', w') ->
    passes (status_code resp) = true.
Proof.
  induction n as [|n IH]; intros retry401 retry500 sleep h w resp h' w' Hrun;
    [discriminate Hrun|].
  rewrite _get_loop_step in Hrun. cbv zeta in Hrun.
  destruct (device (requests_made w) (request_of h url params)) as [r|];
    [|discriminate Hrun].
  assert (Hfin : forall hx wx, _get_finish url r hx wx = Some (Ok resp, h', w') ->
                               passes (status_code resp) = true).
  { intros hx wx E. rewrite _get_finish_cases in E.
    destruct (passes (status_code r)) eqn:Hp; [|discriminate E].
    injection E as <- _ _. exact Hp. }
  destruct (status_code r =? 401).
  - destruct ((0 <? retry401 - 1) && _); [|now apply Hfin in Hrun].
    destruct (login n _ _ _ _) as [[[[[]|e] h2] w2]|]; try discriminate Hrun.
    now apply IH in Hrun.
  - destruct (status_code r =? 500); [|now apply Hfin in Hrun].
    destruct (0 <? retry500 - 1); [|now apply Hfin in Hrun].
    now apply IH in Hrun.
Qed.

(** A response [_get] returns is never an error response: its status is
    outside 400 to 599, so in particular neither 401 nor 500. *)
Theorem get_returns_no_error_response (fuel : nat) (url : string) (retry401 retry500 : Z)
  (params : dict string) (h : Hub) (w : World) (resp : Response) (h' : Hub) (w' : World) :
  _get fuel url retry401 retry500 params h w = Some (Ok resp, h', w') ->
  (status_code resp < 400 \/ 600 <= status_code resp)
  /\ status_code resp <> 401 /\ status_code resp <> 500.
Proof.
  unfold _get, collect_stats, mbind, M_bind, M_then, _increment_counter, update_self.
  cbv beta iota. intros Hrun. apply _get_loop_ok_passes in Hrun.
  destruct (passes_status _ Hrun) as [H401 H500]. split; [|now split].
  unfold passes in Hrun. apply negb_true_iff, andb_false_iff in Hrun as [Hlo|Hhi].
  - left. now apply Z.leb_gt.
  - right. now apply Z.ltb_ge.
Qed.




(** Without a credential a 401 is not retried, whatever the budget: one
    request, sent without a cookie, and the HTTP failure. *)
Theorem get_401_when_logged_out (n : nat) (url : string) (retry401 retry500 : Z)
  (params : dict string) (h : Hub) (w : World) (resp : Response) :
  is_loggedin h = false ->
  device (requests_made w) (request_of h url params) = Answers resp ->
  status_code resp = 401 ->
  exists h',
    _get (S n) url retry401 retry500 params h w
    = Some (Raise (HTTPError 401), h', (w ++ [EvRequest (request_of h url params)])%list)
    /\ session h' = session h
    /\ req_cookies (request_of h url params) = None.
Proof.
  intros Hout Hdev Hs.
  unfold _get, collect_stats, mbind, M_bind, M_then, _increment_counter, update_self.
  cbv beta iota. rewrite _get_loop_step. cbv zeta.
  change (request_of (counter_add _ _ h) url params) with (request_of h url params).
  rewrite Hdev, Hs. change (401 =? 401) with true. cbv beta iota.
  change (is_loggedin (counter_add _ _ (counter_add _ _ h))) with (is_loggedin h).
  rewrite Hout, andb_false_r. rewrite _get_finish_cases, Hs.
  change (passes 401) with false. cbv beta iota.
  eexists. split; [reflexivity|]. split; [reflexivity|].
  unfold request_of. cbn [req_cookies]. unfold is_loggedin in Hout.
  destruct (_credential h); [discriminate Hout | reflexivity].
Qed.

End RequestLayerMore.

(* ===================================================================== *)
(** * More on the session *)
(* ===================================================================== *)

Section SessionMore.
Context `{Env : Environment}.

(** A login the device accepts writes the session: the body is the
    credential, user name and password are those given, model name and
    family come from the envelope; one request goes out, with the encoded
    credentials under [arg]; pending settings are not touched. *)
Theorem login_stores_session (n : nat) (u p : string) (h : Hub) (w : World)
  (resp : Response) (decoded : string) (attrs : dict json) :
  u <> "" -> is_ascii (u +:+ ":" +:+ p) = true ->
  device (requests_made w) (request_of h "login" (login_params h u p)) = Answers resp ->
  passes (status_code resp) = true -> content resp <> "" ->
  b64decode (content resp) = Some decoded -> json_loads decoded = Some (JObj attrs) ->
  exists h',
    login (S n) (Some u) (Some p) h w
    = Some (Ok tt, h', (w ++ [EvRequest (request_of h "login" (login_params h u p))])%list)
    /\ session h'
       = (Some (content resp), Some u, Some p,
          dict_get "modelname" attrs, dict_get "family" attrs)
    /\ is_loggedin h' = true
    /\ _unapplied_settings h' = _unapplied_settings h
    /\ dict_get "arg" (login_params h u p) = Some (b64encode (u +:+ ":" +:+ p)).
Proof.
  intros Hu Hascii Hdev Hp Hcontent Hb64 Hjson.
  destruct (passes_status _ Hp) as [H401 H500].
  apply String.eqb_neq in Hu, Hcontent.
  unfold login, collect_stats, login_with, _params, collect_stats, _get, collect_stats.
  unfold login_as, _params, collect_stats, mbind, M_bind, M_then, mret, M_ret, M_unit,
    _increment_counter, update_self, get_self, raise.
  cbn [falsy]. rewrite Hu. cbv beta iota.
  change (default "" (Some u)) with u. rewrite Hascii. cbv beta iota.
  rewrite (_get_loop_answer n "login" _ 0 3 1 _ w resp);
    [| exact Hdev | exact H401 | exact H500].
  rewrite Hp. cbv beta iota. rewrite Hcontent, Hb64, Hjson.
  eexists. split; [reflexivity|]. repeat split.
  unfold login_params, dict_update. cbn [fold_left fst snd].
  rewrite dict_get_set. reflexivity.
Qed.

(** [login] does not retry its own request on a 401: one request, the
    HTTP failure, and the session as it was, logged in or not. *)
Theorem login_401_not_retried (n : nat) (u p : string) (h : Hub) (w : World)
  (resp : Response) :
  u <> "" -> is_ascii (u +:+ ":" +:+ p) = true ->
  device (requests_made w) (request_of h "login" (login_params h u p)) = Answers resp ->
  status_code resp = 401 ->
  exists h',
    login (S n) (Some u) (Some p) h w
    = Some (Raise (HTTPError 401), h',
            (w ++ [EvRequest (request_of h "login" (login_params h u p))])%list)
    /\ session h' = session h.
Proof.
  intros Hu Hascii Hdev Hs. apply String.eqb_neq in Hu.
  unfold login, collect_stats, login_with, _params, collect_stats, _get, collect_stats.
  unfold login_as, _params, collect_stats, mbind, M_bind, M_then, mret, M_ret, M_unit,
    _increment_counter, update_self, get_self, raise.
  cbn [falsy]. rewrite Hu. cbv beta iota.
  change (default "" (Some u)) with u. rewrite Hascii. cbv beta iota.
  rewrite _get_loop_step. cbv zeta.
  change (request_of (counter_add _ _ (counter_add _ _ (counter_add _ _ h))) "login" ?ps)
    with (request_of h "login" ps).
  change (dict_update (dict_update [] (_nonce (counter_add _ _ (counter_add _ _ h)))) ?kv)
    with (dict_update (dict_update [] (_nonce h)) kv).
  fold (login_params h u p). rewrite Hdev, Hs.
  change (401 =? 401) with true. cbv beta iota.
  change (0 <? 0 - 1) with false. cbv beta iota.
  rewrite _get_finish_cases, Hs. change (passes 401) with false. cbv beta iota.
  eexists. split; reflexivity.
Qed.

Lemma logout_unreachable (n : nat) (h : Hub) (w : World) :
  is_loggedin h = true ->
  device (requests_made w) (request_of h "logout" (_nonce h)) = Unreachable ->
  exists c,
    logout (S n) h w
    = Some (Raise ConnectionError, clear_session (set_counters c h),
            (w ++ [EvRequest (request_of h "logout" (_nonce h))])%list).
Proof.
  intros Hin Hdev.
  unfold logout, collect_stats, mbind, M_bind, M_then, _increment_counter,
    update_self, get_self, try_finally, _get, collect_stats. cbv beta iota.
  change (is_loggedin (counter_add _ _ h)) with (is_loggedin h). rewrite Hin.
  unfold mbind, M_bind, M_then, _increment_counter, update_self. cbv beta iota.
  rewrite _get_loop_step. cbv zeta.
  change (request_of (counter_add _ _ (counter_add _ _ h)) "logout" ?ps)
    with (request_of h "logout" ps).
  change (_nonce (counter_add _ _ h)) with (_nonce h).
  rewrite Hdev. eexists. reflexivity.
Qed.

(** Leaving a [with] block always logs out.  An HTTP failure of the
    logout request is swallowed when the block raised and raised when it
    did not; a transport failure is raised either way; what is returned
    is always [False]. *)
Theorem exit_logs_out (fuel : nat) (exc_type : bool) (h : Hub) (w : World) :
  ((3 <= fuel)%nat ->
   exists res h' w',
     __exit__ fuel exc_type h w = Some (res, h', w')
     /\ is_loggedin h' = false
     /\ (exc_type = true -> forall status, res <> Raise (HTTPError status))
     /\ res <> Ok true)
  /\ (forall resp,
         (1 <= fuel)%nat -> is_loggedin h = true ->
         device (requests_made w) (request_of h "logout" (_nonce h)) = Answers resp ->
         status_code resp = 401 ->
         exists h' w',
           __exit__ fuel exc_type h w
           = Some (if exc_type then Ok false else Raise (HTTPError 401), h', w')
           /\ is_loggedin h' = false)
  /\ ((1 <= fuel)%nat -> is_loggedin h = true ->
      device (requests_made w) (request_of h "logout" (_nonce h)) = Unreachable ->
      exists h' w',
        __exit__ fuel exc_type h w = Some (Raise ConnectionError, h', w')
        /\ is_loggedin h' = false).
Proof.
  unfold __exit__, collect_stats, mbind, M_bind, M_then, _increment_counter, update_self.
  cbv beta iota. split; [|split].
  - intros Hfuel.
    destruct (is_loggedin h) eqn:Hin.
    + destruct (logout_when_logged_in fuel (counter_add ("__exit__" +:+ ":calls") 1 h) w
                  Hin Hfuel) as (res & c & evs & Hrun & _).
      rewrite Hrun. destruct res as [[]|e].
      * eexists _, _, _. repeat split; discriminate.
      * destruct e; try (eexists _, _, _; repeat split; discriminate).
        destruct exc_type; cbn [negb]; eexists _, _, _; repeat split; discriminate.
    + rewrite (logout_when_logged_out fuel (counter_add ("__exit__" +:+ ":calls") 1 h) w Hin).
      eexists _, _, _. repeat split; try discriminate. exact Hin.
  - intros resp Hfuel Hin Hdev Hs. destruct fuel as [|n]; [lia|].
    destruct (logout_on_401 n (counter_add ("__exit__" +:+ ":calls") 1 h) w resp Hin Hdev Hs)
      as (c & Hrun).
    rewrite Hrun. destruct exc_type; cbn [negb]; eexists _, _; split; reflexivity.
  - intros Hfuel Hin Hdev. destruct fuel as [|n]; [lia|].
    destruct (logout_unreachable n (counter_add ("__exit__" +:+ ":calls") 1 h) w Hin Hdev)
      as (c & Hrun).
    rewrite Hrun. eexists _, _. split; reflexivity.
Qed.

End SessionMore.

(* ===================================================================== *)
(** * More on the SNMP operations *)
(* ===================================================================== *)

Section OperationsMore.
Context `{Env : Environment}.

(** An answer [_get] does not retry, read by a caller with the default
    budgets. *)
Lemma _get_answer (n : nat) (url : string) (h : Hub) (w : World) (resp : Response) :
  device (requests_made w) (request_of h url []) = Answers resp ->
  status_code resp <> 401 -> status_code resp <> 500 ->
  _get (S n) url 5 3 [] h w
  = Some (if passes (status_code resp) then Ok resp
          else Raise (HTTPError (status_code resp)),
          counter_add ("received_http_" +:+ py_str (status_code resp)) 1
            (counter_add "_get:calls" 1 h),
          (w ++ [EvRequest (request_of h url [])])%list).
Proof.
  intros Hdev H401 H500.
  unfold _get, collect_stats, mbind, M_bind, M_then, _increment_counter, update_self.
  cbv beta iota.
  now rewrite (_get_loop_answer n url [] 5 3 1 _ w resp);
    [| exact Hdev | exact H401 | exact H500].
Qed.

Lemma snmp_set_failure (n : nat) (oid : string) (value : option PyValue)
  (datatype : option SnmpType) (h : Hub) (w : World) (resp : Response) :
  value_renders value = true ->
  device (requests_made w) (snmp_set_request h oid value datatype) = Answers resp ->
  status_code resp <> 401 -> status_code resp <> 500 ->
  passes (status_code resp) = false ->
  snmp_set (S n) oid value datatype h w
  = Some (Raise (HTTPError (status_code resp)),
          counter_add ("received_http_" +:+ py_str (status_code resp)) 1
            (counter_add "_get:calls" 1 (counter_add "snmp_set:calls" 1 h)),
          (w ++ [EvRequest (snmp_set_request h oid value datatype)])%list).
Proof.
  intros Hv Hdev H401 H500 Hp.
  unfold snmp_set, collect_stats.
  unfold mbind at 1, M_bind at 1, M_then at 1. unfold _increment_counter, update_self.
  cbv beta iota. unfold mbind at 1, M_bind at 1, M_then at 1. unfold get_self.
  cbv beta iota. unfold mbind at 1, M_bind at 1, M_then at 1. unfold lift.
  rewrite oid_value_of_cases, Hv. cbv beta iota.
  unfold mbind at 1, M_bind at 1, M_then at 1.
  rewrite (_get_answer n _ _ w resp); [| exact Hdev | exact H401 | exact H500].
  rewrite Hp. reflexivity.
Qed.

(** What [snmp_set] does.  A value that has no text (an integer beyond the
    digit limit of [str]) raises [ValueError] before anything is sent.
    Otherwise, on an answer that is not retried, it returns true exactly
    on a success other than 304 that names the OID, false on a 304 that
    names it, and raises otherwise.  The unapplied-settings flag is set
    exactly when it returns true, and the session is never touched. *)
Theorem snmp_set_outcomes (n : nat) (oid : string) (value : option PyValue)
  (datatype : option SnmpType) (h : Hub) (w : World) (resp : Response) :
  device (requests_made w) (snmp_set_request h oid value datatype) = Answers resp ->
  status_code resp <> 401 -> status_code resp <> 500 ->
  exists res h',
    snmp_set (S n) oid value datatype h w
    = Some (res, h',
            if value_renders value
            then (w ++ [EvRequest (snmp_set_request h oid value datatype)])%list
            else w)
    /\ res = (if negb (value_renders value) then Raise ValueError
              else if passes (status_code resp) then
                match json_loads (content resp) with
                | None => Raise ValueError
                | Some (JObj members) =>
                    if dict_mem oid members then Ok (negb (status_code resp =? 304))
                    else Raise (SNMPSetError oid)
                | Some _ => Raise AttributeError
                end
              else Raise (HTTPError (status_code resp)))
    /\ _unapplied_settings h'
       = match res with Ok true => true | _ => _unapplied_settings h end
    /\ session h' = session h.
Proof.
  intros Hdev H401 H500.
  destruct (value_renders value) eqn:Hv; cbn [negb].
  2:{ rewrite (snmp_set_no_text (S n) oid value datatype h w Hv).
      eexists _, _. repeat split; reflexivity. }
  destruct (passes (status_code resp)) eqn:Hp.
  - rewrite (snmp_set_answer n oid value datatype h w resp Hv Hdev Hp). cbv zeta.
    destruct (json_loads (content resp)) as [[| | | | | |members]|];
      try (eexists _, _; repeat split; reflexivity).
    destruct (dict_mem oid members); cbn [negb];
      [|eexists _, _; repeat split; reflexivity].
    destruct (status_code resp =? 304); eexists _, _; repeat split; reflexivity.
  - rewrite (snmp_set_failure n oid value datatype h w resp Hv Hdev H401 H500 Hp).
    eexists _, _. repeat split; reflexivity.
Qed.

(** When the commit fails the settings stay pending: [apply_settings]
    clears the flag exactly when it returns, and the flag is still set
    whenever it raises. *)
Theorem apply_settings_outcomes (n : nat) (h : Hub) (w : World) (resp : Response) :
  _unapplied_settings h = true ->
  device (requests_made w)
         (snmp_set_request h commit_oid (Some (PInt 1)) (Some Type_INT)) = Answers resp ->
  status_code resp <> 401 -> status_code resp <> 500 ->
  exists res h',
    apply_settings (S n) h w
    = Some (res, h',
            (w ++ [EvRequest (snmp_set_request h commit_oid (Some (PInt 1))
                                               (Some Type_INT))])%list)
    /\ (res = Ok tt <->
        passes (status_code resp) = true
        /\ exists members, json_loads (content resp) = Some (JObj members)
                           /\ dict_mem commit_oid members = true)
    /\ _unapplied_settings h' = (match res with Ok _ => false | Raise _ => true end).
Proof.
  intros Hflag Hdev H401 H500.
  unfold apply_settings, mbind, M_bind, M_then, get_self, update_self. cbv beta iota.
  rewrite Hflag. cbn [negb].
  assert (Hraise : forall (e : exn) (hx : Hub),
             _unapplied_settings hx = true ->
             (passes (status_code resp) = true ->
              forall members, json_loads (content resp) = Some (JObj members) ->
                              dict_mem commit_oid members = false) ->
             (Raise e = Ok tt <->
              passes (status_code resp) = true
              /\ exists members, json_loads (content resp) = Some (JObj members)
                                 /\ dict_mem commit_oid members = true)
             /\ _unapplied_settings hx = true).
  { intros e hx Hx Hno. split; [|exact Hx]. split; [discriminate|].
    intros (Hp & members & Hj & Hm). specialize (Hno Hp members Hj). congruence. }
  destruct (passes (status_code resp)) eqn:Hp.
  - rewrite (snmp_set_answer n commit_oid (Some (PInt 1)) (Some Type_INT) h w resp
               eq_refl Hdev Hp). cbv zeta.
    destruct (json_loads (content resp)) as [[| | | | | |members]|] eqn:Hj;
      try (eexists _, _; split; [reflexivity|];
           apply Hraise; [exact Hflag | intros _ members' E; discriminate E]).
    destruct (dict_mem commit_oid members) eqn:Hm; cbn [negb].
    + destruct (status_code resp =? 304); eexists _, _;
        (split; [reflexivity|]); (split; [|reflexivity]);
        (split; [intros _; split; [reflexivity | now exists members] | reflexivity]).
    + eexists _, _. split; [reflexivity|].
      apply Hraise; [exact Hflag | intros _ members' E; congruence].
  - rewrite (snmp_set_failure n commit_oid (Some (PInt 1)) (Some Type_INT) h w resp
               eq_refl Hdev H401 H500 Hp).
    eexists _, _. split; [reflexivity|].
    apply Hraise; [exact Hflag | discriminate].
Qed.

Lemma has_char_app (c : ascii) (s1 s2 : string) :
  has_char c (s1 +:+ s2) = has_char c s1 || has_char c s2.
Proof.
  induction s1 as [|a s1 IH]; [reflexivity|].
  change (has_char c (String a (s1 +:+ s2)) = has_char c (String a s1) || has_char c s2).
  cbn [has_char]. now rewrite IH, orb_assoc.
Qed.

Lemma replace_char_removes (c : ascii) (new s : string) :
  has_char c new = false -> has_char c (replace_char c new s) = false.
Proof.
  intros Hnew. induction s as [|a s IH]; [reflexivity|]. cbn [replace_char].
  destruct (Ascii.eqb a c) eqn:Ha.
  - now rewrite has_char_app, Hnew, IH.
  - cbn [has_char]. now rewrite Ha.
Qed.

(** The expression [snmp_set] sends is the OID, the value after an equals
    sign, a semicolon and the value of the data type; there is none for a
    value that has no text.  In a string value every dollar sign is
    written [%24], so none is left of it; a value without dollar signs
    goes as it is. *)
Theorem oid_value_of_string (oid : string) (v : PyValue) :
  oid_value_of oid (Some v) (Some Type_STRING)
  = (if renders v
     then Ok (((oid +:+ "=" +:+ replace_char "$" "%24" (str_of v)) +:+ ";")
                +:+ Type_value Type_STRING)
     else Raise ValueError)
  /\ has_char "$" (replace_char "$" "%24" (str_of v)) = false
  /\ (has_char "$" (str_of v) = false -> replace_char "$" "%24" (str_of v) = str_of v)
  /\ (forall t, t <> Type_STRING ->
        oid_value_of oid (Some v) (Some t)
        = if renders v then Ok (((oid +:+ "=" +:+ str_of v) +:+ ";") +:+ Type_value t)
          else Raise ValueError)
  /\ oid_value_of oid None None = Ok (oid +:+ ";")
  /\ (forall s, renders (PStr s) = true)
  /\ (forall z, renders (PInt z) = true <-> decimal_digits z <= int_max_str_digits).
Proof.
  assert (Happ : forall s t, (if String.eqb t "" then s else s +:+ t) = s +:+ t).
  { intros s t. destruct (String.eqb t "") eqn:Ht; [|reflexivity].
    apply String.eqb_eq in Ht. subst t.
    induction s as [|a s IH]; [reflexivity|].
    change (String a s = String a (s +:+ "")). now f_equal. }
  split; [|split; [|split; [|split; [|split; [|split]]]]].
  - rewrite oid_value_of_cases. unfold value_renders, oid_value_text.
    destruct (renders v); [|reflexivity]. cbn [is_STRING]. cbv zeta. now rewrite Happ.
  - now apply replace_char_removes.
  - apply replace_char_absent.
  - intros t Ht. rewrite oid_value_of_cases. unfold value_renders, oid_value_text.
    destruct (renders v); [|reflexivity].
    replace (is_STRING (Some t)) with false by (destruct t; cbn [is_STRING]; congruence).
    cbv zeta. now rewrite Happ.
  - reflexivity.
  - reflexivity.
  - intros z. unfold renders. apply Z.leb_le.
Qed.

(** [snmp_get] asks for one OID and returns the value the answer gives
    it; an answer without the OID raises [KeyError]; an answer that is
    not an object, or does not parse, raises [TypeError]. *)
Theorem snmp_get_outcomes (n : nat) (oid : string) (h : Hub) (w : World)
  (resp : Response) :
  device (requests_made w) (snmp_gets_request h [oid]) = Answers resp ->
  passes (status_code resp) = true ->
  exists h',
    snmp_get (S n) oid h w
    = Some (match json_loads (content resp) with
            | Some (JObj members) =>
                match dict_get oid members with
                | Some value => Ok value
                | None => Raise KeyError
                end
            | _ => Raise TypeError
            end, h', (w ++ [EvRequest (snmp_gets_request h [oid])])%list)
    /\ session h' = session h
    /\ req_url (snmp_gets_request h [oid])
       = _url h +:+ "/" +:+ "snmpGet?oids=" +:+ oid +:+ ";&" +:+ _nonce_str h.
Proof.
  intros Hdev Hp. destruct (passes_status _ Hp) as [H401 H500].
  unfold snmp_get, snmp_gets, collect_stats.
  unfold mbind, M_bind, M_then, mret, M_ret, M_unit, _increment_counter, update_self,
    get_self, raise. cbv beta iota.
  rewrite (_get_answer n _ _ w resp); [| exact Hdev | exact H401 | exact H500].
  rewrite Hp. cbv beta iota.
  destruct (json_loads (content resp)) as [[| | | | | |members]|];
    try (eexists; repeat split; reflexivity).
  destruct (dict_get oid members); eexists; repeat split; reflexivity.
Qed.

(** [snmp_gets] joins the OIDs with semicolons in one request and returns
    what the body parses to. *)
Theorem snmp_gets_outcomes (n : nat) (oids : list string) (h : Hub) (w : World)
  (resp : Response) :
  device (requests_made w) (snmp_gets_request h oids) = Answers resp ->
  passes (status_code resp) = true ->
  exists h',
    snmp_gets (S n) oids h w
    = Some (match json_loads (content resp) with
            | Some parsed => Ok parsed
            | None => Raise TypeError
            end, h', (w ++ [EvRequest (snmp_gets_request h oids)])%list)
    /\ session h' = session h.
Proof.
  intros Hdev Hp. destruct (passes_status _ Hp) as [H401 H500].
  unfold snmp_gets, collect_stats.
  unfold mbind, M_bind, M_then, mret, M_ret, M_unit, _increment_counter, update_self,
    get_self, raise. cbv beta iota.
  rewrite (_get_answer n _ _ w resp); [| exact Hdev | exact H401 | exact H500].
  rewrite Hp. cbv beta iota.
  destruct (json_loads (content resp)); eexists; split; reflexivity.
Qed.

End OperationsMore.

(* ===================================================================== *)
(** * More on the table assembler *)
(* ===================================================================== *)

Lemma omap_raise {A B} (f : A -> Outcome B) (l : list A) (e : exn) :
  omap f l = Raise e -> exists x, In x l /\ f x = Raise e.
Proof.
  induction l as [|x xs IH]; simpl; [discriminate|].
  destruct (f x) as [y|e0] eqn:Hx; cbn [mbind Outcome_bind obind].
  - destruct (omap f xs) as [ys|e1]; cbn [mbind Outcome_bind obind]; [discriminate|].
    intros E. injection E as ->. destruct (IH eq_refl) as (z & Hz & Hf).
    exists z. split; [now right | exact Hf].
  - intros E. injection E as ->. exists x. split; [now left | exact Hx].
Qed.

Lemma omap_length {A B} (f : A -> Outcome B) (l : list A) (l' : list B) :
  omap f l = Ok l' -> length l' = length l.
Proof.
  intros E. apply omap_Forall2 in E. induction E; simpl; congruence.
Qed.

Lemma groupby_length {A} (key : A -> Z) (l : list A) :
  (length (groupby key l) <= length l)%nat.
Proof.
  induction l as [|x rest IH]; simpl; [lia|].
  destruct (groupby key rest) as [|[k run] groups]; simpl in *; [lia|].
  destruct (key x =? k); simpl; lia.
Qed.


Section TableMore.
Variables (top_oid : string) (columns : dict string) (walk : dict json).




Lemma dict_get_values {V} (k : string) (v : V) (d : dict V) :
  dict_get k d = Some v -> In v (dict_values d).
Proof.
  induction d as [|[k0 v0] rest IH]; simpl; [discriminate|].
  destruct (String.eqb k k0); [intros E; injection E as ->; now left | intros E; right; auto].
Qed.

(** A row never comes without data: each has a value under at least one
    declared column; and there are no more rows than surviving entries. *)
Theorem table_rows_have_data (rows : list SNMPRow) :
  table_rows top_oid columns walk = Ok rows ->
  (forall row, In row rows ->
     exists name value, In name (dict_values columns) /\ row_get row name = Some value)
  /\ (length rows <= length (List.filter (survives top_oid columns) walk))%nat.
Proof.
  intros Hrows. split.
  - destruct (table_rows_groups top_oid columns walk rows Hrows) as (groups & Hf & _ & Hm & _).
    intros row Hrow.
    destruct (Forall2_In_r _ _ _ _ Hf Hrow) as (g & Hg & kwargs & Hk & ->).
    destruct (Hm g Hg) as [Hne Hmem].
    destruct (snd g) as [|kx t] eqn:Hrun; [congruence|].
    destruct (proj1 (Hmem (snd kx)) (or_introl eq_refl)) as (_ & Hs & _).
    unfold survives, dict_mem in Hs.
    destruct (dict_get (col_num top_oid (fst (snd kx))) columns) as [name|] eqn:Hcol;
      [|discriminate Hs].
    pose proof (dict_get_values _ _ _ Hcol) as Hname.
    exists name. rewrite row_get_make_row by exact Hname.
    destruct (row_kwargs_get top_oid columns _ _ _ name Hk) as [Hnone _].
    destruct (dict_get name kwargs) as [value|] eqn:Hv; [now exists value|].
    exfalso. destruct (proj1 Hnone eq_refl) as [_ Hall].
    apply (Hall (fst (snd kx)) (snd (snd kx))); [|exact Hcol].
    rewrite <- surjective_pairing. cbn [map]. now left.
  - unfold table_rows in Hrows.
    destruct (omap _ (List.filter _ walk)) as [keyed|] eqn:Hkeyed; [|discriminate Hrows].
    cbn [mbind Outcome_bind obind] in Hrows.
    apply omap_length in Hrows, Hkeyed. rewrite Hrows.
    etransitivity; [apply groupby_length|].
    rewrite (Permutation_length (sort_by_key_perm keyed)), Hkeyed. reflexivity.
Qed.

End TableMore.

Example table_rows_error_samples :
  table_rows "top" [("2", "a")] [("top.2", JStr "x")] = Raise IndexError
  /\ table_rows "top" [("2", "a")] [("top.2.x", JStr "x")] = Raise ValueError
  /\ table_rows "top" [("2", String (ascii_of_nat 170) "b")]
                [("top.2.x", JStr "x"); ("top.2.1", JStr "y")] = Raise ValueError
  /\ table_rows "top" [("2", String (ascii_of_nat 170) "b"); ("3", "c")]
                [("top.3.1", JStr "x"); ("top.2.2", JStr "y")] = Raise TypeError
  /\ table_rows "top" [("2", String (ascii_of_nat 233) "t"); ("3", "c")]
                [("top.2.2", JStr "y")]
     = Ok [mk_row [(String (ascii_of_nat 233) "t", Some (JStr "y")); ("c", None)] 2]
  /\ table_rows "top" [("2", "a")] [("top.9", JStr "x"); ("top.2.7", JStr "y")]
     = Ok [mk_row [("a", Some (JStr "y"))] 7].
Proof. vm_compute. repeat split; reflexivity. Qed.

(* ===================================================================== *)
(** * [print_table] *)
(* ===================================================================== *)

Lemma string_length_app (s1 s2 : string) :
  String.length (s1 +:+ s2) = (String.length s1 + String.length s2)%nat.
Proof.
  induction s1 as [|a s1 IH]; [reflexivity|].
  change (S (String.length (s1 +:+ s2)) = S (String.length s1 + String.length s2)).
  now rewrite IH.
Qed.

Lemma times_length (c : ascii) (n : nat) : String.length (times c n) = n.
Proof.
  unfold times. induction n as [|n IH]; [reflexivity|].
  cbn [repeat string_of_list_ascii String.length]. now rewrite IH.
Qed.

Lemma ljust_length (width : nat) (s : string) :
  (String.length s <= width)%nat -> String.length (ljust width s) = width.
Proof. intros Hs. unfold ljust. rewrite string_length_app, times_length. lia. Qed.

Lemma fold_left_max_bound (l : list nat) (x : nat) :
  (x <= fold_left Nat.max l x)%nat
  /\ List.Forall (fun y => (y <= fold_left Nat.max l x)%nat) l.
Proof.
  revert x. induction l as [|y l IH]; intros x; cbn [fold_left]; [split; [lia | constructor]|].
  destruct (IH (Nat.max x y)) as [Hx Hl]. split; [lia|].
  constructor; [lia | exact Hl].
Qed.

Lemma py_max_bound (l : list nat) (m : nat) :
  py_max l = Ok m -> List.Forall (fun y => (y <= m)%nat) l.
Proof.
  destruct l as [|x l]; [discriminate|]. cbn [py_max]. intros E. injection E as <-.
  destruct (fold_left_max_bound l x) as [Hx Hl]. now constructor.
Qed.

Section UniqueMore.
Context {A K : Type} `{EqDecision K} (key : A -> K).

Lemma unique_everseen_from_seen (iterable : list A) (seen : list K) :
  (forall x, x ∈ iterable -> key x ∈ seen) ->
  unique_everseen_from key seen iterable = [].
Proof.
  induction iterable as [|x rest IH]; intros Hall; cbn [unique_everseen_from]; [reflexivity|].
  rewrite bool_decide_eq_true_2 by (apply Hall; left).
  apply IH. intros y Hy. apply Hall. now right.
Qed.

Lemma unique_everseen_from_repeats (first more : list A) :
  forall seen,
    NoDup (key <$> first) ->
    (forall x, x ∈ first -> key x ∉ seen) ->
    (forall x, x ∈ more -> key x ∈ seen \/ key x ∈ key <$> first) ->
    unique_everseen_from key seen (first ++ more)%list = first.
Proof.
  induction first as [|a first IH]; intros seen Hnd Hnew Hmore; cbn [app].
  - apply unique_everseen_from_seen. intros x Hx.
    destruct (Hmore x Hx) as [H|H]; [exact H|]. now apply elem_of_nil in H.
  - cbn [unique_everseen_from]. rewrite fmap_cons in Hnd. apply NoDup_cons in Hnd as [Ha Hnd].
    rewrite bool_decide_eq_false_2 by (apply Hnew; left). f_equal.
    apply IH; [exact Hnd | |].
    + intros x Hx Hin. apply elem_of_cons in Hin as [Heq|Hin].
      * apply Ha. rewrite <- Heq. now apply list_elem_of_fmap_2.
      * apply (Hnew x); [now right | exact Hin].
    + intros x Hx. destruct (Hmore x Hx) as [H|H].
      * left. now right.
      * rewrite fmap_cons in H. apply elem_of_cons in H as [->|H]; [left; left | now right].
Qed.

End UniqueMore.

(** The column names of rows of one class are its fields. *)
Lemma column_names_of_rows (fields : list string) (row : Row) (rest : list Row) :
  List.NoDup fields -> rows_of fields (row :: rest) ->
  unique_everseen (concat (map _fields (row :: rest))) = fields.
Proof.
  intros Hnd Hrows. unfold rows_of in Hrows. rewrite List.Forall_forall in Hrows.
  cbn [map concat]. rewrite (Hrows row (or_introl eq_refl)).
  unfold unique_everseen. apply unique_everseen_from_repeats.
  - rewrite list_fmap_id. now apply NoDup_ListNoDup.
  - intros x _. apply not_elem_of_nil.
  - intros x Hx. right. rewrite list_fmap_id.
    apply list_elem_of_In in Hx. apply in_concat in Hx as (l & Hl & Hx).
    apply in_map_iff in Hl as (r & <- & Hr).
    rewrite (Hrows r (or_intror Hr)) in Hx. now apply list_elem_of_In.
Qed.

Lemma dict_get_field {V} (k : string) (d : dict V) :
  In k (map fst d) -> exists v, dict_get k d = Some v.
Proof.
  induction d as [|[k0 v0] rest IH]; cbn [map fst In dict_get]; [tauto|].
  intros [->|Hk].
  - rewrite String.eqb_refl. now exists v0.
  - destruct (String.eqb k k0); [now exists v0 | now apply IH].
Qed.

Lemma dict_get_entry {V} (k : string) (v : V) (d : dict V) :
  dict_get k d = Some v -> In (k, v) d.
Proof.
  induction d as [|[k0 v0] rest IH]; cbn [dict_get In]; [discriminate|].
  destruct (String.eqb k k0) eqn:Hk.
  - apply String.eqb_eq in Hk. intros E. injection E as ->. subst k0. now left.
  - intros E. right. now apply IH.
Qed.

Lemma dict_get_first {V} (k : string) (v : V) (d : dict V) :
  List.NoDup (map fst d) -> In (k, v) d -> dict_get k d = Some v.
Proof.
  induction d as [|[k0 v0] rest IH]; cbn [map fst In dict_get]; [tauto|].
  intros Hnd [E|Hin].
  - injection E as -> ->. now rewrite String.eqb_refl.
  - apply List.NoDup_cons_iff in Hnd as [Hk0 Hnd].
    destruct (String.eqb k k0) eqn:Hk; [|now apply IH].
    apply String.eqb_eq in Hk. subst k0. exfalso. apply Hk0.
    now apply (in_map fst rest (k, v)).
Qed.

Lemma forallb_fails {A} (f : A -> bool) (l : list A) :
  forallb f l = false -> exists x, In x l /\ f x = false.
Proof.
  induction l as [|x l IH]; cbn [forallb]; [discriminate|].
  destruct (f x) eqn:Hx; cbn [andb].
  - intros H. destruct (IH H) as (y & Hy & Hf). exists y. split; [now right | exact Hf].
  - intros _. exists x. split; [now left | exact Hx].
Qed.

Lemma Forall2_In_left {A B} (P : A -> B -> Prop) (l : list A) (l' : list B) (x : A) :
  Forall2 P l l' -> In x l -> exists y, In y l' /\ P x y.
Proof.
  induction 1 as [|a b l l' Hab _ IH]; cbn [In]; [tauto|].
  intros [<-|Hx].
  - exists b. split; [now left | exact Hab].
  - destruct (IH Hx) as (y & Hy & Hxy). exists y. split; [now right | exact Hxy].
Qed.

(** A column is empty exactly when [filter] leaves nothing of its cells. *)
Lemma empty_column_filter (table_rows : list Row) (colname : string) :
  empty_column table_rows colname
  = match List.filter truth (map (fun row => cell_of row colname) table_rows) with
    | [] => true
    | _ :: _ => false
    end.
Proof.
  unfold empty_column.
  induction table_rows as [|row rest IH]; [reflexivity|].
  cbn [forallb map List.filter].
  destruct (truth (cell_of row colname)); cbn [negb andb]; [reflexivity | exact IH].
Qed.

Lemma omap_fields (cells : list (option PyValue)) :
  omap str_attribute (List.filter truth_of (map Field cells))
  = omap str_cell (List.filter truth cells).
Proof.
  induction cells as [|cell cells IH]; [reflexivity|].
  cbn [map List.filter truth_of]. destruct (truth cell); [|exact IH].
  cbn [omap str_attribute]. now rewrite IH.
Qed.

Lemma omap_str_cell (cells : list (option PyValue)) :
  (forall cell, In cell cells -> cell_renders cell = true) ->
  exists texts, omap str_cell cells = Ok texts.
Proof.
  intros Hr. apply omap_total. intros cell Hcell. specialize (Hr cell Hcell).
  destruct cell as [v|]; [|now exists "None"].
  cbn [cell_renders] in Hr. cbn [str_cell]. unfold str_value. rewrite Hr. now eexists.
Qed.

(** A table whose every cell has a text has one in every column, and a
    cell without a text sits under one of the fields. *)
Lemma all_render_cells (table_rows : list Row) (colname : string) (row : Row) :
  all_render table_rows = true -> In row table_rows ->
  cell_renders (cell_of row colname) = true.
Proof.
  unfold all_render. rewrite forallb_forall. intros Hall Hrow.
  specialize (Hall row Hrow). rewrite forallb_forall in Hall. unfold cell_of.
  destruct (dict_get colname row) as [cell|] eqn:Hc; [|reflexivity].
  apply dict_get_entry in Hc. exact (Hall (colname, cell) Hc).
Qed.

Lemma all_render_fails (fields : list string) (table_rows : list Row) :
  List.NoDup fields -> rows_of fields table_rows -> all_render table_rows = false ->
  exists colname row,
    In colname fields /\ In row table_rows /\ cell_renders (cell_of row colname) = false.
Proof.
  intros Hnd Hrows Hall. unfold all_render in Hall.
  apply forallb_fails in Hall as (row & Hrow & Hcells).
  apply forallb_fails in Hcells as ([colname cell] & Hin & Hcell). cbn [snd] in Hcell.
  unfold rows_of in Hrows. rewrite List.Forall_forall in Hrows.
  pose proof (Hrows row Hrow) as Hfields. unfold _fields in Hfields.
  exists colname, row. split; [|split; [exact Hrow|]].
  - rewrite <- Hfields. now apply (in_map fst row (colname, cell)).
  - unfold cell_of. rewrite (dict_get_first colname cell row); [exact Hcell | | exact Hin].
    now rewrite Hfields.
Qed.

Section Columns.
Variable method_text : string -> nat -> string.

(** In rows that have the column among their fields [getattr] finds the
    cells. *)
Lemma getattr_fields (table_rows : list Row) (colname : string) :
  (forall row, In row table_rows -> In colname (_fields row)) ->
  imap (fun i row => getattr method_text i row colname) table_rows
  = map (fun row => Field (cell_of row colname)) table_rows.
Proof.
  intros Hf.
  rewrite (imap_ext _ (const (fun row => Field (cell_of row colname)))).
  - rewrite imap_const. reflexivity.
  - intros i row Hi. unfold getattr, cell_of, const.
    destruct (dict_get_field colname row) as [cell ->]; [|reflexivity].
    apply Hf. apply list_elem_of_In. now apply (list_elem_of_lookup_2 table_rows i).
Qed.

Lemma column_width_fields (table_rows : list Row) (colname : string) :
  (forall row, In row table_rows -> In colname (_fields row)) ->
  column_width method_text table_rows colname
  = (texts ← omap str_cell
               (List.filter truth (map (fun row => cell_of row colname) table_rows));
     widest ← py_max (map String.length texts);
     Ok (Nat.max (String.length colname) widest)).
Proof.
  intros Hf. unfold column_width. rewrite (getattr_fields table_rows colname Hf).
  rewrite <- omap_fields, map_map. reflexivity.
Qed.

(** Whatever stops the width of a column is a [ValueError]. *)
Lemma column_width_raises (table_rows : list Row) (colname : string) (e : exn) :
  column_width method_text table_rows colname = Raise e -> e = ValueError.
Proof.
  unfold column_width.
  destruct (omap str_attribute _) as [texts|e0] eqn:Htexts; cbn [mbind Outcome_bind obind].
  - destruct (py_max (map String.length texts)) as [widest|e1] eqn:Hmax;
      cbn [mbind Outcome_bind obind]; [discriminate|].
    intros E. injection E as <-.
    destruct (map String.length texts); [now injection Hmax as <- | discriminate].
  - intros E. injection E as <-. apply omap_raise in Htexts as (a & _ & Ha).
    destruct a as [[v|]|text]; cbn [str_attribute str_cell] in Ha; try discriminate.
    unfold str_value in Ha. destruct (renders v); [discriminate | now injection Ha as <-].
Qed.

Lemma column_width_empty (table_rows : list Row) (colname : string) :
  (forall row, In row table_rows -> In colname (_fields row)) ->
  empty_column table_rows colname = true ->
  column_width method_text table_rows colname = Raise ValueError.
Proof.
  intros Hf Hempty. rewrite (column_width_fields table_rows colname Hf).
  rewrite empty_column_filter in Hempty.
  destruct (List.filter truth _); [reflexivity | discriminate].
Qed.

Lemma column_width_full (table_rows : list Row) (colname : string) :
  (forall row, In row table_rows -> In colname (_fields row)) ->
  empty_column table_rows colname = false ->
  (forall row, In row table_rows -> cell_renders (cell_of row colname) = true) ->
  exists width, column_width method_text table_rows colname = Ok width.
Proof.
  intros Hf Hfull Hr. rewrite (column_width_fields table_rows colname Hf).
  rewrite empty_column_filter in Hfull.
  destruct (omap_str_cell
              (List.filter truth (map (fun row => cell_of row colname) table_rows)))
    as [texts Htexts].
  { intros cell Hcell. apply filter_In in Hcell as [Hcell _].
    apply in_map_iff in Hcell as (row & <- & Hrow). now apply Hr. }
  rewrite Htexts. cbn [mbind Outcome_bind obind].
  apply omap_length in Htexts.
  destruct texts as [|t texts]; [|eexists; reflexivity].
  destruct (List.filter truth _); [discriminate Hfull | discriminate Htexts].
Qed.

Lemma column_width_bound (table_rows : list Row) (colname : string) (width : nat) :
  (forall row, In row table_rows -> In colname (_fields row)) ->
  column_width method_text table_rows colname = Ok width ->
  (String.length colname <= width)%nat
  /\ forall row, In row table_rows ->
       exists val,
         (if truth (cell_of row colname) then str_cell (cell_of row colname) else Ok "")
         = Ok val
         /\ (String.length val <= width)%nat.
Proof.
  intros Hf. rewrite (column_width_fields table_rows colname Hf).
  destruct (omap str_cell _) as [texts|e] eqn:Htexts;
    cbn [mbind Outcome_bind obind]; [|discriminate].
  destruct (py_max (map String.length texts)) as [widest|e] eqn:Hmax;
    cbn [mbind Outcome_bind obind]; [|discriminate].
  intros E. injection E as <-.
  split; [lia|]. intros row Hrow.
  destruct (truth (cell_of row colname)) eqn:Ht;
    [|exists ""; split; [reflexivity | cbn [String.length]; lia]].
  apply omap_Forall2 in Htexts. apply py_max_bound in Hmax.
  rewrite List.Forall_forall in Hmax.
  destruct (Forall2_In_left _ _ _ (cell_of row colname) Htexts) as (val & Hval & Hstr).
  { apply filter_In. split; [|exact Ht].
    now apply (in_map (fun row => cell_of row colname)). }
  exists val. split; [exact Hstr|].
  assert (String.length val <= widest)%nat; [|lia].
  apply Hmax. now apply in_map.
Qed.

Lemma column_width_no_text (table_rows : list Row) (colname : string) (row : Row) :
  (forall row, In row table_rows -> In colname (_fields row)) ->
  In row table_rows -> cell_renders (cell_of row colname) = false ->
  column_width method_text table_rows colname = Raise ValueError.
Proof.
  intros Hf Hrow Hr.
  destruct (column_width method_text table_rows colname) as [width|e] eqn:Hw;
    [|f_equal; now apply column_width_raises in Hw].
  exfalso. apply (column_width_bound table_rows colname width Hf) in Hw as [_ Hw].
  destruct (Hw row Hrow) as (val & Hval & _).
  destruct (cell_of row colname) as [[s|z]|]; cbn [cell_renders renders] in Hr;
    try discriminate.
  cbn [truth] in Hval. destruct (z =? 0) eqn:Hz.
  - apply Z.eqb_eq in Hz. subst z. vm_compute in Hr. discriminate.
  - cbn [negb str_cell] in Hval. unfold str_value in Hval. cbn [renders] in Hval.
    rewrite Hr in Hval. discriminate.
Qed.

Lemma omap_widths (table_rows : list Row) (names : list string) :
  (forall c, In c names -> exists width, column_width method_text table_rows c = Ok width) ->
  omap (fun colname => width ← column_width method_text table_rows colname;
                       Ok (colname, width)) names
  = Ok (map (fun c => (c, match column_width method_text table_rows c with
                          | Ok width => width
                          | Raise _ => 0%nat
                          end)) names).
Proof.
  induction names as [|c names IH]; intros Hfull; [reflexivity|].
  cbn [omap map]. rewrite IH by (intros c' Hc'; apply Hfull; now right).
  destruct (Hfull c (or_introl eq_refl)) as [width ->]. reflexivity.
Qed.

Lemma omap_widths_raise (table_rows : list Row) (names : list string) (c : string) :
  In c names -> column_width method_text table_rows c = Raise ValueError ->
  omap (fun colname => width ← column_width method_text table_rows colname;
                       Ok (colname, width)) names
  = Raise ValueError.
Proof.
  intros Hc Hraise.
  destruct (omap _ names) as [widths|e] eqn:Hrun.
  - apply omap_Forall2 in Hrun. exfalso.
    induction Hrun as [|c0 cw names widths Hc0 _ IH]; [destruct Hc|].
    destruct Hc as [->|Hc]; [|now apply IH].
    rewrite Hraise in Hc0. discriminate Hc0.
  - apply omap_raise in Hrun as (c0 & _ & Hc0).
    destruct (column_width method_text table_rows c0) as [width|e0] eqn:H0;
      cbn [mbind Outcome_bind obind] in Hc0; [discriminate|].
    injection Hc0 as <-. f_equal. now apply column_width_raises in H0.
Qed.

End Columns.

Section Lines.
Variable column_widths : dict nat.
Variable width_of : string -> nat.

Lemma horiz_line_from_length (column_names : list string) :
  forall res,
    (forall c, In c column_names -> dict_get c column_widths = Some (width_of c)) ->
    exists line,
      horiz_line_from column_widths column_names res = Ok line
      /\ String.length line
         = (String.length res + list_sum (map (fun c => width_of c + 3) column_names))%nat.
Proof.
  induction column_names as [|c names IH]; intros res Hw; cbn [horiz_line_from map]; unfold list_sum; cbn [fold_right].
  - exists res. split; [reflexivity | lia].
  - unfold subscript. rewrite (Hw c (or_introl eq_refl)). cbn [mbind Outcome_bind obind].
    destruct (IH (((res +:+ "-") +:+ times "-" (width_of c)) +:+ ("-" +:+ "+")))
      as (line & Hline & Hlen); [intros c' Hc'; apply Hw; now right|].
    exists line. split; [exact Hline|]. rewrite Hlen, !string_length_app, times_length.
    unfold list_sum. cbn [String.length]. lia.
Qed.

Lemma row_text_from_length (row : Row) (column_names : list string) :
  forall res,
    (forall c, In c column_names -> dict_get c column_widths = Some (width_of c)) ->
    (forall c, In c column_names ->
       exists cell val,
         dict_get c row = Some cell
         /\ (if truth cell then str_cell cell else Ok "") = Ok val
         /\ (String.length val <= width_of c)%nat) ->
    exists line,
      row_text_from column_widths column_names row res = Ok line
      /\ String.length line
         = (String.length res + list_sum (map (fun c => width_of c + 3) column_names))%nat.
Proof.
  induction column_names as [|c names IH]; intros res Hw Hrow;
    cbn [row_text_from map]; unfold list_sum; cbn [fold_right].
  - exists res. split; [reflexivity | lia].
  - destruct (Hrow c (or_introl eq_refl)) as (cell & val & Hcell & Hval & Hfits).
    unfold subscript. rewrite Hcell, (Hw c (or_introl eq_refl)).
    cbn [mbind Outcome_bind obind]. rewrite Hval. cbn [mbind Outcome_bind obind].
    match goal with
    | |- context [row_text_from _ _ _ ?r] =>
        destruct (IH r) as (line & Hline & Hlen);
          [intros c' Hc'; apply Hw; now right | intros c' Hc'; apply Hrow; now right|]
    end.
    exists line. split; [exact Hline|].
    rewrite Hlen, !string_length_app, ljust_length by exact Hfits.
    unfold list_sum. cbn [String.length]. lia.
Qed.

End Lines.

Lemma print_all_lines (outcomes : list (Outcome string)) (n : nat) :
  List.Forall (fun o => exists line, o = Ok line /\ String.length line = n) outcomes ->
  exists lines,
    print_all outcomes = (lines, Ok tt)
    /\ length lines = length outcomes
    /\ List.Forall (fun line => String.length line = n) lines.
Proof.
  induction 1 as [|o outcomes (line & -> & Hlen) _ (lines & Hrun & Hcount & Hall)].
  - exists []. repeat split. constructor.
  - exists (line :: lines). cbn [print_all]. rewrite Hrun.
    split; [reflexivity|]. split; [cbn [length]; now rewrite Hcount | now constructor].
Qed.

Section Printing.
Variable method_text : string -> nat -> string.

(** Rows of one class, each column with a true value in some row, come
    out as a table when every cell has a text: a rule, the header, a rule,
    one line for every row and a closing rule, all of the same length.
    When some cell is an integer beyond the digit limit of [str], nothing
    is printed and [ValueError] is raised. *)
Theorem print_table_aligned (fields : list string) (table_rows : list Row) :
  List.NoDup fields -> rows_of fields table_rows -> table_rows <> [] ->
  (forall c, In c fields -> empty_column table_rows c = false) ->
  if all_render table_rows then
    exists lines n,
      print_table method_text table_rows = (lines, Ok tt)
      /\ length lines = (4 + length table_rows)%nat
      /\ List.Forall (fun line => String.length line = n) lines
  else
    print_table method_text table_rows = ([], Raise ValueError).
Proof.
  intros Hnd Hrows Hsome Hfull.
  assert (Hf : forall c, In c fields ->
                 forall row, In row table_rows -> In c (_fields row)).
  { intros c Hc row Hrow. unfold rows_of in Hrows. rewrite List.Forall_forall in Hrows.
    now rewrite (Hrows row Hrow). }
  destruct table_rows as [|row0 rest]; [congruence|]. clear Hsome.
  unfold print_table. cbv zeta. rewrite (column_names_of_rows fields row0 rest Hnd Hrows).
  set (table_rows := row0 :: rest) in *.
  destruct (all_render table_rows) eqn:Hall.
  2:{ destruct (all_render_fails fields table_rows Hnd Hrows Hall)
        as (c & row & Hc & Hrow & Hcell).
      now rewrite (omap_widths_raise method_text table_rows fields c Hc
                     (column_width_no_text method_text table_rows c row (Hf c Hc) Hrow Hcell)). }
  assert (Hwidth : forall c, In c fields ->
            exists width, column_width method_text table_rows c = Ok width).
  { intros c Hc. apply column_width_full; [exact (Hf c Hc) | exact (Hfull c Hc) |].
    intros row Hrow. exact (all_render_cells table_rows c row Hall Hrow). }
  rewrite (omap_widths method_text _ _ Hwidth).
  set (width_of := fun c => match column_width method_text table_rows c with
                            | Ok width => width
                            | Raise _ => 0%nat
                            end).
  set (column_widths := map (fun c => (c, width_of c)) fields).
  assert (Hw : forall c, In c fields -> dict_get c column_widths = Some (width_of c)).
  { intros c Hc. unfold column_widths. rewrite dict_get_map_names.
    apply string_in_In in Hc. now rewrite Hc. }
  assert (Hbound : forall c, In c fields ->
            (String.length c <= width_of c)%nat
            /\ forall row, In row table_rows ->
                 exists val,
                   (if truth (cell_of row c) then str_cell (cell_of row c) else Ok "")
                   = Ok val
                   /\ (String.length val <= width_of c)%nat).
  { intros c Hc. apply (column_width_bound method_text); [exact (Hf c Hc)|].
    unfold width_of. destruct (Hwidth c Hc) as [width ->]. reflexivity. }
  set (n := (1 + list_sum (map (fun c => width_of c + 3) fields))%nat).
  assert (Hrule : exists line, horiz_line column_widths fields = Ok line
                               /\ String.length line = n).
  { apply (horiz_line_from_length column_widths width_of fields "+" Hw). }
  assert (Hhead : exists line,
             row_text column_widths fields (map (fun c => (c, Some (PStr c))) fields)
             = Ok line /\ String.length line = n).
  { apply (row_text_from_length column_widths width_of _ fields "|" Hw).
    intros c Hc. exists (Some (PStr c)), (if truth (Some (PStr c)) then c else "").
    split; [|split].
    - rewrite dict_get_map_names. apply string_in_In in Hc. now rewrite Hc.
    - now destruct (truth (Some (PStr c))).
    - destruct (truth (Some (PStr c))); [apply Hbound, Hc | cbn [String.length]; lia]. }
  assert (Hdata : List.Forall (fun o => exists line, o = Ok line /\ String.length line = n)
                    (map (row_text column_widths fields) table_rows)).
  { apply List.Forall_forall. intros o Ho. apply in_map_iff in Ho as (row & <- & Hrow).
    apply (row_text_from_length column_widths width_of row fields "|" Hw).
    intros c Hc.
    destruct (dict_get_field c row) as [cell Hcell]; [exact (Hf c Hc row Hrow)|].
    destruct (Hbound c Hc) as [_ Hfits]. destruct (Hfits row Hrow) as (val & Hval & Hlen).
    unfold cell_of in Hval. rewrite Hcell in Hval.
    exists cell, val. now repeat split. }
  destruct (print_all_lines
              ([horiz_line column_widths fields;
                row_text column_widths fields (map (fun c => (c, Some (PStr c))) fields);
                horiz_line column_widths fields]
                 ++ map (row_text column_widths fields) table_rows
                 ++ [horiz_line column_widths fields])%list n)
    as (lines & Hrun & Hcount & Hall').
  { cbn [app]. do 3 (constructor; [assumption|]).
    apply Forall_app. split; [exact Hdata | constructor; [exact Hrule | constructor]]. }
  exists lines, n. split; [exact Hrun|]. split; [|exact Hall'].
  rewrite Hcount. cbn [app length]. rewrite length_app, length_map. cbn [length]. lia.
Qed.

(** A column without a true value in any row stops the printing before
    the first line: the widest cell of nothing is asked for. *)
Theorem print_table_empty_column (fields : list string) (table_rows : list Row)
  (colname : string) :
  List.NoDup fields -> rows_of fields table_rows -> table_rows <> [] ->
  In colname fields -> empty_column table_rows colname = true ->
  print_table method_text table_rows = ([], Raise ValueError).
Proof.
  intros Hnd Hrows Hsome Hc Hempty.
  assert (Hf : forall row, In row table_rows -> In colname (_fields row)).
  { intros row Hrow. unfold rows_of in Hrows. rewrite List.Forall_forall in Hrows.
    now rewrite (Hrows row Hrow). }
  destruct table_rows as [|row0 rest]; [congruence|].
  unfold print_table. cbv zeta. rewrite (column_names_of_rows fields row0 rest Hnd Hrows).
  now rewrite (omap_widths_raise method_text _ _ colname Hc
                 (column_width_empty method_text _ _ Hf Hempty)).
Qed.

End Printing.

(** Runs of [print_table]: a table of one class; a column without a true
    value; no rows at all; a row whose class has a field called [count],
    which the other row answers with a method of its own and then lacks
    as a key; and an integer beyond the digit limit. *)
Example print_table_samples :
  print_table sample_method_text
    [[("name", Some (PStr "ssh")); ("port", Some (PInt 22))];
     [("name", None); ("port", Some (PInt 8080))]]
  = (["+------+------+";
      "| name | port |";
      "+------+------+";
      "| ssh  | 22   |";
      "|      | 8080 |";
      "+------+------+"], Ok tt)
  /\ print_table sample_method_text
       [[("name", Some (PStr "ssh")); ("port", Some (PInt 0))]]
     = ([], Raise ValueError)
  /\ print_table sample_method_text [] = (["+"; "|"; "+"; "+"], Ok tt)
  /\ print_table sample_method_text
       [[("count", Some (PInt 3))]; [("name", Some (PStr "a"))]]
     = (["+------------------------------------------------+------+";
         "| count                                          | name |";
         "+------------------------------------------------+------+"], Raise KeyError)
  /\ print_table sample_method_text [[("n", Some (PInt (10 ^ 4300)))]]
     = ([], Raise ValueError)
  /\ (exists lines,
        print_table sample_method_text [[("n", Some (PInt (10 ^ 4300 - 1)))]]
        = (lines, Ok tt)).
Proof.
  vm_compute. repeat split; try reflexivity. eexists. reflexivity.
Qed.

(* ===================================================================== *)
(** * More on the value codec *)
(* ===================================================================== *)

Lemma hexdigit_cases (c : ascii) : is_hexdigit c = true -> In c hexdigits.
Proof.
  destruct c as [b0 b1 b2 b3 b4 b5 b6 b7].
  destruct b0, b1, b2, b3, b4, b5, b6, b7; vm_compute; intro Hc;
    try discriminate Hc; tauto.
Qed.

Lemma hex_pair_table :
  forallb (fun a => forallb (hex_pair_check a) hexdigits) hexdigits = true.
Proof. vm_compute. reflexivity. Qed.

Lemma hex_pair_codec (a b : ascii) :
  is_hexdigit a = true -> is_hexdigit b = true ->
  octet (hex_value [a; b])
  /\ has_char "." (py_str (hex_value [a; b])) = false
  /\ tohex (py_str (hex_value [a; b]))
     = Ok (String (lower_char a) (String (lower_char b) EmptyString)).
Proof.
  intros Ha Hb. apply hexdigit_cases in Ha, Hb.
  pose proof hex_pair_table as T. rewrite forallb_forall in T.
  specialize (T a Ha). rewrite forallb_forall in T. specialize (T b Hb).
  unfold hex_pair_check in T.
  apply andb_prop in T as [T Hhex]. apply andb_prop in T as [T Hdot].
  apply andb_prop in T as [Hlo Hhi].
  apply Z.leb_le in Hlo, Hhi. apply negb_true_iff in Hdot.
  split; [split; assumption|]. split; [exact Hdot|].
  destruct (tohex _) as [s|e]; [|discriminate Hhex].
  apply String.eqb_eq in Hhex. now subst s.
Qed.

(** Decoding and encoding again: on a dollar sign and eight hexadecimal
    digits [extract_ip] gives the dotted quad of the four octets they
    denote, and [ipv4_to_dollar] takes that back to the wire text with its
    digits in lower case. *)
Theorem extract_ip_then_ipv4_to_dollar (c1 c2 c3 c4 c5 c6 c7 c8 : ascii) :
  forallb is_hexdigit [c1; c2; c3; c4; c5; c6; c7; c8] = true ->
  octet (hex_value [c1; c2]) /\ octet (hex_value [c3; c4])
  /\ octet (hex_value [c5; c6]) /\ octet (hex_value [c7; c8])
  /\ extract_ip (wire_of [c1; c2; c3; c4; c5; c6; c7; c8]) false
     = Ok (Some (dotted_quad (hex_value [c1; c2]) (hex_value [c3; c4])
                             (hex_value [c5; c6]) (hex_value [c7; c8])))
  /\ ipv4_to_dollar (dotted_quad (hex_value [c1; c2]) (hex_value [c3; c4])
                                 (hex_value [c5; c6]) (hex_value [c7; c8]))
     = Ok (wire_of (map lower_char [c1; c2; c3; c4; c5; c6; c7; c8])).
Proof.
  intros Hd. cbn [forallb] in Hd.
  repeat match type of Hd with
         | _ && _ = true => apply andb_prop in Hd as [? Hd]
         end.
  destruct (hex_pair_codec c1 c2) as (O1 & D1 & T1); [assumption..|].
  destruct (hex_pair_codec c3 c4) as (O2 & D2 & T2); [assumption..|].
  destruct (hex_pair_codec c5 c6) as (O3 & D3 & T3); [assumption..|].
  destruct (hex_pair_codec c7 c8) as (O4 & D4 & T4); [assumption..|].
  do 4 (split; [assumption|]). split.
  - unfold extract_ip, wire_of.
    change (slice 1 3 _) with (String c1 (String c2 EmptyString)).
    change (slice 3 5 _) with (String c3 (String c4 EmptyString)).
    change (slice 5 7 _) with (String c5 (String c6 EmptyString)).
    change (slice 7 9 _) with (String c7 (String c8 EmptyString)).
    rewrite !py_int_hex2 by assumption. simpl mbind. unfold obind.
    now rewrite andb_false_r.
  - unfold ipv4_to_dollar. rewrite split_dotted_quad by assumption.
    simpl omap. rewrite T1, T2, T3, T4. reflexivity.
Qed.

(* ===================================================================== *)
(** * More on walks and tables *)
(* ===================================================================== *)

Section WalksMore.
Context `{Env : Environment}.

(** What [snmp_walk] does on an answer that is not retried: an HTTP
    failure is raised before anything is parsed; a body that does not
    parse after the clean-up raises [ValueError], one that is no object
    [AttributeError]; neither the session nor the pending settings are
    touched. *)
Theorem snmp_walk_outcomes (n : nat) (oid : string) (h : Hub) (w : World)
  (resp : Response) :
  device (requests_made w) (snmp_walk_request h oid) = Answers resp ->
  status_code resp <> 401 -> status_code resp <> 500 ->
  exists h',
    snmp_walk (S n) oid h w
    = Some (if passes (status_code resp) then
              match json_loads (drop_error_lines (text resp)) with
              | None => Raise ValueError
              | Some (JObj result) => Ok (strip_finish result)
              | Some _ => Raise AttributeError
              end
            else Raise (HTTPError (status_code resp)),
            h', (w ++ [EvRequest (snmp_walk_request h oid)])%list)
    /\ session h' = session h
    /\ _unapplied_settings h' = _unapplied_settings h.
Proof.
  intros Hdev H401 H500.
  destruct (passes (status_code resp)) eqn:Hp.
  - rewrite (snmp_walk_answer n oid h w resp Hdev Hp). cbv zeta.
    destruct (json_loads (drop_error_lines (text resp))) as [[| | | | | |members]|];
      eexists; repeat split; reflexivity.
  - unfold snmp_walk, collect_stats.
    unfold mbind at 1, M_bind at 1, M_then at 1. unfold _increment_counter, update_self.
    cbv beta iota. unfold mbind at 1, M_bind at 1, M_then at 1. unfold get_self.
    cbv beta iota. unfold mbind at 1, M_bind at 1, M_then at 1.
    rewrite (_get_answer n _ _ w resp); [| exact Hdev | exact H401 | exact H500].
    rewrite Hp. eexists. repeat split; reflexivity.
Qed.

End WalksMore.


(* ===================================================================== *)
(** * The counters of the retries *)
(* ===================================================================== *)

Lemma counter_counter_add (k name : string) (increment : Z) (h : Hub) :
  counter k (counter_add name increment h)
  = if String.eqb k name then counter k h + increment else counter k h.
Proof.
  unfold counter, counter_add. cbn [counters set_counters].
  destruct (String.eqb k name) eqn:E.
  - apply String.eqb_eq in E. subst name. now rewrite lookup_insert_eq.
  - apply String.eqb_neq in E. now rewrite lookup_insert_ne by congruence.
Qed.

Lemma counter_received (k : string) (status : string) (h : Hub) :
  k = "_get_retries_500" \/ k = "_get_retries_500_sleep_secs" ->
  counter k (counter_add ("received_http_" +:+ status) 1 h) = counter k h.
Proof.
  intros Hk. rewrite counter_counter_add.
  change ("received_http_" +:+ status) with (String "r" ("eceived_http_" +:+ status)).
  now destruct Hk as [-> | ->].
Qed.

Lemma sleeps_app (w1 w2 : World) :
  sleeps (w1 ++ w2)%list = (sleeps w1 ++ sleeps w2)%list.
Proof. apply flat_map_app. Qed.

Lemma sum_Z_app (l1 l2 : list Z) : sum_Z (l1 ++ l2)%list = sum_Z l1 + sum_Z l2.
Proof.
  unfold sum_Z. induction l1 as [|x l1 IH]; cbn [app fold_right]; [reflexivity | lia].
Qed.

Lemma counts_sleeps_refl (h : Hub) (w : World) : counts_sleeps h w h w.
Proof. exists []. rewrite app_nil_r. cbn. repeat split; lia. Qed.

Lemma counts_sleeps_trans (h : Hub) (w : World) (h1 : Hub) (w1 : World)
  (h2 : Hub) (w2 : World) :
  counts_sleeps h w h1 w1 -> counts_sleeps h1 w1 h2 w2 -> counts_sleeps h w h2 w2.
Proof.
  intros (evs1 & -> & Hn1 & Hs1 & Hu1 & Hl1) (evs2 & -> & Hn2 & Hs2 & Hu2 & Hl2).
  exists (evs1 ++ evs2)%list. rewrite List.app_assoc. split; [reflexivity|].
  rewrite sleeps_app, length_app, sum_Z_app, Hn2, Hs2, Hn1, Hs1, Hu2, Hl2.
  repeat split; try assumption; lia.
Qed.

(** A change of the object that leaves the two counters, the user name
    and the logged-in state alone. *)
Lemma counts_sleeps_frame (h : Hub) (w : World) (h1 : Hub) (w1 : World) (h2 : Hub) :
  counts_sleeps h w h1 w1 ->
  counter "_get_retries_500" h2 = counter "_get_retries_500" h1 ->
  counter "_get_retries_500_sleep_secs" h2 = counter "_get_retries_500_sleep_secs" h1 ->
  _username h2 = _username h1 -> is_loggedin h2 = is_loggedin h1 ->
  counts_sleeps h w h2 w1.
Proof.
  intros (evs & -> & Hn & Hs & Hu & Hl) Hn2 Hs2 Hu2 Hl2.
  exists evs. rewrite Hn2, Hs2, Hu2, Hl2. repeat split; assumption.
Qed.

Lemma counts_sleeps_request (h : Hub) (w : World) (r : Request) :
  counts_sleeps h w h (w ++ [EvRequest r])%list.
Proof. exists [EvRequest r]. cbn. repeat split; lia. Qed.

Lemma counts_sleeps_sleep (h : Hub) (w : World) (sleep : Z) :
  counts_sleeps h w
    (counter_add "_get_retries_500_sleep_secs" (sleep * 2) (counter_add "_get_retries_500" 1 h))
    (w ++ [EvSleep sleep])%list.
Proof.
  exists [EvSleep sleep]. rewrite !counter_counter_add. cbn. repeat split; lia.
Qed.

Section Counters.
Context `{Env : Environment}.

Section Nested.
Variable n : nat.
Hypothesis loop_counts :
  forall url params retry401 retry500 sleep h w res h' w',
    (is_loggedin h = true -> falsy (_username h) = false) ->
    _get_loop n url params retry401 retry500 sleep h w = Some (res, h', w') ->
    counts_sleeps h w h' w'.

Lemma login_counts (h : Hub) (w : World) (res : Outcome unit) (h' : Hub) (w' : World) :
  is_loggedin h = true -> falsy (_username h) = false ->
  login n (_username h) (_password h) h w = Some (res, h', w') ->
  counts_sleeps h w h' w'.
Proof.
  intros Hin Hname.
  destruct (_username h) as [u|] eqn:Hu; [|discriminate Hname].
  unfold login, collect_stats, login_with, _get, collect_stats.
  unfold login_as, _params, collect_stats, mbind, M_bind, M_then, mret, M_ret, M_unit,
    _increment_counter, update_self, get_self, raise.
  rewrite Hname. cbv beta iota. change (default "" (Some u)) with u.
  assert (Hstop : forall e hx,
             counter "_get_retries_500" hx = counter "_get_retries_500" h ->
             counter "_get_retries_500_sleep_secs" hx
             = counter "_get_retries_500_sleep_secs" h ->
             _username hx = _username h -> is_loggedin hx = is_loggedin h ->
             Some (Raise e, hx, w) = Some (res, h', w') -> counts_sleeps h w h' w').
  { intros e hx H1 H2 H3 H4 E. injection E as <- <- <-.
    now apply (counts_sleeps_frame h w h w hx (counts_sleeps_refl h w)). }
  destruct (_password h) as [p|];
    [|apply Hstop; rewrite ?counter_counter_add; reflexivity].
  destruct (is_ascii (u +:+ ":" +:+ p));
    [|apply Hstop; rewrite ?counter_counter_add; reflexivity].
  cbv beta iota.
  match goal with
  | |- context [_get_loop n ?url ?ps 0 3 1 ?h1 w] =>
      destruct (_get_loop n url ps 0 3 1 h1 w) as [[[res1 h2] w2]|] eqn:Hget;
        [apply loop_counts in Hget;
           [|cbn [_username counter_add set_counters]; now rewrite Hu]
        |discriminate];
        assert (Hrun : counts_sleeps h w h2 w2);
        [apply (counts_sleeps_trans h w h1 w); [|exact Hget];
         apply (counts_sleeps_frame h w h w h1 (counts_sleeps_refl h w));
         rewrite ?counter_counter_add; reflexivity|]
  end.
  clear Hget Hstop.
  destruct res1 as [resp|e0]; [|intros E; now injection E as <- <- <-].
  destruct (String.eqb (content resp) ""); [intros E; now injection E as <- <- <-|].
  destruct (match b64decode (content resp) with
            | Some decoded => json_loads decoded
            | None => None
            end) as [[| | | | | |attrs]|];
    intros E; try discriminate E; injection E as <- <- <-; try exact Hrun.
  destruct Hrun as (evs & -> & Hn & Hs & Hu2 & Hl2).
  exists evs. split; [reflexivity|]. split; [exact Hn|]. split; [exact Hs|].
  split; [now rewrite Hu | now rewrite Hin].
Qed.

End Nested.

Lemma _get_loop_counts (n : nat) :
  forall url params retry401 retry500 sleep h w res h' w',
    (is_loggedin h = true -> falsy (_username h) = false) ->
    _get_loop n url params retry401 retry500 sleep h w = Some (res, h', w') ->
    counts_sleeps h w h' w'.
Proof.
  induction n as [|n IH]; intros url params retry401 retry500 sleep h w res h' w' Hname Hrun;
    [discriminate Hrun|].
  rewrite _get_loop_step in Hrun. cbv zeta in Hrun.
  destruct (device (requests_made w) (request_of h url params)) as [resp|].
  2:{ injection Hrun as <- <- <-. apply counts_sleeps_request. }
  set (h1 := counter_add ("received_http_" +:+ py_str (status_code resp)) 1 h) in *.
  set (w1 := (w ++ [EvRequest (request_of h url params)])%list) in *.
  assert (H1 : counts_sleeps h w h1 w1).
  { apply (counts_sleeps_frame h w h w1 h1 (counts_sleeps_request h w _));
      [apply counter_received; now left | apply counter_received; now right
      | reflexivity | reflexivity]. }
  assert (Hfinish : _get_finish url resp h1 w1 = Some (res, h', w') ->
                    counts_sleeps h w h' w').
  { rewrite _get_finish_cases. intros E. now injection E as <- <- <-. }
  destruct (status_code resp =? 401).
  - destruct ((0 <? retry401 - 1) && is_loggedin h1) eqn:Hretry; [|now apply Hfinish].
    apply andb_prop in Hretry as [_ Hin].
    destruct (login n (_username h1) (_password h1) h1 w1) as [[[[[]|e] h2] w2]|] eqn:Hlogin;
      [| |discriminate Hrun];
      apply (login_counts n IH) in Hlogin; [|exact Hin|now apply Hname| |exact Hin|now apply Hname].
    + apply (counts_sleeps_trans h w h1 w1 _ _ H1).
      apply (counts_sleeps_trans h1 w1 (counter_add "_get_retries_401" 1 h2) w2).
      * apply (counts_sleeps_frame h1 w1 h2 w2 _ Hlogin);
          rewrite ?counter_counter_add; reflexivity.
      * apply IH in Hrun; [exact Hrun|].
        destruct Hlogin as (_ & _ & _ & _ & Hu & Hl).
        change (is_loggedin h2 = true -> falsy (_username h2) = false).
        rewrite Hu, Hl. exact Hname.
    + injection Hrun as <- <- <-. now apply (counts_sleeps_trans h w h1 w1).
  - destruct (status_code resp =? 500); [|now apply Hfinish].
    destruct (0 <? retry500 - 1); [|now apply Hfinish].
    apply IH in Hrun; [|exact Hname].
    apply (counts_sleeps_trans h w h1 w1 _ _ H1).
    apply (counts_sleeps_trans h1 w1 _ _ _ _ (counts_sleeps_sleep h1 w1 sleep) Hrun).
Qed.

(** The two counters [_get] keeps of its retries after a 500 agree with
    what it did: [_get_retries_500] goes up by the number of waits of the
    call, those of the logins it makes on the way included, and
    [_get_retries_500_sleep_secs] by twice the seconds waited, the wait
    being doubled before it is counted.  The hub is one that is logged
    out, or logged in under a user name. *)
Theorem get_counts_its_sleeps (fuel : nat) (url : string) (retry401 retry500 : Z)
  (params : dict string) (h : Hub) (w : World) (res : Outcome Response) (h' : Hub)
  (w' : World) :
  (is_loggedin h = true -> falsy (_username h) = false) ->
  _get fuel url retry401 retry500 params h w = Some (res, h', w') ->
  exists evs,
    w' = (w ++ evs)%list
    /\ counter "_get_retries_500" h'
       = counter "_get_retries_500" h + Z.of_nat (length (sleeps evs))
    /\ counter "_get_retries_500_sleep_secs" h'
       = counter "_get_retries_500_sleep_secs" h + 2 * sum_Z (sleeps evs).
Proof.
  intros Hname.
  unfold _get, collect_stats, mbind, M_bind, M_then, _increment_counter, update_self.
  cbv beta iota. intros Hrun. apply _get_loop_counts in Hrun; [|exact Hname].
  destruct Hrun as (evs & -> & Hn & Hs & _). exists evs.
  rewrite !counter_counter_add in Hn, Hs. now repeat split.
Qed.

End Counters.

(* ===================================================================== *)
(** * More runs against the simulated device *)
(* ===================================================================== *)

Lemma get_returns_no_error_response_witness :
  match @_get (simulated (scripted [Answers (mk_response 500 "");
                                    Answers (mk_response 204 "")]))
              2 "snmpGet" 5 3 [] example_hub [] with
  | Some (Ok resp, _, _) =>
      (status_code resp < 400 \/ 600 <= status_code resp)
      /\ status_code resp <> 401 /\ status_code resp <> 500
  | _ => False
  end.
Proof.
  destruct (@_get (simulated (scripted [Answers (mk_response 500 "");
                                        Answers (mk_response 204 "")]))
                  2 "snmpGet" 5 3 [] example_hub [])
    as [[[[resp|e] h'] w']|] eqn:Hrun; try (vm_compute in Hrun; discriminate Hrun).
  exact (@get_returns_no_error_response _ _ _ _ _ _ _ _ _ _ _ Hrun).
Defined.


Lemma get_401_when_logged_out_witness :
  exists h',
    @_get (simulated denying_device) 1 "getPreLoginData" 5 3 []
          (Hub_init "192.168.0.1" 30 1541000000000 12345) []
    = Some (Raise (HTTPError 401), h',
            ([] ++ [EvRequest (request_of (Hub_init "192.168.0.1" 30 1541000000000 12345)
                                          "getPreLoginData" [])])%list)
    /\ session h' = session (Hub_init "192.168.0.1" 30 1541000000000 12345)
    /\ req_cookies (request_of (Hub_init "192.168.0.1" 30 1541000000000 12345)
                               "getPreLoginData" []) = None.
Proof.
  apply (@get_401_when_logged_out (simulated denying_device) 0 "getPreLoginData" 5 3 []
           (Hub_init "192.168.0.1" 30 1541000000000 12345) [] (mk_response 401 ""));
    reflexivity.
Defined.

Lemma login_stores_session_witness :
  exists h',
    @login (simulated denying_device) 1 (Some "admin") (Some "secret")
           (Hub_init "192.168.0.1" 30 1541000000000 12345) []
    = Some (Ok tt, h',
            ([] ++ [EvRequest
                      (request_of (Hub_init "192.168.0.1" 30 1541000000000 12345) "login"
                         (@login_params (simulated denying_device)
                            (Hub_init "192.168.0.1" 30 1541000000000 12345)
                            "admin" "secret"))])%list)
    /\ session h'
       = (Some login_envelope, Some "admin", Some "secret",
          dict_get "modelname" [("modelname", JStr "Hub 3"); ("family", JStr "TG2492")],
          dict_get "family" [("modelname", JStr "Hub 3"); ("family", JStr "TG2492")])
    /\ is_loggedin h' = true
    /\ _unapplied_settings h'
       = _unapplied_settings (Hub_init "192.168.0.1" 30 1541000000000 12345)
    /\ dict_get "arg" (@login_params (simulated denying_device)
                         (Hub_init "192.168.0.1" 30 1541000000000 12345) "admin" "secret")
       = Some (@b64encode (simulated denying_device) ("admin" +:+ ":" +:+ "secret")).
Proof.
  apply (@login_stores_session (simulated denying_device) 0 "admin" "secret"
           (Hub_init "192.168.0.1" 30 1541000000000 12345) []
           (mk_response 200 login_envelope) login_envelope
           [("modelname", JStr "Hub 3"); ("family", JStr "TG2492")]);
    try reflexivity; discriminate.
Defined.

Lemma login_401_not_retried_witness :
  exists h',
    @login (simulated (scripted [Answers (mk_response 401 "")])) 1
           (Some "admin") (Some "secret") example_hub []
    = Some (Raise (HTTPError 401), h',
            ([] ++ [EvRequest
                      (request_of example_hub "login"
                         (@login_params (simulated (scripted [Answers (mk_response 401 "")])) example_hub
                            "admin" "secret"))])%list)
    /\ session h' = session example_hub.
Proof.
  apply (@login_401_not_retried (simulated (scripted [Answers (mk_response 401 "")])) 0
           "admin" "secret" example_hub [] (mk_response 401 ""));
    try reflexivity; discriminate.
Defined.

Lemma snmp_set_outcomes_witness :
  exists res h',
    @snmp_set (simulated (scripted [Answers (mk_response 200 "{}")])) 1
              "1.3.6.1" (Some (PStr "a$b")) (Some Type_STRING) example_hub []
    = Some (res, h',
            ([] ++ [EvRequest (@snmp_set_request
                                 (simulated (scripted [Answers (mk_response 200 "{}")]))
                                 example_hub "1.3.6.1" (Some (PStr "a$b")) (Some Type_STRING))])%list)
    /\ res = Raise (SNMPSetError "1.3.6.1")
    /\ _unapplied_settings h' = _unapplied_settings example_hub
    /\ session h' = session example_hub.
Proof.
  destruct (@snmp_set_outcomes (simulated (scripted [Answers (mk_response 200 "{}")])) 0
              "1.3.6.1" (Some (PStr "a$b")) (Some Type_STRING) example_hub []
              (mk_response 200 "{}"))
    as (res & h' & Hrun & Hres & Hflag & Hsession);
    [reflexivity | discriminate | discriminate |].
  change (res = Raise (SNMPSetError "1.3.6.1")) in Hres. rewrite Hres in Hflag.
  exists res, h'. repeat split; assumption.
Defined.

Lemma apply_settings_outcomes_witness :
  exists res h',
    @apply_settings (simulated (scripted [Answers (mk_response 404 "")])) 1
                    (set_unapplied_settings true example_hub) []
    = Some (res, h',
            ([] ++ [EvRequest (@snmp_set_request
                                 (simulated (scripted [Answers (mk_response 404 "")]))
                                 (set_unapplied_settings true example_hub)
                                 commit_oid (Some (PInt 1)) (Some Type_INT))])%list)
    /\ (res = Ok tt <->
        passes 404 = true
        /\ exists members, read_flat_object "" = Some (JObj members)
                           /\ dict_mem commit_oid members = true)
    /\ _unapplied_settings h' = (match res with Ok _ => false | Raise _ => true end).
Proof.
  apply (@apply_settings_outcomes (simulated (scripted [Answers (mk_response 404 "")])) 0
           (set_unapplied_settings true example_hub) [] (mk_response 404 ""));
    try reflexivity; discriminate.
Defined.

Lemma snmp_get_outcomes_witness :
  exists h',
    @snmp_get (simulated (scripted [Answers (mk_response 200
                 ("{" +:+ quoted "1.3.6.1" +:+ ":" +:+ quoted "Hub" +:+ "}"))]))
              1 "1.3.6.1" example_hub []
    = Some (Ok (JStr "Hub"), h',
            ([] ++ [EvRequest (snmp_gets_request example_hub ["1.3.6.1"])])%list)
    /\ session h' = session example_hub
    /\ req_url (snmp_gets_request example_hub ["1.3.6.1"])
       = _url example_hub +:+ "/" +:+ "snmpGet?oids=" +:+ "1.3.6.1" +:+ ";&"
           +:+ _nonce_str example_hub.
Proof.
  apply (@snmp_get_outcomes (simulated (scripted [Answers (mk_response 200
           ("{" +:+ quoted "1.3.6.1" +:+ ":" +:+ quoted "Hub" +:+ "}"))]))
           0 "1.3.6.1" example_hub []
           (mk_response 200 ("{" +:+ quoted "1.3.6.1" +:+ ":" +:+ quoted "Hub" +:+ "}")));
    reflexivity.
Defined.

Lemma snmp_gets_outcomes_witness :
  exists h',
    @snmp_gets (simulated (scripted [Answers (mk_response 200 "not json")]))
               1 ["1.3.6.1"; "1.3.6.2"] example_hub []
    = Some (Raise TypeError, h',
            ([] ++ [EvRequest (snmp_gets_request example_hub ["1.3.6.1"; "1.3.6.2"])])%list)
    /\ session h' = session example_hub.
Proof.
  apply (@snmp_gets_outcomes (simulated (scripted [Answers (mk_response 200 "not json")]))
           0 ["1.3.6.1"; "1.3.6.2"] example_hub [] (mk_response 200 "not json"));
    reflexivity.
Defined.

Lemma table_rows_have_data_witness :
  (forall row,
      In row [mk_row [("a", Some (JStr "x")); ("b", Some (JStr "y"))] 1;
              mk_row [("a", Some (JStr "z")); ("b", None)] 2] ->
      exists name value,
        In name (dict_values [("2", "a"); ("3", "b")]) /\ row_get row name = Some value)
  /\ (length [mk_row [("a", Some (JStr "x")); ("b", Some (JStr "y"))] 1;
              mk_row [("a", Some (JStr "z")); ("b", None)] 2]
      <= length (List.filter (survives "top" [("2", "a"); ("3", "b")])
                   [("top.2.1", JStr "x"); ("top.3.1", JStr "y"); ("top.2.2", JStr "z")]))%nat.
Proof.
  apply (table_rows_have_data "top" [("2", "a"); ("3", "b")]
           [("top.2.1", JStr "x"); ("top.3.1", JStr "y"); ("top.2.2", JStr "z")]).
  vm_compute. reflexivity.
Defined.

Lemma print_table_aligned_witness :
  exists lines n,
    print_table sample_method_text
      [[("name", Some (PStr "ssh")); ("port", Some (PInt 22))];
       [("name", None); ("port", Some (PInt 8080))]]
    = (lines, Ok tt)
    /\ length lines = (4 + 2)%nat
    /\ List.Forall (fun line => String.length line = n) lines.
Proof.
  apply (print_table_aligned sample_method_text ["name"; "port"]
           [[("name", Some (PStr "ssh")); ("port", Some (PInt 22))];
            [("name", None); ("port", Some (PInt 8080))]]).
  - repeat constructor; cbn [In]; intros H; repeat destruct H as [H|H]; discriminate H || exact H.
  - repeat constructor.
  - discriminate.
  - intros c [<-|[<-|[]]]; reflexivity.
Defined.

Lemma print_table_empty_column_witness :
  print_table sample_method_text
    [[("name", Some (PStr "ssh")); ("port", Some (PInt 0))];
     [("name", Some (PStr "web")); ("port", None)]]
  = ([], Raise ValueError).
Proof.
  apply (print_table_empty_column sample_method_text ["name"; "port"] _ "port").
  - repeat constructor; cbn [In]; intros H; repeat destruct H as [H|H]; discriminate H || exact H.
  - repeat constructor.
  - discriminate.
  - right. now left.
  - reflexivity.
Defined.

Lemma extract_ip_then_ipv4_to_dollar_witness :
  extract_ip "$C0A80464" false = Ok (Some "192.168.4.100")
  /\ ipv4_to_dollar "192.168.4.100" = Ok "$c0a80464".
Proof.
  exact (proj2 (proj2 (proj2 (proj2
           (extract_ip_then_ipv4_to_dollar "C" "0" "A" "8" "0" "4" "6" "4" eq_refl))))).
Defined.

Lemma snmp_walk_outcomes_witness :
  exists h',
    @snmp_walk (simulated (scripted [Answers (mk_response 404 walk_answer)]))
               1 "1.3.6" example_hub []
    = Some (Raise (HTTPError 404), h',
            ([] ++ [EvRequest (snmp_walk_request example_hub "1.3.6")])%list)
    /\ session h' = session example_hub
    /\ _unapplied_settings h' = _unapplied_settings example_hub.
Proof.
  apply (@snmp_walk_outcomes (simulated (scripted [Answers (mk_response 404 walk_answer)]))
           0 "1.3.6" example_hub [] (mk_response 404 walk_answer));
    try reflexivity; discriminate.
Defined.

Lemma snmp_table_passes_rows_witness :
  exists wrapper h',
    @snmp_table (simulated (scripted [Answers (mk_response 200 walk_answer)])) nat
                1 "1.3" [("6", "name")] (fun rows => mret (length rows))
    = Ok wrapper
    /\ wrapper example_hub []
       = (mret (length [mk_row [("name", Some (JStr "a"))] 1]) : M nat) h'
           ([] ++ [EvRequest (snmp_walk_request example_hub "1.3")])%list.
Proof.
  apply (@snmp_table_passes_rows (simulated (scripted [Answers (mk_response 200 walk_answer)]))
           nat 0 "1.3" [("6", "name")] (fun rows => mret (length rows)) ["name"; "row_idx"]
           example_hub [] (mk_response 200 walk_answer)
           [("1.3.6.1", JStr "a"); ("1", JStr "Finish")]);
    vm_compute; reflexivity.
Defined.

Lemma get_counts_its_sleeps_witness :
  match @_get (simulated (scripted [Answers (mk_response 500 "");
                                    Answers (mk_response 500 "");
                                    Answers (mk_response 204 "")]))
              3 "snmpGet" 5 3 [] example_hub [] with
  | Some (_, h', w') =>
      exists evs,
        w' = ([] ++ evs)%list
        /\ counter "_get_retries_500" h'
           = counter "_get_retries_500" example_hub + Z.of_nat (length (sleeps evs))
        /\ counter "_get_retries_500_sleep_secs" h'
           = counter "_get_retries_500_sleep_secs" example_hub + 2 * sum_Z (sleeps evs)
  | None => False
  end.
Proof.
  destruct (@_get (simulated (scripted [Answers (mk_response 500 "");
                                        Answers (mk_response 500 "");
                                        Answers (mk_response 204 "")]))
                  3 "snmpGet" 5 3 [] example_hub [])
    as [[[res h'] w']|] eqn:Hrun; [|vm_compute in Hrun; discriminate Hrun].
  exact (@get_counts_its_sleeps _ _ _ _ _ _ example_hub _ _ _ _ (fun _ => eq_refl) Hrun).
Defined.
